(** * Jarvis launcher: command dispatcher and the two automators

    A shallow embedding of

    - [jarvis_ui/main_window.py]       (class [JarvisLauncher]),
    - [jarvis_utils/windows_automator.py] (class [WindowsAutomator]),
    - [jarvis_utils/android_automator.py] (class [AndroidAutomator]),

    followed by the properties of the dispatch contract.

    Python text is modelled as [string]; a character is a code point
    below 256.  Everything the program asks of its surroundings (imports,
    processes, the file system) is answered by an environment whose
    answers may depend on all the requests made so far. *)

From Stdlib Require Import ZArith Ascii String List Bool Lia.
From stdpp Require Import base tactics option list strings pretty gmap.

Local Open Scope string_scope.
Local Open Scope list_scope.

(** ** Python string operations *)

Module Py.

Definition code (c : ascii) : N := N_of_ascii c.

(** [str.isspace] on one character: TAB..CR, FS..US, space, NEL, NBSP. *)
Definition isspace (c : ascii) : bool :=
  let n := code c in
  ((9 <=? n) && (n <=? 13) || (28 <=? n) && (n <=? 32)
   || (n =? 133) || (n =? 160))%N.

(** [str.lower] on one character: A..Z and the upper-case letters of the
    Latin-1 block (all of 192..222 but the multiplication sign). *)
Definition lower_char (c : ascii) : ascii :=
  let n := code c in
  if ((65 <=? n) && (n <=? 90)
      || (192 <=? n) && (n <=? 222) && negb (n =? 215))%N
  then ascii_of_N (n + 32) else c.

Fixpoint lower (s : string) : string :=
  match s with
  | "" => ""
  | String c s' => String (lower_char c) (lower s')
  end.

(** [s.split()]: the maximal runs of characters that are not white space. *)
Fixpoint split (s : string) : list string :=
  match s with
  | "" => []
  | String c s' =>
      if isspace c then split s'
      else match s' with
           | "" => [String c ""]
           | String d _ =>
               if isspace d then String c "" :: split s'
               else match split s' with
                    | w :: ws => String c w :: ws
                    | [] => [String c ""]
                    end
           end
  end.

(** [s.split(sep)] for a one-character separator. *)
Fixpoint split_on (sep : ascii) (s : string) : list string :=
  match s with
  | "" => [""]
  | String c s' =>
      if Ascii.eqb c sep then "" :: split_on sep s'
      else match split_on sep s' with
           | w :: ws => String c w :: ws
           | [] => [String c ""]
           end
  end.

(** [sep.join(l)] *)
Definition join (sep : string) (l : list string) : string :=
  String.concat sep l.

Fixpoint lstrip (s : string) : string :=
  match s with
  | "" => ""
  | String c s' => if isspace c then lstrip s' else s
  end.

Fixpoint rstrip (s : string) : string :=
  match s with
  | "" => ""
  | String c s' =>
      match rstrip s' with
      | "" => if isspace c then "" else String c ""
      | r => String c r
      end
  end.

Definition strip (s : string) : string := rstrip (lstrip s).

(** [sub in s] *)
Fixpoint contains (sub s : string) : bool :=
  String.prefix sub s ||
  match s with
  | "" => false
  | String _ s' => contains sub s'
  end.

(** [s.endswith(suf)] *)
Definition endswith (suf s : string) : bool :=
  String.prefix (String.rev suf) (String.rev s).

(** [s.replace("'", "'\\''")] *)
Fixpoint escape_quotes (s : string) : string :=
  match s with
  | "" => ""
  | String c s' =>
      if Ascii.eqb c "'"%char then "'\''" +:+ escape_quotes s'
      else String c (escape_quotes s')
  end.

Definition digit (c : ascii) : option Z :=
  let n := code c in
  if ((48 <=? n) && (n <=? 57))%N then Some (Z.of_N (n - 48)) else None.

(** The digits of a decimal literal: groups of digits, single underscores
    allowed between two digits only. *)
Fixpoint int_digits (acc : Z) (after_digit : bool) (s : string) : option Z :=
  match s with
  | "" => if after_digit then Some acc else None
  | String c s' =>
      match digit c with
      | Some d => int_digits (10 * acc + d) true s'
      | None =>
          if Ascii.eqb c "_"%char && after_digit
          then int_digits acc false s'
          else None
      end
  end.

(** The white space [int] skips around a literal: TAB..CR and the space,
    and NEL and NBSP, which it reads as spaces.  The separators FS..US
    are white space for [str.split] but not for [int]. *)
Definition int_isspace (c : ascii) : bool :=
  let n := code c in
  ((9 <=? n) && (n <=? 13) || (n =? 32) || (n =? 133) || (n =? 160))%N.

Fixpoint int_lstrip (s : string) : string :=
  match s with
  | "" => ""
  | String c s' => if int_isspace c then int_lstrip s' else s
  end.

Fixpoint int_rstrip (s : string) : string :=
  match s with
  | "" => ""
  | String c s' =>
      match int_rstrip s' with
      | "" => if int_isspace c then "" else String c ""
      | r => String c r
      end
  end.

(** The number of digit characters of a literal; underscores do not
    count. *)
Fixpoint count_digits (s : string) : N :=
  match s with
  | "" => 0
  | String c s' =>
      match digit c with
      | Some _ => N.succ (count_digits s')
      | None => count_digits s'
      end
  end.

(** [sys.get_int_max_str_digits()], left at its default. *)
Definition int_max_str_digits : N := 4300.

(** A literal without its sign: one with more digits than the
    interpreter converts is refused. *)
Definition int_literal (s : string) : option Z :=
  if (int_max_str_digits <? count_digits s)%N then None
  else int_digits 0 false s.

(** [int(s)]: [None] stands for [ValueError]. *)
Definition int (s : string) : option Z :=
  match int_rstrip (int_lstrip s) with
  | String "+" r => int_literal r
  | String "-" r => Z.opp <$> int_literal r
  | r => int_literal r
  end.

(** [str(n)] for an integer. *)
Definition str_of_int (n : Z) : string := pretty n.

(** [x in l] for a list of strings. *)
Definition elem (x : string) (l : list string) : bool :=
  existsb (String.eqb x) l.

(** [l.index(x)]: [None] stands for [ValueError]. *)
Fixpoint index (x : string) (l : list string) : option nat :=
  match l with
  | [] => None
  | y :: l' => if String.eqb y x then Some 0 else S <$> index x l'
  end.

End Py.

(** ** The environment

    Exceptions are distinguished as far as the program's [except] clauses
    distinguish them; each carries its [str(e)]. *)

Inductive Exn : Type :=
| ImportError (msg : string)
| FileNotFoundError (msg : string)
| CalledProcessError (msg stderr stdout : string)
| IndexError (msg : string)
| AttributeError (msg : string)
| OtherException (msg : string).

Definition exn_str (e : Exn) : string :=
  match e with
  | ImportError m | FileNotFoundError m | CalledProcessError m _ _
  | IndexError m | AttributeError m | OtherException m => m
  end.

Inductive PyModule : Type := WindowsModule | AndroidModule.

(** What the program asks of its surroundings, in the order it asks.
    [ERun argv true] is the [subprocess.run] of [_run_adb_command] (the one
    that passes [encoding] and [errors]); [ERun argv false] is the
    [subprocess.run] of [_check_adb_device]. *)
Inductive Event : Type :=
| EImport (m : PyModule)
| EPopen (cmd : string) (no_window : bool)
| ERun (argv : list string) (utf8 : bool)
| EExists (path : string)
| EIsdir (path : string)
| EListdir (path : string)
| EMakedirs (path : string)
| EPrint (text : string) (items : option (list string)).

Definition Trace : Type := list Event.

(** The answers.  Each may depend on the whole history.  [env_run] is the
    outcome of evaluating the whole call expression, so a platform without
    [subprocess.CREATE_NO_WINDOW] answers with an [AttributeError]. *)
Record Env : Type := {
  env_import : Trace -> PyModule -> option Exn;
  env_popen : Trace -> string -> option Exn;
  env_run : Trace -> list string -> string + Exn;
  env_exists : Trace -> string -> bool;
  env_isdir : Trace -> string -> bool;
  env_listdir : Trace -> string -> list string + Exn;
  env_makedirs : Trace -> string -> option Exn;
  env_dirname : string -> string;
  env_win32 : bool
}.

(** ** Program state *)

Inductive WindowsAutomator : Type := mkWindowsAutomator.

Record AndroidAutomator : Type := mkAndroidAutomator { adb_path : string }.

(** An instance attribute: never assigned, assigned [None], or an object. *)
Inductive Attr (A : Type) : Type :=
| Missing
| PyNone
| Obj (a : A).
Arguments Missing {A}.
Arguments PyNone {A}.
Arguments Obj {A} a.

(** [not hasattr(self, name) or self.name is None] *)
Definition absent {A} (x : Attr A) : bool :=
  match x with Obj _ => false | _ => true end.

(** The log holds the messages in the order they were appended; the widget
    shows each as a line with its time of day in front. *)
Record State : Type := mkState {
  windows_automator_instance : Attr WindowsAutomator;
  android_automator_instance : Attr AndroidAutomator;
  log : list string;
  trace : Trace
}.

Definition set_windows (x : Attr WindowsAutomator) (s : State) : State :=
  mkState x (android_automator_instance s) (log s) (trace s).
Definition set_android (x : Attr AndroidAutomator) (s : State) : State :=
  mkState (windows_automator_instance s) x (log s) (trace s).
Definition set_log (l : list string) (s : State) : State :=
  mkState (windows_automator_instance s) (android_automator_instance s) l (trace s).
Definition set_trace (t : Trace) (s : State) : State :=
  mkState (windows_automator_instance s) (android_automator_instance s) (log s) t.

(** [JarvisLauncher.__init__]: no handle attribute is assigned. *)
Definition initial_state : State := mkState Missing Missing [] [].

(** ** A state and exception monad *)

Inductive Res (A : Type) : Type :=
| Ok (a : A)
| Raise (e : Exn).
Arguments Ok {A} a.
Arguments Raise {A} e.

Definition M (A : Type) : Type := State -> Res A * State.

Definition ret {A} (a : A) : M A := fun s => (Ok a, s).
Definition raise {A} (e : Exn) : M A := fun s => (Raise e, s).
Definition bind {A B} (m : M A) (k : A -> M B) : M B :=
  fun s => match m s with
           | (Ok a, s') => k a s'
           | (Raise e, s') => (Raise e, s')
           end.
Definition try_catch {A} (m : M A) (h : Exn -> M A) : M A :=
  fun s => match m s with
           | (Ok a, s') => (Ok a, s')
           | (Raise e, s') => h e s'
           end.
Definition get : M State := fun s => (Ok s, s).
Definition modify (f : State -> State) : M unit := fun s => (Ok tt, f s).

Declare Scope m_scope.
Delimit Scope m_scope with M.
Notation "x <- m ;; k" := (bind m (fun x => k))
  (at level 100, m at next level, right associativity) : m_scope.
Notation "m ;; k" := (bind m (fun _ => k))
  (at level 100, right associativity) : m_scope.
Local Open Scope m_scope.

(** A value that is a string in some returns and a list in others. *)
Inductive Payload : Type :=
| PStr (s : string)
| PList (l : list string).

Section Program.

Context (env : Env).

(** One request: the answer is read off the history, then the request
    joins the history. *)
Definition request {A} (e : Event) (answer : Trace -> A) : M A :=
  fun s => (Ok (answer (trace s)), set_trace (trace s ++ [e]) s).

Definition sys_import (m : PyModule) : M (option Exn) :=
  request (EImport m) (fun t => env_import env t m).
Definition sys_popen (cmd : string) (no_window : bool) : M (option Exn) :=
  request (EPopen cmd no_window) (fun t => env_popen env t cmd).
Definition sys_run (argv : list string) (utf8 : bool) : M (string + Exn) :=
  request (ERun argv utf8) (fun t => env_run env t argv).
Definition sys_exists (p : string) : M bool :=
  request (EExists p) (fun t => env_exists env t p).
Definition sys_isdir (p : string) : M bool :=
  request (EIsdir p) (fun t => env_isdir env t p).
Definition sys_listdir (p : string) : M (list string + Exn) :=
  request (EListdir p) (fun t => env_listdir env t p).
Definition sys_makedirs (p : string) : M (option Exn) :=
  request (EMakedirs p) (fun t => env_makedirs env t p).
Definition print (text : string) (items : option (list string)) : M unit :=
  request (EPrint text items) (fun _ => tt).


(** *** [windows_automator.py] *)

Definition open_application (self : WindowsAutomator) (app_name : string)
  : M (bool * string) :=
  let creation_flags := env_win32 env in
  r <- sys_popen ("start " +:+ app_name) creation_flags ;;
  match r with
  | None => ret (true, "Attempting to open '" +:+ app_name +:+ "'.")
  | Some e =>
      ret (false, "Error opening application '" +:+ app_name +:+ "': "
                  +:+ exn_str e)
  end.

Definition list_directory_contents (self : WindowsAutomator)
  (dir_path : string) : M (bool * Payload) :=
  ex <- sys_exists dir_path ;;
  unusable <- (if negb ex then ret true
               else (d <- sys_isdir dir_path ;; ret (negb d))) ;;
  if unusable : bool then
    ret (false, PStr ("Error: Directory '" +:+ dir_path
                      +:+ "' not found or is not a directory."))
  else
    r <- sys_listdir dir_path ;;
    match r with
    | inl contents => ret (true, PList contents)
    | inr e =>
        ret (false, PStr ("Error listing directory '" +:+ dir_path +:+ "': "
                          +:+ exn_str e))
    end.

Definition commands : gmap string string :=
  <["shutdown" := "shutdown /s /t 1"]>
    (<["restart" := "shutdown /r /t 1"]> ∅).

Definition system_command (self : WindowsAutomator) (command_key : string)
  (confirmation_required : bool) : M (bool * string) :=
  match commands !! command_key with
  | None => ret (false, "Unknown system command: " +:+ command_key)
  | Some actual =>
      (if confirmation_required then ret tt else ret tt) ;;
      (* the Popen of [actual] is commented out in the source *)
      ret (true, "Simulating execution of system command: '" +:+ command_key
                 +:+ "'. Actual command: '" +:+ actual +:+ "'")
  end.

Definition take_screenshot (self : WindowsAutomator)
  (output_filepath : string) : M (bool * string) :=
  ret (false,
       "Screenshot functionality is a placeholder and not yet implemented.").

(** *** [android_automator.py] *)

Definition nonempty (s : string) : bool :=
  match s with "" => false | _ => true end.

Definition _check_adb_device (self : AndroidAutomator) : M bool :=
  r <- sys_run [adb_path self; "--version"] false ;;
  match r with
  | inr (CalledProcessError _ _ _) | inr (FileNotFoundError _) =>
      print "Warning: ADB command not found or not working. Please ensure ADB is installed and in your PATH." None ;;
      ret false
  | inr e => raise e
  | inl _ =>
      r2 <- sys_run [adb_path self; "devices"] false ;;
      match r2 with
      | inl stdout =>
          let devices := tail (Py.split_on "010" (Py.strip stdout)) in
          if match devices with
             | [] => true
             | [d] => negb (nonempty (Py.strip d))
             | _ => false
             end
          then
            print "Warning: No Android devices or emulators found connected via ADB." None ;;
            ret false
          else
            let active_devices :=
              List.filter
                (fun line => nonempty (Py.strip line)
                             && negb (Py.endswith (String "009" "offline") line))
                devices in
            match active_devices with
            | [] =>
                print "Warning: No active Android devices or emulators found. Some might be offline." None ;;
                ret false
            | _ =>
                print "ADB initialized. Connected devices/emulators found: "
                      (Some active_devices) ;;
                ret true
            end
      | inr (CalledProcessError m _ _) | inr (FileNotFoundError m) =>
          print ("Error checking ADB devices: " +:+ m) None ;;
          ret false
      | inr e =>
          print ("An unexpected error occurred while checking ADB devices: "
                 +:+ exn_str e) None ;;
          ret false
      end
  end.

(** [AndroidAutomator.__init__] *)
Definition AndroidAutomator_init (adb : string) : M AndroidAutomator :=
  let self := mkAndroidAutomator adb in
  _check_adb_device self ;;
  ret self.

(** [if device_id:] holds for a string that is not empty. *)
Definition device_selector (device_id : option string) : list string :=
  match device_id with
  | Some d => if nonempty d then ["-s"; d] else []
  | None => []
  end.

Definition _run_adb_command (self : AndroidAutomator)
  (command_parts : list string) (device_id : option string)
  : M (bool * string) :=
  let base_command := [adb_path self] ++ device_selector device_id in
  let full_command := base_command ++ command_parts in
  r <- sys_run full_command true ;;
  match r with
  | inl stdout => ret (true, Py.strip stdout)
  | inr (FileNotFoundError _) =>
      ret (false, "Error: ADB executable not found. Please ensure it's installed and in your PATH.")
  | inr (CalledProcessError _ stderr stdout) =>
      let error_message :=
        if nonempty stderr then Py.strip stderr else Py.strip stdout in
      ret (false, "ADB Command Error: '" +:+ Py.join " " full_command
                  +:+ "' failed with: " +:+ error_message)
  | inr e => ret (false, "An unexpected error occurred: " +:+ exn_str e)
  end.

Definition list_connected_devices (self : AndroidAutomator)
  : M (bool * Payload) :=
  r <- _run_adb_command self ["devices"] None ;;
  let '(success, output) := r in
  if success : bool then
    let lines := Py.split_on "010" (Py.strip output) in
    let devices :=
      List.map (fun line => hd "" (Py.split_on "009" line))
               (List.filter (fun line => nonempty (Py.strip line)) (tail lines)) in
    ret (true, PList devices)
  else ret (false, PStr output).

Definition open_app (self : AndroidAutomator) (package_name : string)
  (device_id : option string) : M (bool * string) :=
  r <- _run_adb_command self
         ["shell"; "monkey"; "-p"; package_name;
          "-c"; "android.intent.category.LAUNCHER"; "1"] device_id ;;
  let '(success, output) := r in
  if success : bool then
    if Py.contains "Events injected: 1" output || negb (nonempty output) then
      ret (true, "Attempting to open app '" +:+ package_name +:+ "'.")
    else
      r2 <- _run_adb_command self
              ["shell"; "pm"; "list"; "packages"; package_name] device_id ;;
      let '(exists_success, exists_output) := r2 in
      if (exists_success : bool) && Py.contains package_name exists_output then
        ret (false, "App '" +:+ package_name
                    +:+ "' found, but could not be launched via monkey. Output: "
                    +:+ output)
      else
        ret (false, "Failed to open app '" +:+ package_name
                    +:+ "'. It might not be installed or launchable. ADB Output: "
                    +:+ output)
  else ret (false, output).

Definition send_intent (self : AndroidAutomator) (intent_action : string)
  (data_uri package component_name device_id : option string)
  : M (bool * string) :=
  let truthy o := match o with Some x => if nonempty x then [x] else [] | None => [] end in
  let command :=
    ["shell"; "am"; "start"]
    ++ flat_map (fun x => ["-p"; x]) (truthy package)
    ++ flat_map (fun x => ["-n"; x]) (truthy component_name)
    ++ ["-a"; intent_action]
    ++ flat_map (fun x => ["-d"; x]) (truthy data_uri) in
  r <- _run_adb_command self command device_id ;;
  let '(success, output) := r in
  if success : bool then
    if negb (Py.contains "Error" output) && negb (Py.contains "Exception" output)
    then ret (true, "Intent '" +:+ intent_action +:+ "' sent. Output: " +:+ output)
    else ret (false, "Error sending intent '" +:+ intent_action
                     +:+ "'. Output: " +:+ output)
  else ret (false, output).

Definition simulate_input_tap (self : AndroidAutomator) (x y : Z)
  (device_id : option string) : M (bool * string) :=
  _run_adb_command self
    ["shell"; "input"; "tap"; Py.str_of_int x; Py.str_of_int y] device_id.

Definition simulate_input_swipe (self : AndroidAutomator)
  (x1 y1 x2 y2 duration_ms : Z) (device_id : option string)
  : M (bool * string) :=
  _run_adb_command self
    ["shell"; "input"; "swipe"; Py.str_of_int x1; Py.str_of_int y1;
     Py.str_of_int x2; Py.str_of_int y2; Py.str_of_int duration_ms]
    device_id.

Definition simulate_input_text (self : AndroidAutomator)
  (text_to_type : string) (device_id : option string) : M (bool * string) :=
  let escaped_text := Py.escape_quotes text_to_type in
  _run_adb_command self ["shell"; "input"; "text"; escaped_text] device_id.

(** Step 2 of [take_screenshot_android] up to the pull: the local
    directory is created when it is named and does not exist. *)
Definition ensure_local_dir (local_save_path : string) : M unit :=
  let local_dir := env_dirname env local_save_path in
  if nonempty local_dir then
    ex <- sys_exists local_dir ;;
    if negb ex then
      r <- sys_makedirs local_dir ;;
      match r with
      | None => ret tt
      | Some e => raise e
      end
    else ret tt
  else ret tt.

Definition take_screenshot_android (self : AndroidAutomator)
  (local_save_path device_sdcard_path : string) (device_id : option string)
  : M (bool * string) :=
  r <- _run_adb_command self ["shell"; "screencap"; device_sdcard_path]
         device_id ;;
  let '(success, output) := r in
  if negb success then
    ret (false, "Failed to take screenshot on device: " +:+ output)
  else
    ensure_local_dir local_save_path ;;
    r2 <- _run_adb_command self ["pull"; device_sdcard_path; local_save_path]
            device_id ;;
    let '(success_pull, output_pull) := r2 in
    if negb success_pull then
      ret (false, "Failed to pull screenshot from device ("
                  +:+ device_sdcard_path +:+ ") to " +:+ local_save_path
                  +:+ ": " +:+ output_pull)
    else
      _run_adb_command self ["shell"; "rm"; device_sdcard_path] device_id ;;
      ret (true, "Screenshot saved to " +:+ local_save_path).

End Program.

(** ** [main_window.py]: the dispatcher *)

Section Launcher.

Context (env : Env).

Definition log_message (message : string) : M unit :=
  modify (fun s => set_log (log s ++ [message]) s).

(** Reading an instance attribute: one that was never assigned raises. *)
Definition read_attr {A} (name : string) (x : Attr A) : M (option A) :=
  match x with
  | Missing => raise (AttributeError name)
  | PyNone => ret None
  | Obj a => ret (Some a)
  end.

Definition load_windows_automator : M (option WindowsAutomator) :=
  s <- get ;;
  (if absent (windows_automator_instance s) then
     try_catch
       (r <- sys_import env WindowsModule ;;
        match r with
        | Some e => raise e
        | None =>
            modify (set_windows (Obj mkWindowsAutomator)) ;;
            log_message "Jarvis: WindowsAutomator loaded."
        end)
       (fun e =>
          match e with
          | ImportError _ =>
              log_message "Jarvis Error: Could not import WindowsAutomator module." ;;
              modify (set_windows PyNone)
          | _ =>
              log_message ("Jarvis Error: Failed to initialize WindowsAutomator: "
                           +:+ exn_str e) ;;
              modify (set_windows PyNone)
          end)
   else ret tt) ;;
  s' <- get ;;
  read_attr "windows_automator_instance" (windows_automator_instance s').

Definition load_android_automator : M (option AndroidAutomator) :=
  s <- get ;;
  (if absent (android_automator_instance s) then
     try_catch
       (r <- sys_import env AndroidModule ;;
        match r with
        | Some e => raise e
        | None =>
            a <- AndroidAutomator_init env "adb" ;;
            modify (set_android (Obj a)) ;;
            log_message "Jarvis: AndroidAutomator loaded. Initializing ADB connection..."
        end)
       (fun e =>
          match e with
          | ImportError _ =>
              log_message "Jarvis Error: Could not import AndroidAutomator module." ;;
              modify (set_android PyNone)
          | _ =>
              log_message ("Jarvis Error: Failed to initialize AndroidAutomator: "
                           +:+ exn_str e) ;;
              modify (set_android PyNone)
          end)
   else ret tt) ;;
  s' <- get ;;
  read_attr "android_automator_instance" (android_automator_instance s').

(** Lines 149 to 166 of [handle_open_command]: the target and the words
    of the application name. *)
Definition open_target (parts : list string) : string * list string :=
  let target_os := "windows" in
  let app_name_parts := tail parts in
  if Py.elem "on" app_name_parts then
    match Py.index "on" app_name_parts with
    | Some on_index =>
        if Nat.ltb (on_index + 1) (length app_name_parts) then
          let specified_os :=
            Py.lower (nth (on_index + 1) app_name_parts "") in
          if Py.elem specified_os ["android"; "windows"] then
            (specified_os, take on_index app_name_parts)
          else (target_os, app_name_parts)
        else (target_os, app_name_parts)
    | None => (target_os, app_name_parts)
    end
  else (target_os, app_name_parts).

Definition handle_open_command (parts : list string) (command_text : string)
  : M unit :=
  let '(target_os, app_name_parts) := open_target parts in
  let app_name := Py.join " " app_name_parts in
  if negb (nonempty app_name) then
    log_message "Jarvis: No application name specified for 'open' command."
  else if String.eqb target_os "windows" then
    win_automator <- load_windows_automator ;;
    match win_automator with
    | Some w =>
        r <- open_application env w app_name ;;
        log_message ("Jarvis (Win): " +:+ snd r)
    | None => log_message "Jarvis: WindowsAutomator not available/loaded."
    end
  else if String.eqb target_os "android" then
    droid_automator <- load_android_automator ;;
    match droid_automator with
    | Some d =>
        log_message ("Jarvis (Droid): Attempting to open '" +:+ app_name
                     +:+ "'. (Note: This should be a package name for Android).") ;;
        r <- open_app env d app_name None ;;
        log_message ("Jarvis (Droid): " +:+ snd r)
    | None =>
        log_message "Jarvis: AndroidAutomator not available/loaded, or no device connected."
    end
  else
    log_message ("Jarvis: Target OS '" +:+ target_os
                 +:+ "' not recognized for open command.").

Fixpoint log_items (items : list string) : M unit :=
  match items with
  | [] => ret tt
  | item :: rest => log_message ("  - " +:+ item) ;; log_items rest
  end.

Definition handle_list_command (parts : list string) : M unit :=
  let dir_path := Py.join " " (tail parts) in
  win_automator <- load_windows_automator ;;
  match win_automator with
  | Some w =>
      r <- list_directory_contents env w dir_path ;;
      let '(success, result) := r in
      if success : bool then
        log_message ("Jarvis (Win): Contents of '" +:+ dir_path +:+ "':") ;;
        match result with
        | PList items => log_items items
        | PStr msg => log_message ("  " +:+ msg)
        end
      else
        match result with
        | PStr msg => log_message ("Jarvis (Win): " +:+ msg)
        | PList items =>
            log_message ("Jarvis (Win): [" +:+ Py.join ", " items +:+ "]")
        end
  | None => log_message "Jarvis: WindowsAutomator not available/loaded."
  end.

Definition handle_system_command (parts : list string) : M unit :=
  match parts with
  | _ :: command_key :: _ =>
      win_automator <- load_windows_automator ;;
      match win_automator with
      | Some w =>
          r <- system_command w command_key false ;;
          log_message ("Jarvis (Win): " +:+ snd r)
      | None => log_message "Jarvis: WindowsAutomator not available/loaded."
      end
  | _ => raise (IndexError "list index out of range")
  end.

Definition has_image_extension (name : string) : bool :=
  let l := Py.lower name in
  Py.endswith ".png" l || Py.endswith ".jpg" l || Py.endswith ".jpeg" l.

Definition handle_screenshot_command (parts : list string) : M unit :=
  let filename_base := "jarvis_screenshot" in
  let arg1 := Py.lower <$> (parts !! 1%nat) in
  let arg2 := parts !! 2%nat in
  let truthy (o : option string) :=
    match o with Some x => if nonempty x then Some x else None | None => None end in
  let '(target_os, custom_filename) :=
    if bool_decide (arg1 = Some "android") then ("android", truthy arg2)
    else if bool_decide (arg1 = Some "windows") then ("windows", truthy arg2)
    else match truthy arg1 with
         | Some a => ("windows", Some a)
         | None => ("windows", None)
         end in
  let custom_filename :=
    match custom_filename with
    | Some f => if has_image_extension f then Some f else Some (f +:+ ".png")
    | None => None
    end in
  let final_filename :=
    match custom_filename with
    | Some f => f
    | None => filename_base +:+ "_" +:+ target_os +:+ ".png"
    end in
  if String.eqb target_os "windows" then
    win_automator <- load_windows_automator ;;
    match win_automator with
    | Some w =>
        r <- take_screenshot w final_filename ;;
        log_message ("Jarvis (Win): " +:+ snd r)
    | None => log_message "Jarvis: WindowsAutomator not available/loaded."
    end
  else if String.eqb target_os "android" then
    droid_automator <- load_android_automator ;;
    match droid_automator with
    | Some d =>
        r <- take_screenshot_android env d final_filename
               "/sdcard/screenshot.png" None ;;
        log_message ("Jarvis (Droid): " +:+ snd r)
    | None =>
        log_message "Jarvis: AndroidAutomator not available/loaded, or no device connected."
    end
  else
    log_message ("Jarvis: Target OS '" +:+ target_os
                 +:+ "' not recognized for screenshot.").

Definition handle_adb_command (parts : list string) : M unit :=
  droid_automator <- load_android_automator ;;
  match droid_automator with
  | None =>
      log_message "Jarvis: AndroidAutomator not available/loaded, or no device connected."
  | Some d =>
      match parts with
      | _ :: sub_command :: args =>
          if String.eqb sub_command "devices" then
            r <- list_connected_devices env d ;;
            let '(success, dev_list) := r in
            if success : bool then
              match dev_list with
              | PList ((_ :: _) as devs) =>
                  log_message "Jarvis (Droid) Connected Devices/Emulators:" ;;
                  log_items devs
              | _ =>
                  log_message "Jarvis (Droid): No devices found connected via ADB."
              end
            else
              log_message ("Jarvis (Droid) Error listing devices: "
                           +:+ match dev_list with
                               | PStr m => m
                               | PList l => "[" +:+ Py.join ", " l +:+ "]"
                               end)
          else if String.eqb sub_command "tap" && Nat.eqb (length args) 2 then
            match Py.int (nth 0 args ""), Py.int (nth 1 args "") with
            | Some x, Some y =>
                r <- simulate_input_tap env d x y None ;;
                log_message ("Jarvis (Droid) Tap at (" +:+ Py.str_of_int x
                             +:+ "," +:+ Py.str_of_int y +:+ "): " +:+ snd r)
            | _, _ =>
                log_message "Jarvis (Droid) Error: Invalid coordinates for tap. Usage: adb tap <x> <y>"
            end
          else if String.eqb sub_command "swipe" && Nat.leb 4 (length args) then
            match mapM Py.int (take 4 args),
                  (match args !! 4%nat with
                   | Some a => Py.int a
                   | None => Some 300%Z
                   end) with
            | Some [x1; y1; x2; y2], Some duration =>
                r <- simulate_input_swipe env d x1 y1 x2 y2 duration None ;;
                log_message ("Jarvis (Droid) Swipe from (" +:+ Py.str_of_int x1
                             +:+ "," +:+ Py.str_of_int y1 +:+ ") to ("
                             +:+ Py.str_of_int x2 +:+ "," +:+ Py.str_of_int y2
                             +:+ ") duration " +:+ Py.str_of_int duration
                             +:+ "ms: " +:+ snd r)
            | _, _ =>
                log_message "Jarvis (Droid) Error: Invalid coordinates/duration for swipe. Usage: adb swipe <x1> <y1> <x2> <y2> [duration_ms]"
            end
          else if String.eqb sub_command "text" && Nat.ltb 0 (length args) then
            let text_to_type := Py.join " " args in
            r <- simulate_input_text env d text_to_type None ;;
            log_message ("Jarvis (Droid) Text input '" +:+ text_to_type
                         +:+ "': " +:+ snd r)
          else
            log_message ("Jarvis (Droid): Unknown ADB sub-command '"
                         +:+ sub_command +:+ "' or incorrect arguments.") ;;
            log_message "Supported ADB via UI: devices, tap <x> <y>, swipe <x1> <y1> <x2> <y2> [duration_ms], text <string to type>"
      | _ => raise (IndexError "list index out of range")
      end
  end.

Definition not_recognized (command_text : string) : string :=
  "Jarvis: Command '" +:+ command_text
  +:+ "' not recognized or arguments missing.".

Definition process_ui_command (command_text : string) : M unit :=
  log_message ("User command: " +:+ command_text) ;;
  let parts := Py.split (Py.lower command_text) in
  match parts with
  | [] => ret tt
  | action :: _ =>
      (if Py.elem action ["list"; "system"]
          || Py.contains "open" action
             && negb (Py.contains "android" (Py.lower command_text))
       then
         s <- get ;;
         if absent (windows_automator_instance s)
         then (load_windows_automator ;; ret tt) else ret tt
       else ret tt) ;;
      (if Py.contains "android" (Py.lower command_text)
          || String.eqb action "adb"
       then
         s <- get ;;
         if absent (android_automator_instance s)
         then (load_android_automator ;; ret tt) else ret tt
       else ret tt) ;;
      if String.eqb action "hello" then
        log_message "Jarvis: Hello there!"
      else if String.eqb action "open" && Nat.ltb 1 (length parts) then
        handle_open_command parts command_text
      else if String.eqb action "list" && Nat.ltb 1 (length parts) then
        handle_list_command parts
      else if String.eqb action "system" && Nat.ltb 1 (length parts) then
        handle_system_command parts
      else if String.eqb action "screenshot" then
        handle_screenshot_command parts
      else if String.eqb action "adb" && Nat.ltb 1 (length parts) then
        handle_adb_command parts
      else
        log_message (not_recognized command_text)
  end.

(** [handle_command]: an empty input line is not processed. *)
Definition handle_command (command_text : string) : M unit :=
  if nonempty command_text then process_ui_command command_text else ret tt.

End Launcher.

(** ** Environments and vocabulary for the properties *)

(** An environment in which every module loads, every process succeeds
    with the given output, and the file system has nothing. *)
Definition quiet_env (stdout : string) : Env :=
  {| env_import := fun _ _ => None;
     env_popen := fun _ _ => None;
     env_run := fun _ _ => inl stdout;
     env_exists := fun _ _ => false;
     env_isdir := fun _ _ => false;
     env_listdir := fun _ _ => inl [];
     env_makedirs := fun _ _ => None;
     env_dirname := fun _ => "";
     env_win32 := true |}.

(** The kinds of request.  [KAdb] is a run of the ADB command runner,
    [KCheck] a run made by the availability check of the constructor. *)
Inductive Kind : Type := KImport | KPopen | KAdb | KCheck | KFs | KPrint.

Global Instance Kind_eq_dec : EqDecision Kind.
Proof. solve_decision. Defined.

Definition kind (e : Event) : Kind :=
  match e with
  | EImport _ => KImport
  | EPopen _ _ => KPopen
  | ERun _ true => KAdb
  | ERun _ false => KCheck
  | EExists _ | EIsdir _ | EListdir _ | EMakedirs _ => KFs
  | EPrint _ _ => KPrint
  end.

Definition kind_is_run (e : Event) : Prop := kind e = KAdb \/ kind e = KCheck.

Global Instance kind_is_run_dec (e : Event) : Decision (kind_is_run e).
Proof. unfold kind_is_run. apply _. Defined.

(** A directory that exists and whose listing is refused. *)
Definition protected_dir_env : Env :=
  {| env_import := fun _ _ => None;
     env_popen := fun _ _ => None;
     env_run := fun _ _ => inl "";
     env_exists := fun _ _ => true;
     env_isdir := fun _ _ => true;
     env_listdir := fun _ _ => inr (OtherException "Permission Denied");
     env_makedirs := fun _ _ => None;
     env_dirname := fun _ => "";
     env_win32 := true |}.

(** A directory with two entries. *)
Definition listing_env : Env :=
  {| env_import := fun _ _ => None;
     env_popen := fun _ _ => None;
     env_run := fun _ _ => inl "";
     env_exists := fun _ _ => true;
     env_isdir := fun _ _ => true;
     env_listdir := fun _ _ => inl ["file1.txt"; "folderA"];
     env_makedirs := fun _ _ => None;
     env_dirname := fun _ => "";
     env_win32 := true |}.

(** Processes answer from a script, one answer per run in order; past the
    end of the script they answer with empty output. *)
Definition scripted_env (script : list (string + Exn)) : Env :=
  {| env_import := fun _ _ => None;
     env_popen := fun _ _ => None;
     env_run := fun t _ =>
       default (inl "")
         (script !! length (List.filter (fun e => bool_decide (kind_is_run e)) t));
     env_exists := fun _ _ => true;
     env_isdir := fun _ _ => true;
     env_listdir := fun _ _ => inl [];
     env_makedirs := fun _ _ => None;
     env_dirname := fun _ => "";
     env_win32 := true |}.

(** An environment in which the modules of both automators are missing. *)
Definition no_modules_env : Env :=
  {| env_import := fun _ _ => Some (ImportError "No module named 'jarvis_utils'");
     env_popen := fun _ _ => None;
     env_run := fun _ _ => inl "";
     env_exists := fun _ _ => false;
     env_isdir := fun _ _ => false;
     env_listdir := fun _ _ => inl [];
     env_makedirs := fun _ _ => None;
     env_dirname := fun _ => "";
     env_win32 := true |}.

(** The only Android automator the launcher ever builds. *)
Definition default_android : AndroidAutomator := mkAndroidAutomator "adb".

(** Every handle is unset or holds a completely initialised automator. *)
Definition handles_ok (s : State) : Prop :=
  match windows_automator_instance s with
  | Obj w => w = mkWindowsAutomator
  | _ => True
  end
  /\ match android_automator_instance s with
     | Obj a => a = default_android
     | _ => True
     end.

(** [s'] is a later state than [s]: the requests made in between are of
    the kinds [ks], the log only grew, and a loaded handle stayed as it was. *)
Record advance (ks : list Kind) (s s' : State) : Prop := mkAdvance {
  adv_trace : exists evs, trace s' = trace s ++ evs /\ Forall (fun e => kind e ∈ ks) evs;
  adv_log : exists msgs, log s' = log s ++ msgs;
  adv_windows : forall w, windows_automator_instance s = Obj w ->
                          windows_automator_instance s' = Obj w;
  adv_android : forall a, android_automator_instance s = Obj a ->
                          android_automator_instance s' = Obj a;
  adv_handles : handles_ok s -> handles_ok s'
}.

(** A computation whose every run ends in a later state. *)
Definition advances {A} (ks : list Kind) (m : M A) : Prop :=
  forall s, advance ks s (snd (m s)).

(** A computation that touches nothing but the history. *)
Definition extends_trace (ks : list Kind) (s s' : State) : Prop :=
  exists evs, s' = set_trace (trace s ++ evs) s /\ Forall (fun e => kind e ∈ ks) evs.

Definition emits {A} (ks : list Kind) (m : M A) : Prop :=
  forall s, extends_trace ks s (snd (m s)).

(** The two commands of [open_app]. *)
Definition monkey_command (package_name : string) : list string :=
  ["shell"; "monkey"; "-p"; package_name;
   "-c"; "android.intent.category.LAUNCHER"; "1"].

Definition probe_command (package_name : string) : list string :=
  ["shell"; "pm"; "list"; "packages"; package_name].

(** The reading of [list_directory_contents] under which an existing
    directory is always listed with success. *)
Definition existing_directory_is_listed (env : Env) (dir_path : string)
    (s : State) : Prop :=
  env_exists env (trace s) dir_path = true ->
  env_isdir env (trace s ++ [EExists dir_path]) dir_path = true ->
  exists names,
    fst (list_directory_contents env mkWindowsAutomator dir_path s)
    = Ok (true, PList names).

(** The monkey call reports an error and the package-list probe names the
    package (the repository's own test of this path). *)
Definition unlaunchable_env : Env :=
  scripted_env
    [inl "monkey: error targeting package com.example.fail (reason: ...).";
     inl "package:com.example.fail"].

(** The monkey call reports an error and the probe exits with a failure. *)
Definition failed_probe_env : Env :=
  scripted_env
    [inl "monkey: error targeting package com.example.fail (reason: ...).";
     inr (CalledProcessError "Command returned non-zero exit status 1."
            "error: device offline" "")].

(** The capture succeeds and the pull exits with a failure. *)
Definition pull_fails_env : Env :=
  scripted_env
    [inl "";
     inr (CalledProcessError "Command returned non-zero exit status 1."
            "pull error" "")].

(** The reading of [open_app] under which the text handed back by the
    probe decides alone between the two failure messages. *)
Definition probe_output_decides (env : Env) (self : AndroidAutomator)
    (package_name : string) (device_id : option string) (s : State) : Prop :=
  forall output s1 exists_success exists_output s2,
    _run_adb_command env self (monkey_command package_name) device_id s
    = (Ok (true, output), s1) ->
    Py.contains "Events injected: 1" output || negb (nonempty output) = false ->
    _run_adb_command env self (probe_command package_name) device_id s1
    = (Ok (exists_success, exists_output), s2) ->
    Py.contains package_name exists_output = true ->
    fst (open_app env self package_name device_id s)
    = Ok (false, "App '" +:+ package_name
                 +:+ "' found, but could not be launched via monkey. Output: "
                 +:+ output).

(** The object behind a handle, if any. *)
Definition handle_value {A} (x : Attr A) : option A :=
  match x with Obj a => Some a | _ => None end.

(** The kinds of request made while an automator is being built. *)
Definition construction_kinds : list Kind := [KImport; KCheck; KPrint].

Definition all_kinds : list Kind :=
  [KImport; KPopen; KAdb; KCheck; KFs; KPrint].



Definition invalid_tap_message : string :=
  "Jarvis (Droid) Error: Invalid coordinates for tap. Usage: adb tap <x> <y>".

Definition android_unavailable_message : string :=
  "Jarvis: AndroidAutomator not available/loaded, or no device connected.".

(** The reading of [adb tap] under which unparsable coordinates are always
    answered with the message about invalid coordinates. *)
Definition invalid_tap_reports_coordinates (env : Env) (text : string)
    (s : State) : Prop :=
  forall a b,
    Py.split (Py.lower text) = ["adb"; "tap"; a; b] ->
    Py.int a = None \/ Py.int b = None ->
    last (log (snd (process_ui_command env text s))) = Some invalid_tap_message.

(** The reading of [open] under which the word "android" anywhere in the
    line sends the command to the Android automator. *)
Definition android_word_selects_android (env : Env) (text : string)
    (s : State) : Prop :=
  forall rest,
    Py.split (Py.lower text) = "open" :: rest ->
    Py.contains "android" (Py.lower text) = true ->
    Forall (fun e => kind e <> KPopen)
      (drop (length (trace s)) (trace (snd (process_ui_command env text s)))).

(** ** Vocabulary for further properties *)

(** Whatever [m] raises satisfies [P], together with the state it is
    raised in. *)
Definition raises_within {A} (P : Exn -> State -> Prop) (m : M A) : Prop :=
  forall s, match m s with
            | (Raise e, s') => P e s'
            | (Ok _, _) => True
            end.

Definition never_raises {A} (m : M A) : Prop :=
  raises_within (fun _ _ => False) m.

(** [e] is what the last request, a [makedirs], answered. *)
Definition makedirs_raised (env : Env) (e : Exn) (s : State) : Prop :=
  exists t p, trace s = t ++ [EMakedirs p] /\ env_makedirs env t p = Some e.


(** The handle of a module holds an automator. *)
Definition is_loaded (m : PyModule) (s : State) : bool :=
  match m with
  | WindowsModule => negb (absent (windows_automator_instance s))
  | AndroidModule => negb (absent (android_automator_instance s))
  end.

(** The requests made while the automator of module [m] is constructed:
    its import and, for the Android automator, the runs and the prints of
    the availability check. *)
Definition construction_event (m : PyModule) (e : Event) : bool :=
  match e, m with
  | EImport WindowsModule, WindowsModule => true
  | EImport AndroidModule, AndroidModule => true
  | ERun _ false, AndroidModule => true
  | EPrint _ _, AndroidModule => true
  | _, _ => false
  end.

(** From a state in which [m] is loaded, [c] leaves it loaded and makes no
    request that belongs to its construction. *)
Definition keeps_loaded {A} (m : PyModule) (c : M A) : Prop :=
  forall s,
    is_loaded m s = true ->
    is_loaded m (snd (c s)) = true
    /\ exists evs, trace (snd (c s)) = trace s ++ evs
                   /\ Forall (fun e => construction_event m e = false) evs.

Definition invalid_swipe_message : string :=
  "Jarvis (Droid) Error: Invalid coordinates/duration for swipe. Usage: adb swipe <x1> <y1> <x2> <y2> [duration_ms]".

Definition adb_usage_message : string :=
  "Supported ADB via UI: devices, tap <x> <y>, swipe <x1> <y1> <x2> <y2> [duration_ms], text <string to type>".

(** The request the ADB command runner makes for [parts], no device named. *)
Definition adb_run (d : AndroidAutomator) (parts : list string) : Event :=
  ERun (adb_path d :: parts) true.

Definition screenshot_placeholder_message : string :=
  "Jarvis (Win): Screenshot functionality is a placeholder and not yet implemented.".

Definition no_application_message : string :=
  "Jarvis: No application name specified for 'open' command.".

(** The version query of the availability check fails with a missing
    binary; everything else succeeds. *)
Definition no_adb_env : Env :=
  {| env_import := fun _ _ => None;
     env_popen := fun _ _ => None;
     env_run := fun _ _ => inr (FileNotFoundError "No such file or directory: 'adb'");
     env_exists := fun _ _ => false;
     env_isdir := fun _ _ => false;
     env_listdir := fun _ _ => inl [];
     env_makedirs := fun _ _ => None;
     env_dirname := fun _ => "";
     env_win32 := true |}.

(** Every character of [s] satisfies [p]. *)
Fixpoint all_chars (p : ascii -> bool) (s : string) : bool :=
  match s with
  | "" => true
  | String c s' => p c && all_chars p s'
  end.

Definition not_char (x : ascii) (c : ascii) : bool := negb (Ascii.eqb c x).

(** A device identifier: not empty, without white space. *)
Definition device_id_ok (id : string) : Prop :=
  nonempty id = true /\ all_chars (fun c => negb (Py.isspace c)) id = true.

(** A status column: not empty, on one line, without white space at its end. *)
Definition device_status_ok (st : string) : Prop :=
  nonempty st = true /\ all_chars (not_char "010") st = true /\ Py.rstrip st = st.

(** What [adb devices] prints for the given identifiers and statuses: the
    header, then one line per device with a tab between the two columns. *)
Fixpoint device_lines (devices : list (string * string)) : string :=
  match devices with
  | [] => ""
  | (id, st) :: rest =>
      String "010" (id +:+ String "009" st) +:+ device_lines rest
  end.

Definition device_listing (devices : list (string * string)) : string :=
  "List of devices attached" +:+ device_lines devices.

(** What the version query of the availability check lets out of the
    constructor of the Android automator: any exception but a missing
    binary or a non-zero exit, which are only warned about. *)
Definition version_query_raises (env : Env) (t : Trace) : option Exn :=
  match env_run env t ["adb"; "--version"] with
  | inr (CalledProcessError _ _ _) | inr (FileNotFoundError _) => None
  | inr e => Some e
  | inl _ => None
  end.

(** A request made while an automator is constructed: the import of a
    module and, for the Android automator, the two runs of the
    availability check, [adb --version] and [adb devices], and its
    printed line. *)
Definition construction_request (e : Event) : bool :=
  match e with
  | EImport _ | EPrint _ _ => true
  | ERun argv false =>
      bool_decide (argv = ["adb"; "--version"] \/ argv = ["adb"; "devices"])
  | _ => false
  end.

(** The history [t] holds a construction of the automator of [m] that ran
    to its end: the import was answered without an exception and, for the
    Android automator, the constructor did not raise. *)
Definition constructed (env : Env) (m : PyModule) (t : Trace) : Prop :=
  exists t1 t2,
    t = t1 ++ EImport m :: t2
    /\ env_import env t1 m = None
    /\ (m = AndroidModule ->
        version_query_raises env (t1 ++ [EImport m]) = None).

(** A handle holds an automator only after a construction that ran to its
    end. *)
Definition handles_built (env : Env) (s : State) : Prop :=
  forall m, is_loaded m s = true -> constructed env m (trace s).

Definition builds {A} (env : Env) (c : M A) : Prop :=
  forall s, handles_built env s -> handles_built env (snd (c s)).

(** The commands handed to the automator of [m].  For the Windows
    automator: [list] and [system]; for the Android automator: [adb]; for
    either: [open] with an application name and that target, and
    [screenshot], which goes to the Android automator when its first
    argument is "android" and to the Windows automator otherwise. *)
Definition routed_to (m : PyModule) (parts : list string) : bool :=
  match parts with
  | [] => false
  | action :: _ =>
      match m with
      | WindowsModule => Py.elem action ["list"; "system"]
      | AndroidModule => String.eqb action "adb"
      end
      || String.eqb action "open" && Nat.ltb 1 (length parts)
         && nonempty (Py.join " " (snd (open_target parts)))
         && String.eqb (fst (open_target parts))
              match m with
              | WindowsModule => "windows"
              | AndroidModule => "android"
              end
      || String.eqb action "screenshot"
         && match m with
            | WindowsModule =>
                negb (bool_decide (Py.lower <$> parts !! 1%nat = Some "android"))
            | AndroidModule =>
                bool_decide (Py.lower <$> parts !! 1%nat = Some "android")
            end
  end.

(** The reading of [adb tap] under which unparsable coordinates lead to no
    subprocess being run at all. *)
Definition invalid_tap_runs_no_process (env : Env) (text : string)
    (s : State) : Prop :=
  forall a b,
    Py.split (Py.lower text) = ["adb"; "tap"; a; b] ->
    Py.int a = None \/ Py.int b = None ->
    Forall (fun e => kind e ∉ [KPopen; KAdb; KCheck])
      (drop (length (trace s)) (trace (snd (process_ui_command env text s)))).

(** * Properties *)

(** ** Strings *)

Lemma app_cons (c : ascii) (a t : string) : String c a +:+ t = String c (a +:+ t).
Proof. reflexivity. Qed.

Lemma app_nil (t : string) : "" +:+ t = t.
Proof. reflexivity. Qed.

Lemma prefix_app (s t : string) : String.prefix s (s +:+ t) = true.
Proof.
  induction s as [|c s IH]; [by destruct t|].
  rewrite app_cons. simpl. destruct (ascii_dec c c); [exact IH|congruence].
Qed.

Lemma prefix_app_l (sub a t : string) :
  String.prefix sub a = true -> String.prefix sub (a +:+ t) = true.
Proof.
  revert a. induction sub as [|c sub IH]; intros a H.
  - by destruct (a +:+ t).
  - destruct a as [|d a]; [discriminate|].
    rewrite app_cons. simpl in *. destruct (ascii_dec c d); [auto|discriminate].
Qed.

Lemma contains_unfold (sub s : string) :
  Py.contains sub s
  = String.prefix sub s
    || match s with "" => false | String _ s' => Py.contains sub s' end.
Proof. by destruct s. Qed.

Lemma contains_prefix (sub s : string) :
  String.prefix sub s = true -> Py.contains sub s = true.
Proof. intros H. rewrite contains_unfold, H. reflexivity. Qed.

Lemma contains_app_r (sub a t : string) :
  Py.contains sub t = true -> Py.contains sub (a +:+ t) = true.
Proof.
  intros H. induction a as [|c a IH]; [exact H|].
  rewrite app_cons, contains_unfold, IH. apply orb_true_r.
Qed.

Lemma contains_app_l (sub a t : string) :
  Py.contains sub a = true -> Py.contains sub (a +:+ t) = true.
Proof.
  induction a as [|c a IH]; intros H.
  - rewrite contains_unfold in H. rewrite orb_false_r in H.
    by apply contains_prefix, (prefix_app_l sub "" t).
  - rewrite contains_unfold in H. apply orb_true_iff in H as [H|H].
    + by apply contains_prefix, prefix_app_l.
    + rewrite app_cons, contains_unfold, (IH H). apply orb_true_r.
Qed.

Lemma contains_self_app (sub t : string) : Py.contains sub (sub +:+ t) = true.
Proof. apply contains_prefix, prefix_app. Qed.

(** ** Sample runs *)

Example split_lowers_every_word :
  Py.split (Py.lower "  Open  MyApp on ANDROID ") = ["open"; "myapp"; "on"; "android"].
Proof. reflexivity. Qed.

Example int_accepts_and_rejects :
  (Py.int "1_000", Py.int "-7", Py.int "007", Py.int "1__0", Py.int "2o", Py.int "+")
  = (Some 1000%Z, Some (-7)%Z, Some 7%Z, None, None, None).
Proof. vm_compute. reflexivity. Qed.

Example int_refuses_long_literals :
  let ones n := String.concat "" (replicate n "1") in
  (Py.int (ones 4301), from_option (fun _ => true) false (Py.int (ones 4300)),
   Py.int ("-" +:+ ones 4301), Py.int (String (ascii_of_N 28) "1"),
   Py.int (String (ascii_of_N 160) "1 "))
  = (None, true, None, None, Some 1%Z).
Proof. vm_compute. reflexivity. Qed.

Example open_target_cuts_at_first_on :
  (open_target ["open"; "chrome"; "on"; "android"],
   open_target ["open"; "turn"; "on"; "lights"; "on"; "android"])
  = (("android", ["chrome"]),
     ("windows", ["turn"; "on"; "lights"; "on"; "android"])).
Proof. reflexivity. Qed.

Example run_hello :
  process_ui_command (quiet_env "") "Hello" initial_state
  = (Ok tt, mkState Missing Missing ["User command: Hello"; "Jarvis: Hello there!"] []).
Proof. vm_compute. reflexivity. Qed.

Example run_open_windows :
  process_ui_command (quiet_env "") "open Notepad" initial_state
  = (Ok tt, mkState (Obj mkWindowsAutomator) Missing
              ["User command: open Notepad"; "Jarvis: WindowsAutomator loaded.";
               "Jarvis (Win): Attempting to open 'notepad'."]
              [EImport WindowsModule; EPopen "start notepad" true]).
Proof. vm_compute. reflexivity. Qed.

Example run_adb_tap :
  trace (snd (process_ui_command (quiet_env "") "adb tap 10 20" initial_state))
  = [EImport AndroidModule; ERun ["adb"; "--version"] false;
     ERun ["adb"; "devices"] false;
     EPrint "Warning: No Android devices or emulators found connected via ADB." None;
     ERun ["adb"; "shell"; "input"; "tap"; "10"; "20"] true].
Proof. vm_compute. reflexivity. Qed.

(** ** The Windows automator *)

Lemma commands_lookup (key : string) :
  commands !! key
  = if decide (key = "shutdown") then Some "shutdown /s /t 1"
    else if decide (key = "restart") then Some "shutdown /r /t 1"
    else None.
Proof.
  unfold commands.
  rewrite lookup_insert. destruct (decide ("shutdown" = key)) as [<-|Hs].
  - by rewrite decide_True.
  - rewrite decide_False by congruence.
    rewrite lookup_insert. destruct (decide ("restart" = key)) as [<-|Hr].
    + by rewrite decide_True.
    + rewrite decide_False by congruence. apply lookup_empty.
Qed.

(** C6: [system_command] answers the keys "shutdown" and "restart" with
    success and the message
    "Simulating execution of system command: '<key>'. Actual command: '<command>'",
    where <command> is the entry of [commands] for the key, that is
    "shutdown /s /t 1" and "shutdown /r /t 1"; the message so names the key
    and describes what would run.  Every other key is answered with
    failure and the message "Unknown system command: <key>".  In each case
    the state after the call is the state before it, history included: no
    command is handed to the operating system. *)
Theorem system_command_result (self : WindowsAutomator) (key : string)
    (confirmation_required : bool) (s : State) :
  (key = "shutdown" \/ key = "restart" ->
   exists actual msg,
     commands !! key = Some actual
     /\ actual = (if decide (key = "shutdown") then "shutdown /s /t 1"
                  else "shutdown /r /t 1")
     /\ msg = "Simulating execution of system command: '" +:+ key
              +:+ "'. Actual command: '" +:+ actual +:+ "'"
     /\ system_command self key confirmation_required s = (Ok (true, msg), s)
     /\ Py.contains key msg = true
     /\ Py.contains actual msg = true)
  /\ (key <> "shutdown" -> key <> "restart" ->
      system_command self key confirmation_required s
      = (Ok (false, "Unknown system command: " +:+ key), s)).
Proof.
  unfold system_command. rewrite commands_lookup. split.
  - intros [->| ->]; simpl; destruct confirmation_required;
      (eexists _, _; split; [reflexivity|]);
      (split; [reflexivity|]); (split; [reflexivity|]);
      (split; [reflexivity|]);
      (split; [apply contains_app_r, contains_self_app|]);
      apply contains_app_r, contains_app_r, contains_app_r, contains_self_app.
  - intros Hs Hr. by rewrite !decide_False.
Qed.

Lemma system_command_result_witness :
  system_command mkWindowsAutomator "restart" true initial_state
  = (Ok (true, "Simulating execution of system command: 'restart'. Actual command: 'shutdown /r /t 1'"),
     initial_state)
  /\ system_command mkWindowsAutomator "reboot" true initial_state
     = (Ok (false, "Unknown system command: reboot"), initial_state).
Proof.
  destruct (system_command_result mkWindowsAutomator "restart" true initial_state)
    as [Hknown _].
  destruct (system_command_result mkWindowsAutomator "reboot" true initial_state)
    as [_ Hunknown].
  split.
  - destruct Hknown as (actual & msg & _ & -> & -> & Hrun & _);
      [right; reflexivity|]. exact Hrun.
  - apply Hunknown; discriminate.
Defined.

(** C10: the result of [system_command] does not depend on
    [confirmation_required]. *)
Theorem system_command_ignores_confirmation (self : WindowsAutomator)
    (key : string) :
  system_command self key true = system_command self key false.
Proof. unfold system_command. by destruct (commands !! key). Qed.

(** The two refusals of [list_directory_contents] carry one message. *)
Lemma list_directory_refusal_names_not_found (dir_path : string) :
  Py.contains "not found"
    ("Error: Directory '" +:+ dir_path +:+ "' not found or is not a directory.")
  = true.
Proof. by apply contains_app_r, contains_app_r. Qed.

(** C7, as the code has it: a path that does not exist, or exists and is
    not a directory, is refused with one and the same message, which
    contains "not found"; for an existing directory the names come back
    exactly as the listing call yielded them when that call returns, and a
    listing call that raises is reported as a failure of its own. *)
Theorem list_directory_contents_result (env : Env) (self : WindowsAutomator)
    (dir_path : string) (s : State) :
  let t := trace s in
  let refusal :=
    "Error: Directory '" +:+ dir_path +:+ "' not found or is not a directory." in
  Py.contains "not found" refusal = true
  /\ (env_exists env t dir_path = false ->
      list_directory_contents env self dir_path s
      = (Ok (false, PStr refusal), set_trace (t ++ [EExists dir_path]) s))
  /\ (env_exists env t dir_path = true ->
      env_isdir env (t ++ [EExists dir_path]) dir_path = false ->
      list_directory_contents env self dir_path s
      = (Ok (false, PStr refusal),
         set_trace (t ++ [EExists dir_path; EIsdir dir_path]) s))
  /\ (env_exists env t dir_path = true ->
      env_isdir env (t ++ [EExists dir_path]) dir_path = true ->
      let t' := t ++ [EExists dir_path; EIsdir dir_path] in
      fst (list_directory_contents env self dir_path s)
      = match env_listdir env t' dir_path with
        | inl names => Ok (true, PList names)
        | inr e => Ok (false, PStr ("Error listing directory '" +:+ dir_path
                                    +:+ "': " +:+ exn_str e))
        end).
Proof.
  cbv zeta. split; [apply list_directory_refusal_names_not_found|].
  unfold list_directory_contents, bind, sys_exists, sys_isdir, sys_listdir,
    request, ret; simpl.
  repeat split.
  - intros ->. reflexivity.
  - intros -> H. simpl. rewrite H. simpl.
    unfold set_trace; simpl. by rewrite <- app_assoc.
  - intros -> H. simpl. rewrite H. simpl.
    rewrite <- app_assoc. simpl.
    by destruct (env_listdir env _ dir_path).
Qed.

Lemma list_directory_contents_result_witness :
  list_directory_contents (quiet_env "") mkWindowsAutomator "C:\non_existent_dir" initial_state
  = (Ok (false, PStr "Error: Directory 'C:\non_existent_dir' not found or is not a directory."),
     set_trace [EExists "C:\non_existent_dir"] initial_state)
  /\ fst (list_directory_contents listing_env mkWindowsAutomator "C:\test_dir" initial_state)
     = Ok (true, PList ["file1.txt"; "folderA"]).
Proof.
  split.
  - apply (list_directory_contents_result (quiet_env "") mkWindowsAutomator
             "C:\non_existent_dir" initial_state).
    reflexivity.
  - apply (list_directory_contents_result listing_env mkWindowsAutomator
             "C:\test_dir" initial_state); reflexivity.
Defined.

(** It fails where the listing call raises: the directory exists and the
    result is a failure. *)
Lemma existing_directory_not_listed :
  ~ existing_directory_is_listed protected_dir_env "C:\protected_dir" initial_state.
Proof.
  intros H. destruct H as [names Hn]; [reflexivity..|].
  vm_compute in Hn. discriminate.
Qed.

(** ** The Android automator *)

Section Android.

Context (env : Env) (self : AndroidAutomator).

(** The command runner always returns, and leaves one run in the history. *)
Lemma run_adb_command_returns (command_parts : list string)
    (device_id : option string) (s : State) :
  exists ok out,
    _run_adb_command env self command_parts device_id s
    = (Ok (ok, out),
       set_trace (trace s ++ [ERun ([adb_path self] ++ device_selector device_id
                                    ++ command_parts) true]) s).
Proof.
  unfold _run_adb_command, bind, sys_run, request, ret.
  rewrite <- app_assoc.
  destruct (env_run env (trace s) _) as [out|[]]; eauto.
Qed.

(** A successful run hands back the stripped output of the process. *)
Lemma run_adb_command_success (command_parts : list string)
    (device_id : option string) (s : State) (out : string) (s' : State) :
  _run_adb_command env self command_parts device_id s = (Ok (true, out), s') ->
  exists stdout,
    env_run env (trace s) ([adb_path self] ++ device_selector device_id
                           ++ command_parts) = inl stdout
    /\ out = Py.strip stdout.
Proof.
  unfold _run_adb_command, bind, sys_run, request, ret.
  rewrite <- app_assoc.
  destruct (env_run env (trace s) _) as [stdout|[]]; intros [= <- <-]; eauto.
Qed.

(** C4, as the code has it: after a monkey call that succeeded as a
    process, [open_app] reports success when the output is empty or has
    the injected-event marker; otherwise it probes the package list and
    reports "found, but could not be launched" when the probe succeeded
    as a process and its output contains the package name, and "might
    not be installed" in every other case, a failed probe included.
    The three messages differ from one another. *)
Theorem open_app_three_results (package_name : string)
    (device_id : option string) (s s1 : State) (output : string) :
  _run_adb_command env self (monkey_command package_name) device_id s
  = (Ok (true, output), s1) ->
  let launched :=
    Py.contains "Events injected: 1" output || negb (nonempty output) in
  let attempting := "Attempting to open app '" +:+ package_name +:+ "'." in
  let unlaunchable :=
    "App '" +:+ package_name
    +:+ "' found, but could not be launched via monkey. Output: " +:+ output in
  let missing :=
    "Failed to open app '" +:+ package_name
    +:+ "'. It might not be installed or launchable. ADB Output: " +:+ output in
  (launched = true ->
   open_app env self package_name device_id s = (Ok (true, attempting), s1))
  /\ (launched = false ->
      forall exists_success exists_output s2,
        _run_adb_command env self (probe_command package_name) device_id s1
        = (Ok (exists_success, exists_output), s2) ->
        (exists_success = true ->
         Py.contains package_name exists_output = true ->
         open_app env self package_name device_id s = (Ok (false, unlaunchable), s2))
        /\ (exists_success = false
            \/ Py.contains package_name exists_output = false ->
            open_app env self package_name device_id s = (Ok (false, missing), s2)))
  /\ attempting <> unlaunchable /\ attempting <> missing /\ unlaunchable <> missing.
Proof.
  intros Hmonkey. cbv zeta. unfold open_app, bind.
  unfold monkey_command in Hmonkey. rewrite Hmonkey.
  split; [|split].
  - intros ->. reflexivity.
  - intros -> exists_success exists_output s2 Hprobe.
    unfold probe_command in Hprobe. rewrite Hprobe. split.
    + intros -> ->. reflexivity.
    + intros [-> | ->]; [reflexivity|]. by rewrite andb_false_r.
  - repeat split; discriminate.
Qed.

(** C5: when the capture succeeded and the pull was reached,
    [take_screenshot_android] reports failure with a message containing
    "Failed to pull screenshot" if the pull failed; if the pull succeeded
    it reports success with the message naming the local path, whatever
    the removal of the remote file returns. *)
Theorem take_screenshot_android_result (local_save_path device_sdcard_path : string)
    (device_id : option string) (s s1 s2 s3 : State)
    (output output_pull : string) (success_pull : bool) :
  _run_adb_command env self ["shell"; "screencap"; device_sdcard_path] device_id s
  = (Ok (true, output), s1) ->
  ensure_local_dir env local_save_path s1 = (Ok tt, s2) ->
  _run_adb_command env self ["pull"; device_sdcard_path; local_save_path] device_id s2
  = (Ok (success_pull, output_pull), s3) ->
  (success_pull = false ->
   exists message,
     take_screenshot_android env self local_save_path device_sdcard_path device_id s
     = (Ok (false, message), s3)
     /\ Py.contains "Failed to pull screenshot" message = true)
  /\ (success_pull = true ->
      forall removal s4,
        _run_adb_command env self ["shell"; "rm"; device_sdcard_path] device_id s3
        = (removal, s4) ->
        take_screenshot_android env self local_save_path device_sdcard_path device_id s
        = (Ok (true, "Screenshot saved to " +:+ local_save_path), s4)).
Proof.
  intros Hcap Hdir Hpull.
  unfold take_screenshot_android, bind. rewrite Hcap. simpl.
  rewrite Hdir, Hpull. split.
  - intros ->. simpl. eexists. split; [reflexivity|].
    by apply contains_app_l.
  - intros -> removal s4 Hrm. simpl. rewrite Hrm.
    destruct (run_adb_command_returns ["shell"; "rm"; device_sdcard_path]
                device_id s3) as (ok & out & Hret).
    rewrite Hrm in Hret. by injection Hret as -> ->.
Qed.

End Android.

Lemma open_app_three_results_witness :
  fst (open_app unlaunchable_env default_android "com.example.fail" None initial_state)
  = Ok (false, "App 'com.example.fail' found, but could not be launched via monkey. Output: monkey: error targeting package com.example.fail (reason: ...).").
Proof.
  edestruct (open_app_three_results unlaunchable_env default_android
               "com.example.fail" None initial_state) as (_ & Hprobe & _);
    [reflexivity|].
  edestruct Hprobe as [Hfound _]; [reflexivity..|].
  rewrite Hfound; reflexivity.
Defined.

(** With a probe that exits with a failure, the text the runner hands back
    quotes the command line and so contains the package name, and the
    result is the "might not be installed" message all the same. *)
Lemma probe_output_does_not_decide :
  ~ probe_output_decides failed_probe_env default_android "com.example.fail"
      None initial_state.
Proof.
  intros H.
  specialize (H _ _ _ _ _ eq_refl eq_refl eq_refl eq_refl).
  vm_compute in H. discriminate.
Qed.

Lemma take_screenshot_android_result_witness :
  exists message,
    fst (take_screenshot_android pull_fails_env default_android
           "android_screenshot.png" "/sdcard/screenshot.png" None initial_state)
    = Ok (false, message)
    /\ Py.contains "Failed to pull screenshot" message = true.
Proof.
  edestruct (take_screenshot_android_result pull_fails_env default_android
               "android_screenshot.png" "/sdcard/screenshot.png" None
               initial_state) as [Hfail _]; [reflexivity..|].
  destruct (Hfail eq_refl) as (message & Heq & Hin).
  exists message. rewrite Heq. split; [reflexivity|exact Hin].
Defined.

(** ** Later states *)

Lemma advance_refl (ks : list Kind) (s : State) : advance ks s s.
Proof.
  split; auto.
  - exists []. by rewrite app_nil_r.
  - exists []. by rewrite app_nil_r.
Qed.

Lemma advance_trans (ks : list Kind) (s1 s2 s3 : State) :
  advance ks s1 s2 -> advance ks s2 s3 -> advance ks s1 s3.
Proof.
  intros [(e1 & Ht1 & Hf1) (m1 & Hl1) Hw1 Ha1 Hh1]
         [(e2 & Ht2 & Hf2) (m2 & Hl2) Hw2 Ha2 Hh2].
  split; auto.
  - exists (e1 ++ e2). rewrite Ht2, Ht1, app_assoc. split; [done|].
    by apply Forall_app.
  - exists (m1 ++ m2). by rewrite Hl2, Hl1, app_assoc.
Qed.

Lemma advance_mono (ks ks' : list Kind) (s s' : State) :
  ks ⊆ ks' -> advance ks s s' -> advance ks' s s'.
Proof.
  intros Hsub [(evs & Ht & Hf) Hl Hw Ha Hh]. split; auto.
  exists evs. split; [done|]. eapply Forall_impl; [exact Hf|]. intros e He. by apply Hsub.
Qed.

Lemma extends_trace_advance (ks : list Kind) (s s' : State) :
  extends_trace ks s s' -> advance ks s s'.
Proof.
  intros (evs & -> & Hf). split; simpl; auto.
  - eauto.
  - exists []. by rewrite app_nil_r.
Qed.

Lemma extends_trace_refl (ks : list Kind) (s : State) : extends_trace ks s s.
Proof. exists []. rewrite app_nil_r. by destruct s. Qed.

Lemma extends_trace_trans (ks : list Kind) (s1 s2 s3 : State) :
  extends_trace ks s1 s2 -> extends_trace ks s2 s3 -> extends_trace ks s1 s3.
Proof.
  intros (e1 & -> & Hf1) (e2 & -> & Hf2). exists (e1 ++ e2). simpl.
  rewrite app_assoc. split; [done|]. by apply Forall_app.
Qed.

Lemma extends_trace_mono (ks ks' : list Kind) (s s' : State) :
  ks ⊆ ks' -> extends_trace ks s s' -> extends_trace ks' s s'.
Proof.
  intros Hsub (evs & -> & Hf). exists evs. split; [done|].
  eapply Forall_impl; [exact Hf|]. intros e He. by apply Hsub.
Qed.

(** *** Rules for computations that touch nothing but the history *)

Lemma emits_ret {A} (ks : list Kind) (a : A) : emits ks (ret a).
Proof. intros s. apply extends_trace_refl. Qed.

Lemma emits_raise {A} (ks : list Kind) (e : Exn) : emits ks (raise (A:=A) e).
Proof. intros s. apply extends_trace_refl. Qed.

Lemma emits_request {A} (ks : list Kind) (e : Event) (answer : Trace -> A) :
  kind e ∈ ks -> emits ks (request e answer).
Proof. intros Hk s. exists [e]. split; [done|]. by constructor. Qed.

Lemma emits_bind {A B} (ks : list Kind) (m : M A) (k : A -> M B) :
  emits ks m -> (forall a, emits ks (k a)) -> emits ks (bind m k).
Proof.
  intros Hm Hk s. unfold bind. specialize (Hm s).
  destruct (m s) as [[a|e] s1]; simpl in *; [|done].
  eapply extends_trace_trans; [exact Hm|apply Hk].
Qed.

Lemma emits_mono {A} (ks ks' : list Kind) (m : M A) :
  ks ⊆ ks' -> emits ks m -> emits ks' m.
Proof. intros Hsub Hm s. eapply extends_trace_mono; [exact Hsub|apply Hm]. Qed.

(** *** Rules for the launcher's computations *)

Lemma advances_emits {A} (ks : list Kind) (m : M A) : emits ks m -> advances ks m.
Proof. intros Hm s. apply extends_trace_advance, Hm. Qed.

Lemma advances_ret {A} (ks : list Kind) (a : A) : advances ks (ret a).
Proof. intros s. apply advance_refl. Qed.

Lemma advances_raise {A} (ks : list Kind) (e : Exn) : advances ks (raise (A:=A) e).
Proof. intros s. apply advance_refl. Qed.

Lemma advances_get (ks : list Kind) : advances ks get.
Proof. intros s. apply advance_refl. Qed.

Lemma advances_bind {A B} (ks : list Kind) (m : M A) (k : A -> M B) :
  advances ks m -> (forall a, advances ks (k a)) -> advances ks (bind m k).
Proof.
  intros Hm Hk s. unfold bind. specialize (Hm s).
  destruct (m s) as [[a|e] s1]; simpl in *; [|done].
  eapply advance_trans; [exact Hm|apply Hk].
Qed.

Lemma advances_log_message (ks : list Kind) (message : string) :
  advances ks (log_message message).
Proof.
  intros s. split; simpl; auto.
  - exists []. by rewrite app_nil_r.
  - eauto.
Qed.

Lemma advances_mono {A} (ks ks' : list Kind) (m : M A) :
  ks ⊆ ks' -> advances ks m -> advances ks' m.
Proof. intros Hsub Hm s. eapply advance_mono; [exact Hsub|apply Hm]. Qed.

Ltac emits_step :=
  first
    [ apply emits_ret
    | apply emits_raise
    | apply emits_request; simpl; assumption
    | apply emits_bind; [|intros ?]
    | match goal with
      | |- emits _ (match ?x with _ => _ end) => destruct x
      end ].

Ltac emits_auto := repeat emits_step.

Section Footprints.

Context (env : Env) (ks : list Kind).

Lemma emits_open_application (self : WindowsAutomator) (app_name : string) :
  KPopen ∈ ks -> emits ks (open_application env self app_name).
Proof. intros ?. unfold open_application, sys_popen. emits_auto. Qed.

Lemma emits_list_directory_contents (self : WindowsAutomator) (dir_path : string) :
  KFs ∈ ks -> emits ks (list_directory_contents env self dir_path).
Proof.
  intros ?. unfold list_directory_contents, sys_exists, sys_isdir, sys_listdir.
  emits_auto.
Qed.

Lemma emits_system_command (self : WindowsAutomator) (key : string) (c : bool) :
  emits ks (system_command self key c).
Proof. unfold system_command. emits_auto. Qed.

Lemma emits_take_screenshot (self : WindowsAutomator) (path : string) :
  emits ks (take_screenshot self path).
Proof. unfold take_screenshot. emits_auto. Qed.

Lemma emits_check_adb_device (self : AndroidAutomator) :
  KCheck ∈ ks -> KPrint ∈ ks -> emits ks (_check_adb_device env self).
Proof. intros ??. unfold _check_adb_device, sys_run, print. emits_auto. Qed.

Lemma emits_AndroidAutomator_init (adb : string) :
  KCheck ∈ ks -> KPrint ∈ ks -> emits ks (AndroidAutomator_init env adb).
Proof.
  intros ??. unfold AndroidAutomator_init.
  apply emits_bind; [by apply emits_check_adb_device|intros ?; apply emits_ret].
Qed.

Lemma emits_run_adb_command (self : AndroidAutomator) (parts : list string)
    (device_id : option string) :
  KAdb ∈ ks -> emits ks (_run_adb_command env self parts device_id).
Proof. intros ?. unfold _run_adb_command, sys_run. emits_auto. Qed.

Ltac emits_adb :=
  repeat first [ apply emits_run_adb_command; assumption | emits_step ].

Lemma emits_list_connected_devices (self : AndroidAutomator) :
  KAdb ∈ ks -> emits ks (list_connected_devices env self).
Proof. intros ?. unfold list_connected_devices. emits_adb. Qed.

Lemma emits_open_app (self : AndroidAutomator) (package_name : string)
    (device_id : option string) :
  KAdb ∈ ks -> emits ks (open_app env self package_name device_id).
Proof. intros ?. unfold open_app. emits_adb. Qed.

Lemma emits_send_intent (self : AndroidAutomator) (intent_action : string)
    (data_uri package component_name device_id : option string) :
  KAdb ∈ ks ->
  emits ks (send_intent env self intent_action data_uri package
              component_name device_id).
Proof. intros ?. unfold send_intent. emits_adb. Qed.

Lemma emits_simulate_input_tap (self : AndroidAutomator) (x y : Z)
    (device_id : option string) :
  KAdb ∈ ks -> emits ks (simulate_input_tap env self x y device_id).
Proof. intros ?. by apply emits_run_adb_command. Qed.

Lemma emits_simulate_input_swipe (self : AndroidAutomator)
    (x1 y1 x2 y2 d : Z) (device_id : option string) :
  KAdb ∈ ks -> emits ks (simulate_input_swipe env self x1 y1 x2 y2 d device_id).
Proof. intros ?. by apply emits_run_adb_command. Qed.

Lemma emits_simulate_input_text (self : AndroidAutomator) (text : string)
    (device_id : option string) :
  KAdb ∈ ks -> emits ks (simulate_input_text env self text device_id).
Proof. intros ?. by apply emits_run_adb_command. Qed.

Lemma emits_ensure_local_dir (path : string) :
  KFs ∈ ks -> emits ks (ensure_local_dir env path).
Proof.
  intros ?. unfold ensure_local_dir, sys_exists, sys_makedirs. emits_auto.
Qed.

Lemma emits_take_screenshot_android (self : AndroidAutomator)
    (local_save_path device_sdcard_path : string) (device_id : option string) :
  KAdb ∈ ks -> KFs ∈ ks ->
  emits ks (take_screenshot_android env self local_save_path
              device_sdcard_path device_id).
Proof.
  intros ??. unfold take_screenshot_android.
  repeat first [ apply emits_run_adb_command; assumption
               | apply emits_ensure_local_dir; assumption
               | emits_step ].
Qed.

End Footprints.

(** ** Loading the automators *)

Section Loading.

Context (env : Env).

(** The availability check raises only out of its first run, before
    anything was printed. *)
Lemma check_adb_device_raises (self : AndroidAutomator) (s s' : State) (e : Exn) :
  _check_adb_device env self s = (Raise e, s') ->
  s' = set_trace (trace s ++ [ERun [adb_path self; "--version"] false]) s.
Proof.
  unfold _check_adb_device, bind, sys_run, print, request, ret, raise. simpl.
  repeat (case_match; simpl; try discriminate); by intros [= <- <-].
Qed.

Lemma AndroidAutomator_init_result (adb : string) (s : State) :
  (exists evs, AndroidAutomator_init env adb s
               = (Ok (mkAndroidAutomator adb), set_trace (trace s ++ evs) s)
               /\ Forall (fun e => kind e ∈ [KCheck; KPrint]) evs)
  \/ (exists e, AndroidAutomator_init env adb s
                = (Raise e, set_trace (trace s ++ [ERun [adb; "--version"] false]) s)).
Proof.
  unfold AndroidAutomator_init, bind.
  destruct (emits_check_adb_device env [KCheck; KPrint]
              (mkAndroidAutomator adb) ltac:(set_solver) ltac:(set_solver) s)
    as (evs & Hs & Hf).
  destruct (_check_adb_device env (mkAndroidAutomator adb) s) as [[b|e] s1] eqn:E;
    simpl in Hs; subst s1.
  - left. exists evs. by split.
  - right. exists e. apply check_adb_device_raises in E. by rewrite E.
Qed.

Lemma load_windows_automator_spec (s : State) :
  exists r s',
    load_windows_automator env s = (Ok r, s')
    /\ r = handle_value (windows_automator_instance s')
    /\ android_automator_instance s' = android_automator_instance s
    /\ match windows_automator_instance s with
       | Obj _ => s' = s
       | _ =>
           trace s' = trace s ++ [EImport WindowsModule]
           /\ match env_import env (trace s) WindowsModule with
              | None =>
                  windows_automator_instance s' = Obj mkWindowsAutomator
                  /\ log s' = log s ++ ["Jarvis: WindowsAutomator loaded."]
              | Some _ =>
                  windows_automator_instance s' = PyNone
                  /\ exists msg, log s' = log s ++ [msg]
                                 /\ String.prefix "Jarvis Error: " msg = true
              end
       end.
Proof.
  unfold load_windows_automator, bind, get, try_catch, sys_import, request,
    modify, log_message, raise, ret.
  destruct s as [w a l t]; simpl.
  destruct w; simpl; try (do 2 eexists; split; [reflexivity|]; by simpl);
    destruct (env_import env t WindowsModule) as [[]|]; simpl;
    do 2 eexists; (split; [reflexivity|]); simpl; eauto 10.
Qed.

Lemma load_android_automator_spec (s : State) :
  exists r s',
    load_android_automator env s = (Ok r, s')
    /\ r = handle_value (android_automator_instance s')
    /\ windows_automator_instance s' = windows_automator_instance s
    /\ match android_automator_instance s with
       | Obj _ => s' = s
       | _ =>
           exists evs,
             trace s' = trace s ++ EImport AndroidModule :: evs
             /\ ((android_automator_instance s' = Obj default_android
                  /\ env_import env (trace s) AndroidModule = None
                  /\ Forall (fun e => kind e ∈ [KCheck; KPrint]) evs
                  /\ log s'
                     = log s ++ ["Jarvis: AndroidAutomator loaded. Initializing ADB connection..."])
                 \/ (android_automator_instance s' = PyNone
                     /\ Forall (fun e => kind e = KCheck) evs
                     /\ (forall e, env_import env (trace s) AndroidModule = Some e
                                   -> evs = [])
                     /\ exists msg, log s' = log s ++ [msg]
                                    /\ String.prefix "Jarvis Error: " msg = true))
       end.
Proof.
  destruct s as [w a l t].
  destruct a as [| |a]; simpl;
    [| |by (do 2 eexists; split; [reflexivity|])];
    unfold load_android_automator, bind, get, try_catch, sys_import, request;
    simpl;
    (destruct (env_import env t AndroidModule) as [e|] eqn:Himp; simpl;
     [ unfold raise;
       destruct e; simpl; do 2 eexists; (split; [reflexivity|]); simpl;
       (split; [done|]); (split; [done|]);
       exists []; (split; [done|]); right; eauto 10
     | match goal with
       | |- context [AndroidAutomator_init env "adb" ?s0] =>
           destruct (AndroidAutomator_init_result "adb" s0)
             as [(evs & Hinit & Hf)|(e & Hinit)]; rewrite Hinit; simpl
       end;
       [ do 2 eexists; (split; [reflexivity|]); simpl;
         (split; [done|]); (split; [done|]);
         exists evs; rewrite <- app_assoc; (split; [done|]); left; done
       | destruct e; simpl; do 2 eexists; (split; [reflexivity|]); simpl;
         (split; [done|]); (split; [done|]);
         exists [ERun ["adb"; "--version"] false]; rewrite <- app_assoc;
         (split; [done|]); right;
         (repeat split; [by repeat constructor|done|eauto]) ] ]).
Qed.

(** The constructor of the Android automator, by the answer to its version
    query. *)
Lemma AndroidAutomator_init_cases (s : State) :
  match version_query_raises env (trace s) with
  | Some e =>
      AndroidAutomator_init env "adb" s
      = (Raise e, set_trace (trace s ++ [ERun ["adb"; "--version"] false]) s)
  | None =>
      exists evs,
        AndroidAutomator_init env "adb" s
        = (Ok default_android,
           set_trace (trace s ++ ERun ["adb"; "--version"] false :: evs) s)
        /\ Forall (fun e => construction_request e = true
                            /\ e <> EImport WindowsModule) evs
  end.
Proof.
  unfold version_query_raises, AndroidAutomator_init, _check_adb_device, bind,
    sys_run, print, request, ret, raise. simpl.
  destruct (env_run env (trace s) ["adb"; "--version"]) as [out|e]; simpl.
  - destruct (env_run env (trace s ++ [ERun ["adb"; "--version"] false])
                ["adb"; "devices"]) as [out2|e2]; simpl.
    + generalize (tail (Py.split_on "010" (Py.strip out2))). intros devs.
      repeat match goal with
             | |- context [match ?l with [] => true | _ => _ end] =>
                 destruct l as [|? [|? ?]]; simpl
             | |- context [if ?b then _ else _] => destruct b; simpl
             | |- context [match List.filter ?f ?l with _ => _ end] =>
                 destruct (List.filter f l); simpl
             end;
        eexists [_; _]; unfold set_trace; simpl; rewrite <- ?app_assoc;
        (split; [reflexivity|by repeat constructor]).
    + destruct e2; simpl; eexists [_; _];
        unfold set_trace; simpl; rewrite <- ?app_assoc;
        (split; [reflexivity|by repeat constructor]).
  - destruct e; simpl; try reflexivity; eexists [_];
      unfold set_trace; simpl; rewrite <- ?app_assoc;
      (split; [reflexivity|by repeat constructor]).
Qed.

(** Loading the Android automator with the handle unset, by the answers
    to the import and to the version query. *)
Lemma load_android_automator_outcome (s : State) :
  absent (android_automator_instance s) = true ->
  exists r s',
    load_android_automator env s = (Ok r, s')
    /\ r = handle_value (android_automator_instance s')
    /\ windows_automator_instance s' = windows_automator_instance s
    /\ match env_import env (trace s) AndroidModule with
       | Some _ =>
           android_automator_instance s' = PyNone
           /\ trace s' = trace s ++ [EImport AndroidModule]
           /\ exists msg, log s' = log s ++ [msg]
                          /\ String.prefix "Jarvis Error: " msg = true
       | None =>
           match version_query_raises env (trace s ++ [EImport AndroidModule]) with
           | Some _ =>
               android_automator_instance s' = PyNone
               /\ trace s'
                  = trace s ++ [EImport AndroidModule;
                                ERun ["adb"; "--version"] false]
               /\ exists msg, log s' = log s ++ [msg]
                              /\ String.prefix "Jarvis Error: " msg = true
           | None =>
               android_automator_instance s' = Obj default_android
               /\ (exists evs,
                     trace s'
                     = trace s ++ EImport AndroidModule
                         :: ERun ["adb"; "--version"] false :: evs
                     /\ Forall (fun e => construction_request e = true
                                         /\ e <> EImport WindowsModule) evs)
               /\ log s'
                  = log s ++ ["Jarvis: AndroidAutomator loaded. Initializing ADB connection..."]
           end
       end.
Proof.
  intros Habs. destruct s as [w a l t].
  unfold load_android_automator, bind, get, try_catch, sys_import, request.
  simpl in *. rewrite Habs. simpl.
  destruct (env_import env t AndroidModule) as [e|] eqn:Himp; simpl.
  - unfold raise. destruct e; simpl; do 2 eexists;
      (split; [reflexivity|]); simpl; eauto 10.
  - match goal with
    | |- context [AndroidAutomator_init env "adb" ?s0] =>
        pose proof (AndroidAutomator_init_cases s0) as Hinit
    end.
    simpl in Hinit.
    destruct (version_query_raises env (t ++ [EImport AndroidModule])) as [e|].
    + rewrite Hinit. simpl. destruct e; simpl; do 2 eexists;
        (split; [reflexivity|]); simpl; rewrite <- ?app_assoc; simpl; eauto 10.
    + destruct Hinit as (evs & -> & Hf). simpl. do 2 eexists.
      split; [reflexivity|]. simpl. rewrite <- ?app_assoc. simpl. eauto 10.
Qed.

End Loading.

(** ** Every command ends in a later state *)

Section LoadingAdvances.

Context (env : Env).

Lemma advances_load_windows_automator (ks : list Kind) :
  KImport ∈ ks -> advances ks (load_windows_automator env).
Proof.
  intros Hk s.
  destruct (load_windows_automator_spec env s) as (r & s' & -> & _ & Ha & Hs).
  simpl. destruct (windows_automator_instance s) eqn:Hw;
    try (subst s'; apply advance_refl);
    destruct Hs as [Ht Hs]; (split;
      [ exists [EImport WindowsModule]; split; [done|by repeat constructor]
      | destruct (env_import env (trace s) WindowsModule);
        [destruct Hs as (_ & msg & ? & _)|destruct Hs as [_ ?]]; eauto
      | by rewrite Hw
      | intros ?; by rewrite Ha
      | unfold handles_ok; rewrite Ha; intros [_ Hd];
        split; [by destruct (windows_automator_instance s') as [| |[]]|done] ]).
Qed.

Lemma advances_load_android_automator (ks : list Kind) :
  KImport ∈ ks -> KCheck ∈ ks -> KPrint ∈ ks ->
  advances ks (load_android_automator env).
Proof.
  intros Hi Hc Hp s.
  destruct (load_android_automator_spec env s) as (r & s' & -> & _ & Hw & Hs).
  simpl. destruct (android_automator_instance s) eqn:Ha;
    try (subst s'; apply advance_refl);
    destruct Hs as (evs & Ht & Hs); (split;
      [ exists (EImport AndroidModule :: evs); split; [done|];
        constructor; [done|];
        destruct Hs as [(_ & _ & Hf & _)|(_ & Hf & _)];
        (eapply Forall_impl; [exact Hf|]); simpl; intros e He;
        [ apply elem_of_cons in He as [->|He]; [done|];
          apply list_elem_of_singleton in He as ->; done
        | by rewrite He ]
      | destruct Hs as [(_ & _ & _ & ?)|(_ & _ & _ & msg & ? & _)]; eauto
      | intros ?; by rewrite Hw
      | by rewrite Ha
      | unfold handles_ok; rewrite Hw; intros [Hwin _];
        destruct Hs as [(-> & _)|(-> & _)]; done ]).
Qed.

Lemma advances_log_items (ks : list Kind) (items : list string) :
  advances ks (log_items items).
Proof.
  induction items as [|item items IH]; simpl; [apply advances_ret|].
  apply advances_bind; [apply advances_log_message|intros _; exact IH].
Qed.

End LoadingAdvances.

Ltac kind_mem :=
  solve [ assumption
        | unfold all_kinds, construction_kinds;
          repeat first [apply list_elem_of_here | apply list_elem_of_further] ].

Ltac advances_step :=
  first
    [ apply advances_ret
    | apply advances_raise
    | apply advances_get
    | apply advances_log_message
    | apply advances_log_items
    | apply advances_load_windows_automator; kind_mem
    | apply advances_load_android_automator; kind_mem
    | apply advances_emits;
      first [ apply emits_open_application
            | apply emits_list_directory_contents
            | apply emits_system_command
            | apply emits_take_screenshot
            | apply emits_list_connected_devices
            | apply emits_open_app
            | apply emits_simulate_input_tap
            | apply emits_simulate_input_swipe
            | apply emits_simulate_input_text
            | apply emits_take_screenshot_android ];
      kind_mem
    | apply advances_bind; [|intros ?]
    | match goal with
      | |- advances _ (match ?x with _ => _ end) => destruct x
      end ].

Ltac advances_auto := repeat advances_step.

Section Dispatch.

Context (env : Env).

Lemma advances_handle_open_command (parts : list string) (text : string) :
  advances all_kinds (handle_open_command env parts text).
Proof. unfold handle_open_command. advances_auto. Qed.

Lemma advances_handle_list_command (parts : list string) :
  advances all_kinds (handle_list_command env parts).
Proof. unfold handle_list_command. advances_auto. Qed.

Lemma advances_handle_system_command (parts : list string) :
  advances all_kinds (handle_system_command env parts).
Proof. unfold handle_system_command. advances_auto. Qed.

Lemma advances_handle_screenshot_command (parts : list string) :
  advances all_kinds (handle_screenshot_command env parts).
Proof. unfold handle_screenshot_command. advances_auto. Qed.

Lemma advances_handle_adb_command (parts : list string) :
  advances all_kinds (handle_adb_command env parts).
Proof. unfold handle_adb_command. advances_auto. Qed.

End Dispatch.

Ltac dispatch_auto :=
  repeat first
    [ apply advances_handle_open_command
    | apply advances_handle_list_command
    | apply advances_handle_system_command
    | apply advances_handle_screenshot_command
    | apply advances_handle_adb_command
    | advances_step ].

Lemma advances_process_ui_command (env : Env) (text : string) :
  advances all_kinds (process_ui_command env text).
Proof. unfold process_ui_command. dispatch_auto. Qed.

(** ** Unrecognised commands *)

Section Unrecognised.

Context (env : Env).

Lemma bind_log_message {B} (message : string) (k : unit -> M B) (s : State) :
  bind (log_message message) k s = k tt (set_log (log s ++ [message]) s).
Proof. reflexivity. Qed.

Lemma bind_returns {A B} (m : M A) (k : A -> M B) (s s' : State) (a : A) :
  m s = (Ok a, s') -> bind m k s = k a s'.
Proof. unfold bind. by intros ->. Qed.

(** The two guarded loads at the head of [process_ui_command] return. *)
Lemma preload_windows_returns (s : State) :
  exists s',
    (s0 <- get ;;
     if absent (windows_automator_instance s0)
     then (load_windows_automator env ;; ret tt) else ret tt) s = (Ok tt, s').
Proof.
  unfold bind at 1. simpl. destruct (absent _); [|by eexists].
  destruct (load_windows_automator_spec env s) as (r & s' & Hl & _).
  exists s'. by rewrite (bind_returns _ _ _ _ _ Hl).
Qed.

Lemma preload_android_returns (s : State) :
  exists s',
    (s0 <- get ;;
     if absent (android_automator_instance s0)
     then (load_android_automator env ;; ret tt) else ret tt) s = (Ok tt, s').
Proof.
  unfold bind at 1. simpl. destruct (absent _); [|by eexists].
  destruct (load_android_automator_spec env s) as (r & s' & Hl & _).
  exists s'. by rewrite (bind_returns _ _ _ _ _ Hl).
Qed.



End Unrecognised.



(** ** The requests of a construction *)

Lemma construction_request_kind (e : Event) :
  construction_request e = true -> kind e ∈ construction_kinds.
Proof.
  destruct e as [m|cmd f|argv utf8|p|p|p|p|text items]; simpl;
    try discriminate; try destruct utf8; try discriminate;
    intros _; kind_mem.
Qed.

Lemma construction_requests_kinds (evs : list Event) :
  Forall (fun e => construction_request e = true) evs ->
  Forall (fun e => kind e ∈ construction_kinds) evs.
Proof.
  intros Hf. eapply Forall_impl; [exact Hf|]. apply construction_request_kind.
Qed.

Lemma windows_imports_are_requests (evs : list Event) :
  Forall (fun e => e = EImport WindowsModule) evs ->
  Forall (fun e => construction_request e = true) evs.
Proof. intros Hf. eapply Forall_impl; [exact Hf|]. by intros e ->. Qed.

Section Preloading.

Context (env : Env).

(** Loading the Windows automator asks for the import of its module, once,
    when the handle is unset, and for nothing when it is not. *)
Lemma load_windows_automator_requests (s : State) :
  exists r s' evs,
    load_windows_automator env s = (Ok r, s')
    /\ r = handle_value (windows_automator_instance s')
    /\ android_automator_instance s' = android_automator_instance s
    /\ trace s' = trace s ++ evs
    /\ Forall (fun e => e = EImport WindowsModule) evs
    /\ (is_loaded WindowsModule s = true -> s' = s /\ evs = [])
    /\ (is_loaded WindowsModule s = false -> evs = [EImport WindowsModule]).
Proof.
  destruct (load_windows_automator_spec env s) as (r & s' & Hl & Hr & Ha & Hs).
  exists r, s'. simpl.
  destruct (windows_automator_instance s); simpl.
  - destruct Hs as [Ht _]. exists [EImport WindowsModule].
    do 4 (split; [done|]). split; [by repeat constructor|done].
  - destruct Hs as [Ht _]. exists [EImport WindowsModule].
    do 4 (split; [done|]). split; [by repeat constructor|done].
  - subst s'. exists []. rewrite app_nil_r. by repeat split.
Qed.

(** Loading the Android automator asks for the import of its module first
    when the handle is unset; whatever else it asks for belongs to the
    availability check of the constructor. *)
Lemma load_android_automator_requests (s : State) :
  exists r s' evs,
    load_android_automator env s = (Ok r, s')
    /\ r = handle_value (android_automator_instance s')
    /\ windows_automator_instance s' = windows_automator_instance s
    /\ trace s' = trace s ++ evs
    /\ Forall (fun e => construction_request e = true
                        /\ e <> EImport WindowsModule) evs
    /\ (is_loaded AndroidModule s = true -> s' = s /\ evs = [])
    /\ (is_loaded AndroidModule s = false ->
        exists evs', evs = EImport AndroidModule :: evs').
Proof.
  simpl. destruct (absent (android_automator_instance s)) eqn:Habs; simpl.
  - destruct (load_android_automator_outcome env s Habs)
      as (r & s' & Hl & Hr & Hw & Hs).
    exists r, s'.
    destruct (env_import env (trace s) AndroidModule);
      [|destruct (version_query_raises env (trace s ++ [EImport AndroidModule]))].
    + destruct Hs as (_ & Ht & _). exists [EImport AndroidModule].
      do 4 (split; [done|]). split; [by repeat constructor|].
      split; [done|]. intros _. by eexists.
    + destruct Hs as (_ & Ht & _).
      exists [EImport AndroidModule; ERun ["adb"; "--version"] false].
      do 4 (split; [done|]). split; [by repeat constructor|].
      split; [done|]. intros _. by eexists.
    + destruct Hs as (_ & (evs & Ht & Hf) & _).
      exists (EImport AndroidModule :: ERun ["adb"; "--version"] false :: evs).
      do 4 (split; [done|]). split; [by repeat constructor|].
      split; [done|]. intros _. by eexists.
  - destruct (load_android_automator_spec env s) as (r & s' & Hl & Hr & Hw & Hs).
    destruct (android_automator_instance s) as [| |d] eqn:Hd; try discriminate.
    subst s'. exists r, s, []. rewrite app_nil_r. by repeat split.
Qed.

(** The guarded load of the Windows automator at the head of a command. *)
Lemma preload_windows_block (b : bool) (s : State) :
  exists s1 evs,
    (if b
     then (s0 <- get ;;
           if absent (windows_automator_instance s0)
           then (load_windows_automator env ;; ret tt) else ret tt)
     else ret tt) s = (Ok tt, s1)
    /\ android_automator_instance s1 = android_automator_instance s
    /\ trace s1 = trace s ++ evs
    /\ (b && negb (is_loaded WindowsModule s) = false -> s1 = s /\ evs = [])
    /\ (b && negb (is_loaded WindowsModule s) = true ->
        evs = [EImport WindowsModule]).
Proof.
  destruct b; simpl; [|exists s, []; rewrite app_nil_r; by repeat split].
  unfold bind at 1. simpl.
  destruct (absent (windows_automator_instance s)) eqn:Habs; simpl;
    [|exists s, []; rewrite app_nil_r; by repeat split].
  destruct (load_windows_automator_requests s)
    as (r & s1 & evs & Hl & _ & Ha & Ht & _ & _ & Hevs).
  exists s1, evs. rewrite (bind_returns _ _ _ _ _ Hl).
  repeat split; try done. intros _. apply Hevs. simpl. by rewrite Habs.
Qed.

(** The guarded load of the Android automator at the head of a command. *)
Lemma preload_android_block (b : bool) (s : State) :
  exists s1 evs,
    (if b
     then (s0 <- get ;;
           if absent (android_automator_instance s0)
           then (load_android_automator env ;; ret tt) else ret tt)
     else ret tt) s = (Ok tt, s1)
    /\ windows_automator_instance s1 = windows_automator_instance s
    /\ trace s1 = trace s ++ evs
    /\ Forall (fun e => construction_request e = true
                        /\ e <> EImport WindowsModule) evs
    /\ (b && negb (is_loaded AndroidModule s) = false -> s1 = s /\ evs = [])
    /\ (b && negb (is_loaded AndroidModule s) = true ->
        exists evs', evs = EImport AndroidModule :: evs').
Proof.
  destruct b; simpl; [|exists s, []; rewrite app_nil_r; by repeat split].
  unfold bind at 1. simpl.
  destruct (absent (android_automator_instance s)) eqn:Habs; simpl;
    [|exists s, []; rewrite app_nil_r; by repeat split].
  destruct (load_android_automator_requests s)
    as (r & s1 & evs & Hl & _ & Hw & Ht & Hf & _ & Hevs).
  exists s1, evs. rewrite (bind_returns _ _ _ _ _ Hl).
  repeat split; try done. intros _. apply Hevs. simpl. by rewrite Habs.
Qed.

(** The two guarded loads together, before the handler [k] of a command:
    all their requests are construction requests; without the second one
    only the module of the Windows automator can be asked for; and an
    automator that is loaded after them and was not before had its module
    asked for. *)
Lemma preloads_detail {B} (bw ba : bool) (k : M B) (s : State) :
  exists s1 evs,
    ((if bw
      then (s0 <- get ;;
            if absent (windows_automator_instance s0)
            then (load_windows_automator env ;; ret tt) else ret tt)
      else ret tt) ;;
     (if ba
      then (s0 <- get ;;
            if absent (android_automator_instance s0)
            then (load_android_automator env ;; ret tt) else ret tt)
      else ret tt) ;;
     k) s = k s1
    /\ trace s1 = trace s ++ evs
    /\ Forall (fun e => construction_request e = true) evs
    /\ (ba = false -> Forall (fun e => e = EImport WindowsModule) evs)
    /\ (forall m, is_loaded m s = false -> is_loaded m s1 = true ->
                  EImport m ∈ evs).
Proof.
  destruct (preload_windows_block bw s)
    as (s1 & evs1 & H1 & Ha1 & Ht1 & Hno1 & Hyes1).
  destruct (preload_android_block ba s1)
    as (s2 & evs2 & H2 & Hw2 & Ht2 & Hf2 & Hno2 & Hyes2).
  exists s2, (evs1 ++ evs2).
  rewrite (bind_returns _ _ _ _ _ H1), (bind_returns _ _ _ _ _ H2).
  split; [done|]. split; [by rewrite Ht2, Ht1, app_assoc|].
  assert (Hf1 : Forall (fun e => e = EImport WindowsModule) evs1).
  { destruct (bw && negb (is_loaded WindowsModule s)).
    - rewrite (Hyes1 eq_refl). by repeat constructor.
    - destruct (Hno1 eq_refl) as [_ ->]. constructor. }
  split; [|split].
  - apply Forall_app. split; [by apply windows_imports_are_requests|].
    eapply Forall_impl; [exact Hf2|]. by intros e [He _].
  - intros ->. destruct (Hno2 eq_refl) as [_ ->]. by rewrite app_nil_r.
  - intros [] Hs Hs1; apply elem_of_app.
    + left. simpl in Hs, Hs1. rewrite Hw2 in Hs1.
      destruct (bw && negb (is_loaded WindowsModule s)) eqn:Hb.
      * rewrite (Hyes1 eq_refl). apply list_elem_of_here.
      * destruct (Hno1 eq_refl) as [-> _]. congruence.
    + right. simpl in Hs, Hs1. rewrite <- Ha1 in Hs.
      destruct (ba && negb (is_loaded AndroidModule s1)) eqn:Hb.
      * destruct (Hyes2 eq_refl) as (evs' & ->). apply list_elem_of_here.
      * destruct (Hno2 eq_refl) as [-> _]. simpl in Hs1. congruence.
Qed.

(** A handler that starts by loading an automator starts with the import
    of its module when the handle is unset. *)
Lemma load_windows_first {B} (k : option WindowsAutomator -> M B) (s : State) :
  (forall r, advances all_kinds (k r)) ->
  exists evs,
    trace (snd ((r <- load_windows_automator env ;; k r) s)) = trace s ++ evs
    /\ (is_loaded WindowsModule s = false -> EImport WindowsModule ∈ evs).
Proof.
  intros Hk.
  destruct (load_windows_automator_requests s)
    as (r & s1 & evs & Hl & _ & _ & Ht & _ & _ & Hevs).
  rewrite (bind_returns _ _ _ _ _ Hl).
  destruct (Hk r s1) as [(evs' & Ht' & _) _ _ _ _].
  exists (evs ++ evs'). split; [by rewrite Ht', Ht, app_assoc|].
  intros Habs. rewrite (Hevs Habs). apply list_elem_of_here.
Qed.

Lemma load_android_first {B} (k : option AndroidAutomator -> M B) (s : State) :
  (forall r, advances all_kinds (k r)) ->
  exists evs,
    trace (snd ((r <- load_android_automator env ;; k r) s)) = trace s ++ evs
    /\ (is_loaded AndroidModule s = false -> EImport AndroidModule ∈ evs).
Proof.
  intros Hk.
  destruct (load_android_automator_requests s)
    as (r & s1 & evs & Hl & _ & _ & Ht & _ & _ & Hevs).
  rewrite (bind_returns _ _ _ _ _ Hl).
  destruct (Hk r s1) as [(evs' & Ht' & _) _ _ _ _].
  exists (evs ++ evs'). split; [by rewrite Ht', Ht, app_assoc|].
  intros Habs. destruct (Hevs Habs) as (evs0 & ->). apply list_elem_of_here.
Qed.

End Preloading.

(** ** The handles *)

Section Handles.

Context (env : Env).

(** A command routed to the Windows automator attempts the construction
    whenever the handle is unset, whatever happened before. *)
Lemma command_constructs_windows (text action : string) (rest : list string)
    (s : State) :
  Py.split (Py.lower text) = action :: rest ->
  action ∈ ["list"; "system"] ->
  absent (windows_automator_instance s) = true ->
  exists evs,
    trace (snd (process_ui_command env text s))
    = trace s ++ EImport WindowsModule :: evs.
Proof.
  intros Hsplit Hin Habs.
  unfold process_ui_command. rewrite bind_log_message, Hsplit.
  assert (Py.elem action ["list"; "system"] = true) as ->.
  { apply elem_of_cons in Hin as [->|Hin]; [done|].
    apply list_elem_of_singleton in Hin as ->. done. }
  simpl orb. cbv iota.
  set (s0 := set_log _ s).
  match goal with
  | |- context [bind ?m ?k s0] =>
      assert (Hk : advances all_kinds (k tt)) by dispatch_auto;
      assert (Hm : exists s1, m s0 = (Ok tt, s1)
                              /\ trace s1 = trace s ++ [EImport WindowsModule])
  end.
  { unfold bind at 1. simpl. rewrite Habs.
    destruct (load_windows_automator_spec env s0) as (r & s1 & Hl & _ & _ & Hs).
    rewrite (bind_returns _ _ _ _ _ Hl). exists s1. split; [done|].
    simpl in Hs. destruct (windows_automator_instance s); [| |discriminate];
      by destruct Hs as [-> _]. }
  destruct Hm as (s1 & Hm & Ht).
  rewrite (bind_returns _ _ _ _ _ Hm).
  destruct (Hk s1) as [(evs & Hevs & _) _ _ _ _].
  exists evs. by rewrite Hevs, Ht, <- app_assoc.
Qed.

(** So does an [adb] command for the Android automator. *)
Lemma command_constructs_android (text : string) (rest : list string)
    (s : State) :
  Py.split (Py.lower text) = "adb" :: rest ->
  absent (android_automator_instance s) = true ->
  exists evs,
    trace (snd (process_ui_command env text s))
    = trace s ++ EImport AndroidModule :: evs.
Proof.
  intros Hsplit Habs.
  unfold process_ui_command. rewrite bind_log_message, Hsplit.
  change (Py.elem "adb" ["list"; "system"]) with false.
  change (Py.contains "open" "adb") with false.
  change (String.eqb "adb" "adb") with true.
  rewrite orb_true_r. simpl andb. simpl orb. cbv iota.
  set (s0 := set_log _ s).
  rewrite (bind_returns _ _ _ _ _ (eq_refl : ret tt s0 = (Ok tt, s0))).
  match goal with
  | |- context [bind ?m ?k s0] =>
      assert (Hk : advances all_kinds (k tt)) by dispatch_auto;
      assert (Hm : exists s1 evs, m s0 = (Ok tt, s1)
                     /\ trace s1 = trace s ++ EImport AndroidModule :: evs)
  end.
  { unfold bind at 1. simpl. rewrite Habs.
    destruct (load_android_automator_spec env s0) as (r & s1 & Hl & _ & _ & Hs).
    rewrite (bind_returns _ _ _ _ _ Hl). exists s1.
    simpl in Hs. destruct (android_automator_instance s); [| |discriminate];
      destruct Hs as (evs & -> & _); by exists evs. }
  destruct Hm as (s1 & evs1 & Hm & Ht).
  rewrite (bind_returns _ _ _ _ _ Hm).
  destruct (Hk s1) as [(evs & Hevs & _) _ _ _ _].
  exists (evs1 ++ evs). by rewrite Hevs, Ht, <- app_assoc.
Qed.

End Handles.

(** ** [adb] commands *)

Section Adb.

Context (env : Env).

Lemma process_adb_command (text : string) (rest : list string) (s : State) :
  Py.split (Py.lower text) = "adb" :: rest ->
  process_ui_command env text s
  = ((s0 <- get ;;
      if absent (android_automator_instance s0)
      then (load_android_automator env ;; ret tt) else ret tt) ;;
     if Nat.ltb 1 (length ("adb" :: rest))
     then handle_adb_command env ("adb" :: rest)
     else log_message (not_recognized text))
      (set_log (log s ++ ["User command: " +:+ text]) s).
Proof.
  intros Hsplit. unfold process_ui_command.
  rewrite bind_log_message, Hsplit.
  change (Py.elem "adb" ["list"; "system"]) with false.
  change (Py.contains "open" "adb") with false.
  change (String.eqb "adb" "adb") with true.
  rewrite orb_true_r. simpl andb. simpl orb. cbv iota.
  rewrite (bind_returns _ _ _ _ _ (eq_refl : ret tt _ = (Ok tt, _))).
  reflexivity.
Qed.

(** C8, as the code has it: an [adb tap] with two arguments of which one
    is not an integer never reaches the ADB command runner: the command
    ends without an exception and makes no request but those of
    constructing the Android automator (the import of its module and the
    [adb --version] and [adb devices] of the constructor's availability
    check), and none at all when that automator is already loaded.  Its
    last message is the one about invalid coordinates when the Android
    automator is available, and the one about the automator not being
    available when it is not. *)
Theorem adb_tap_invalid_coordinates (text a b : string) (s : State) :
  Py.split (Py.lower text) = ["adb"; "tap"; a; b] ->
  Py.int a = None \/ Py.int b = None ->
  exists s' evs,
    process_ui_command env text s = (Ok tt, s')
    /\ trace s' = trace s ++ evs
    /\ Forall (fun e => construction_request e = true) evs
    /\ Forall (fun e => kind e ∈ construction_kinds) evs
    /\ (EImport WindowsModule ∉ evs)
    /\ (is_loaded AndroidModule s = true -> evs = [])
    /\ last (log s')
       = Some (match android_automator_instance s' with
               | Obj _ => invalid_tap_message
               | _ => android_unavailable_message
               end).
Proof.
  intros Hsplit Hbad. rewrite (process_adb_command _ _ _ Hsplit).
  set (s0 := set_log _ s).
  destruct (preload_android_block env true s0)
    as (s1 & evs1 & H1 & _ & Ht1 & Hf1 & Hno1 & Hyes1).
  rewrite (bind_returns _ _ _ _ _ H1).
  change (Nat.ltb 1 (length ["adb"; "tap"; a; b])) with true. cbv iota.
  unfold handle_adb_command.
  destruct (load_android_automator_requests env s1)
    as (r & s2 & evs2 & Hl & Hr & _ & Ht2 & Hf2 & Hno2 & Hyes2).
  rewrite (bind_returns _ _ _ _ _ Hl).
  assert (Ht : trace s2 = trace s ++ (evs1 ++ evs2)).
  { by rewrite Ht2, Ht1, app_assoc. }
  assert (Hboth : Forall (fun e => construction_request e = true
                                   /\ e <> EImport WindowsModule) (evs1 ++ evs2)).
  { apply Forall_app. by split. }
  assert (Hf : Forall (fun e => construction_request e = true) (evs1 ++ evs2)).
  { eapply Forall_impl; [exact Hboth|]. by intros e [He _]. }
  assert (Hnow : EImport WindowsModule ∉ evs1 ++ evs2).
  { intros Hin. rewrite Forall_forall in Hboth.
    by destruct (Hboth _ Hin) as [_ Hne]. }
  assert (Hloaded : is_loaded AndroidModule s = true -> evs1 ++ evs2 = []).
  { intros Hd.
    assert (Hd0 : is_loaded AndroidModule s0 = true) by exact Hd.
    destruct (Hno1 ltac:(by rewrite Hd0)) as [-> ->].
    by destruct (Hno2 Hd0) as [_ ->]. }
  destruct (android_automator_instance s2) as [| |d] eqn:Hd; subst r; simpl.
  - eexists _, _. split; [reflexivity|]. simpl. rewrite Hd.
    split; [exact Ht|]. split; [exact Hf|].
    split; [by apply construction_requests_kinds|].
    split; [exact Hnow|]. split; [exact Hloaded|apply last_snoc].
  - eexists _, _. split; [reflexivity|]. simpl. rewrite Hd.
    split; [exact Ht|]. split; [exact Hf|].
    split; [by apply construction_requests_kinds|].
    split; [exact Hnow|]. split; [exact Hloaded|apply last_snoc].
  - change (String.eqb "tap" "devices") with false.
    change (String.eqb "tap" "tap") with true. simpl andb. cbv iota.
    assert (Hlog : forall x y : option Z,
               x = None \/ y = None ->
               match x, y with
               | Some x, Some y =>
                   r <- simulate_input_tap env d x y None ;;
                   log_message ("Jarvis (Droid) Tap at (" +:+ Py.str_of_int x
                                +:+ "," +:+ Py.str_of_int y +:+ "): " +:+ snd r)
               | _, _ => log_message invalid_tap_message
               end = log_message invalid_tap_message).
    { intros [x|] [y|] [?|?]; done. }
    change (nth 0 [a; b] "") with a. change (nth 1 [a; b] "") with b.
    fold invalid_tap_message. rewrite (Hlog _ _ Hbad).
    eexists _, _. split; [reflexivity|]. simpl. rewrite Hd.
    split; [exact Ht|]. split; [exact Hf|].
    split; [by apply construction_requests_kinds|].
    split; [exact Hnow|]. split; [exact Hloaded|apply last_snoc].
Qed.

End Adb.

Lemma adb_tap_invalid_coordinates_witness :
  exists s',
    process_ui_command (quiet_env "") "adb tap 10 2o" initial_state = (Ok tt, s')
    /\ Forall (fun e => construction_request e = true) (trace s')
    /\ last (log s') = Some invalid_tap_message.
Proof.
  destruct (adb_tap_invalid_coordinates (quiet_env "") "adb tap 10 2o" "10" "2o"
              initial_state) as (s' & evs & Hrun & Ht & Hf & _ & _ & _ & Hlast).
  - reflexivity.
  - right. reflexivity.
  - exists s'. split; [exact Hrun|]. rewrite Ht. split; [exact Hf|].
    rewrite Hlast. vm_compute in Hrun. injection Hrun as <-. reflexivity.
Defined.

(** When the Android automator cannot be constructed, the answer to such a
    command is that the automator is not available; and on a launcher that
    has not loaded the Android automator yet, the command constructs it,
    which runs [adb --version] and [adb devices]. *)
Lemma invalid_tap_without_automator :
  ~ invalid_tap_reports_coordinates no_modules_env "adb tap x y" initial_state
  /\ ~ invalid_tap_runs_no_process (quiet_env "") "adb tap x y" initial_state.
Proof.
  split.
  - intros H. specialize (H "x" "y" eq_refl (or_introl eq_refl)).
    vm_compute in H. discriminate.
  - intros H. specialize (H "x" "y" eq_refl (or_introl eq_refl)).
    match type of H with
    | Forall _ ?l => let l' := eval vm_compute in l in change l with l' in H
    end.
    inversion H as [|? ? _ H']; subst. inversion H' as [|? ? Hk _]; subst.
    apply Hk. simpl. do 2 apply list_elem_of_further. apply list_elem_of_here.
Qed.

(** ** [open] commands *)

(** The words of a line are not empty. *)
Lemma split_words_nonempty (s : string) :
  Forall (fun w => nonempty w = true) (Py.split s).
Proof.
  induction s as [|c s IH]; simpl; [constructor|].
  destruct (Py.isspace c); [exact IH|].
  destruct s as [|d s']; [by repeat constructor|].
  destruct (Py.isspace d); [by constructor|].
  destruct (Py.split (String d s')) as [|w ws]; [by repeat constructor|].
  inversion IH; subst. by constructor.
Qed.

Lemma join_nonempty (sep x : string) (xs : list string) :
  nonempty x = true -> nonempty (Py.join sep (x :: xs)) = true.
Proof.
  intros Hx. unfold Py.join. simpl.
  destruct xs; [exact Hx|]. destruct x; [discriminate|reflexivity].
Qed.

Lemma elem_false_iff (x : string) (l : list string) :
  Py.elem x l = false <-> x ∉ l.
Proof.
  unfold Py.elem. induction l as [|y l IH]; simpl.
  - split; [intros _; apply not_elem_of_nil|done].
  - rewrite orb_false_iff, IH, not_elem_of_cons, String.eqb_neq. tauto.
Qed.

Lemma elem_app_here (x : string) (l r : list string) :
  Py.elem x (l ++ x :: r) = true.
Proof.
  unfold Py.elem. rewrite existsb_app. simpl.
  rewrite String.eqb_refl. apply orb_true_r.
Qed.

Lemma index_app_here (x : string) (l r : list string) :
  x ∉ l -> Py.index x (l ++ x :: r) = Some (length l).
Proof.
  induction l as [|y l IH]; simpl; intros Hx.
  - by rewrite String.eqb_refl.
  - apply not_elem_of_cons in Hx as [Hxy Hx].
    assert (String.eqb y x = false) as -> by (apply String.eqb_neq; congruence).
    by rewrite (IH Hx).
Qed.

Lemma open_target_suffix (xs : list string) (os : string) :
  "on" ∉ xs -> os ∈ ["android"; "windows"] ->
  open_target ("open" :: xs ++ ["on"; os]) = (os, xs).
Proof.
  intros Hon Hos. unfold open_target. simpl tail.
  rewrite elem_app_here, (index_app_here _ _ _ Hon).
  assert (Nat.ltb (length xs + 1) (length (xs ++ ["on"; os])) = true) as ->.
  { apply Nat.ltb_lt. rewrite length_app. simpl. lia. }
  assert (nth (length xs + 1) (xs ++ ["on"; os]) "" = os) as ->.
  { rewrite app_nth2 by lia. by replace (length xs + 1 - length xs) with 1 by lia. }
  assert (Py.lower os = os) as ->.
  { apply elem_of_cons in Hos as [->|Hos]; [done|].
    apply list_elem_of_singleton in Hos as ->. done. }
  assert (Py.elem os ["android"; "windows"] = true) as ->.
  { apply elem_of_cons in Hos as [->|Hos]; [done|].
    apply list_elem_of_singleton in Hos as ->. done. }
  by rewrite take_app_length.
Qed.

Lemma open_target_plain (xs : list string) :
  "on" ∉ xs -> open_target ("open" :: xs) = ("windows", xs).
Proof.
  intros Hon. unfold open_target. simpl tail.
  by rewrite (proj2 (elem_false_iff _ _) Hon).
Qed.

Section Open.

Context (env : Env).

Lemma process_open_command (text : string) (rest : list string) (s : State) :
  Py.split (Py.lower text) = "open" :: rest ->
  rest <> [] ->
  process_ui_command env text s
  = ((if negb (Py.contains "android" (Py.lower text))
      then (s0 <- get ;;
            if absent (windows_automator_instance s0)
            then (load_windows_automator env ;; ret tt) else ret tt)
      else ret tt) ;;
     (if Py.contains "android" (Py.lower text)
      then (s0 <- get ;;
            if absent (android_automator_instance s0)
            then (load_android_automator env ;; ret tt) else ret tt)
      else ret tt) ;;
     handle_open_command env ("open" :: rest) text)
      (set_log (log s ++ ["User command: " +:+ text]) s).
Proof.
  intros Hsplit Hrest. unfold process_ui_command.
  rewrite bind_log_message, Hsplit.
  change (Py.elem "open" ["list"; "system"]) with false.
  change (Py.contains "open" "open") with true.
  change (String.eqb "open" "adb") with false.
  change (String.eqb "open" "hello") with false.
  change (String.eqb "open" "open") with true.
  rewrite orb_false_r. simpl orb. simpl andb.
  destruct rest as [|x rest]; [done|]. reflexivity.
Qed.

Lemma preloads_return {B} (bw ba : bool) (k : M B) (s : State) :
  exists s1,
    advance construction_kinds s s1
    /\ ((if bw
         then (s0 <- get ;;
               if absent (windows_automator_instance s0)
               then (load_windows_automator env ;; ret tt) else ret tt)
         else ret tt) ;;
        (if ba
         then (s0 <- get ;;
               if absent (android_automator_instance s0)
               then (load_android_automator env ;; ret tt) else ret tt)
         else ret tt) ;;
        k) s = k s1.
Proof.
  assert (Hw : exists s1, advance construction_kinds s s1
                 /\ (if bw
                     then (s0 <- get ;;
                           if absent (windows_automator_instance s0)
                           then (load_windows_automator env ;; ret tt) else ret tt)
                     else ret tt) s = (Ok tt, s1)).
  { destruct bw; [|exists s; split; [apply advance_refl|done]].
    destruct (preload_windows_returns env s) as (s1 & H1). exists s1.
    split; [|done].
    match type of H1 with
    | ?m s = _ =>
        assert (Hm : advances construction_kinds m) by advances_auto;
        specialize (Hm s); by rewrite H1 in Hm
    end. }
  destruct Hw as (s1 & Hadv1 & H1).
  assert (Ha : exists s2, advance construction_kinds s1 s2
                 /\ (if ba
                     then (s0 <- get ;;
                           if absent (android_automator_instance s0)
                           then (load_android_automator env ;; ret tt) else ret tt)
                     else ret tt) s1 = (Ok tt, s2)).
  { destruct ba; [|exists s1; split; [apply advance_refl|done]].
    destruct (preload_android_returns env s1) as (s2 & H2). exists s2.
    split; [|done].
    match type of H2 with
    | ?m s1 = _ =>
        assert (Hm : advances construction_kinds m) by advances_auto;
        specialize (Hm s1); by rewrite H2 in Hm
    end. }
  destruct Ha as (s2 & Hadv2 & H2).
  exists s2. split; [by eapply advance_trans|].
  rewrite (bind_returns _ _ _ _ _ H1). by rewrite (bind_returns _ _ _ _ _ H2).
Qed.

(** [open_app] starts with the monkey call and makes runner calls only. *)
Lemma open_app_first_event (d : AndroidAutomator) (name : string)
    (device_id : option string) (s : State) :
  exists r evs,
    open_app env d name device_id s
    = (Ok r,
       set_trace (trace s ++ ERun ([adb_path d] ++ device_selector device_id
                                   ++ monkey_command name) true :: evs) s)
    /\ Forall (fun e => kind e = KAdb) evs.
Proof.
  unfold open_app, bind.
  destruct (run_adb_command_returns env d (monkey_command name) device_id s)
    as (ok & out & Hm).
  unfold monkey_command in Hm at 1. rewrite Hm.
  destruct ok; [|by exists (false, out), []].
  destruct (Py.contains "Events injected: 1" out || negb (nonempty out));
    [by eexists _, []|].
  match goal with
  | |- context [_run_adb_command env d ?c device_id ?s1] =>
      destruct (run_adb_command_returns env d c device_id s1)
        as (ok2 & out2 & Hp); rewrite Hp
  end.
  destruct (ok2 && Py.contains name out2); eexists _, [_];
    (split; [unfold set_trace; simpl; by rewrite <- app_assoc|by repeat constructor]).
Qed.

Lemma open_application_event (w : WindowsAutomator) (name : string) (s : State) :
  exists r,
    open_application env w name s
    = (Ok r, set_trace (trace s ++ [EPopen ("start " +:+ name) (env_win32 env)]) s).
Proof.
  unfold open_application, bind, sys_popen, request.
  destruct (env_popen env (trace s) _); by eexists.
Qed.

Lemma construction_not_popen (evs : list Event) :
  Forall (fun e => kind e ∈ construction_kinds) evs ->
  Forall (fun e => kind e <> KPopen) evs /\ Forall (fun e => kind e <> KAdb) evs.
Proof.
  intros Hf. split; (eapply Forall_impl; [exact Hf|]); intros e He Hk;
    simpl in He; rewrite Hk in He; unfold construction_kinds in He;
    repeat (apply elem_of_cons in He as [He|He]; [discriminate|]);
    by apply elem_of_nil in He.
Qed.

Lemma open_name_nonempty (text : string) (xs tail_words : list string) :
  xs <> [] ->
  Py.split (Py.lower text) = "open" :: xs ++ tail_words ->
  nonempty (Py.join " " xs) = true.
Proof.
  intros Hxs Hsplit. destruct xs as [|x xs]; [done|].
  pose proof (split_words_nonempty (Py.lower text)) as Hne.
  rewrite Hsplit in Hne. inversion Hne as [|? ? _ Hne']; subst.
  inversion Hne'; subst. by apply join_nonempty.
Qed.

Lemma open_routes_android (text : string) (xs : list string) (s : State) :
  xs <> [] -> "on" ∉ xs ->
  Py.split (Py.lower text) = "open" :: xs ++ ["on"; "android"] ->
  exists evs,
    trace (snd (process_ui_command env text s)) = trace s ++ evs
    /\ Forall (fun e => kind e <> KPopen) evs
    /\ (forall d,
          android_automator_instance (snd (process_ui_command env text s)) = Obj d ->
          ERun (adb_path d :: monkey_command (Py.join " " xs)) true ∈ evs).
Proof.
  intros Hxs Hon Hsplit.
  rewrite (process_open_command _ _ s Hsplit) by (by destruct xs).
  set (s0 := set_log _ s).
  destruct (preloads_return (negb (Py.contains "android" (Py.lower text)))
              (Py.contains "android" (Py.lower text))
              (handle_open_command env ("open" :: xs ++ ["on"; "android"]) text) s0)
    as (s1 & Hadv1 & ->).
  unfold handle_open_command.
  rewrite (open_target_suffix xs "android" Hon) by compute_done.
  rewrite (open_name_nonempty _ _ _ Hxs Hsplit).
  change (negb true) with false. cbv iota.
  change (String.eqb "android" "windows") with false.
  change (String.eqb "android" "android") with true. cbv iota.
  destruct (load_android_automator_spec env s1) as (r & s2 & Hl & Hr & _ & _).
  assert (Hadv2 : advance construction_kinds s1 s2).
  { pose proof (advances_load_android_automator env construction_kinds
                  ltac:(kind_mem) ltac:(kind_mem) ltac:(kind_mem) s1) as Hm.
    by rewrite Hl in Hm. }
  rewrite (bind_returns _ _ _ _ _ Hl).
  destruct (advance_trans _ _ _ _ Hadv1 Hadv2) as [(evs & Ht & Hf) _ _ _ _].
  simpl in Ht. apply construction_not_popen in Hf as [Hnp _].
  destruct (android_automator_instance s2) as [| |d] eqn:Hd; subst r; simpl.
  - exists evs. split; [done|]. split; [done|]. intros d. by rewrite Hd.
  - exists evs. split; [done|]. split; [done|]. intros d. by rewrite Hd.
  - rewrite bind_log_message. cbv beta.
    match goal with
    | |- context [bind (open_app env d ?n None) _ ?st] =>
        destruct (open_app_first_event d n None st) as (res & more & Ho & Hmore)
    end.
    rewrite (bind_returns _ _ _ _ _ Ho). simpl. rewrite Ht, Hd.
    eexists. split; [by rewrite <- app_assoc|]. split.
    + apply Forall_app. split; [done|].
      constructor; [done|]. eapply Forall_impl; [exact Hmore|].
      simpl. intros e ->. done.
    + intros d' [= <-]. apply elem_of_app. right. apply list_elem_of_here.
Qed.

Lemma open_routes_windows (text : string) (xs : list string) (s : State) :
  xs <> [] -> "on" ∉ xs ->
  Py.split (Py.lower text) = "open" :: xs ++ ["on"; "windows"]
  \/ Py.split (Py.lower text) = "open" :: xs ->
  exists evs,
    trace (snd (process_ui_command env text s)) = trace s ++ evs
    /\ Forall (fun e => kind e <> KAdb) evs
    /\ (forall w,
          windows_automator_instance (snd (process_ui_command env text s)) = Obj w ->
          EPopen ("start " +:+ Py.join " " xs) (env_win32 env) ∈ evs).
Proof.
  intros Hxs Hon Hsplit.
  assert (exists rest,
             Py.split (Py.lower text) = "open" :: rest /\ rest <> []
             /\ open_target ("open" :: rest) = ("windows", xs)
             /\ nonempty (Py.join " " xs) = true) as (rest & Hs & Hrest & Htarget & Hname).
  { destruct Hsplit as [Hs|Hs].
    - exists (xs ++ ["on"; "windows"]). split; [done|]. split; [by destruct xs|].
      split; [apply (open_target_suffix xs "windows" Hon); compute_done|].
      by apply (open_name_nonempty text xs ["on"; "windows"]).
    - exists xs. split; [done|]. split; [done|].
      split; [by apply open_target_plain|].
      apply (open_name_nonempty text xs []); [done|by rewrite app_nil_r]. }
  rewrite (process_open_command _ _ s Hs Hrest).
  set (s0 := set_log _ s).
  destruct (preloads_return (negb (Py.contains "android" (Py.lower text)))
              (Py.contains "android" (Py.lower text))
              (handle_open_command env ("open" :: rest) text) s0)
    as (s1 & Hadv1 & ->).
  unfold handle_open_command.
  rewrite Htarget, Hname. change (negb true) with false. cbv iota.
  change (String.eqb "windows" "windows") with true. cbv iota.
  destruct (load_windows_automator_spec env s1) as (r & s2 & Hl & Hr & _ & _).
  assert (Hadv2 : advance construction_kinds s1 s2).
  { pose proof (advances_load_windows_automator env construction_kinds
                  ltac:(kind_mem) s1) as Hm.
    by rewrite Hl in Hm. }
  rewrite (bind_returns _ _ _ _ _ Hl).
  destruct (advance_trans _ _ _ _ Hadv1 Hadv2) as [(evs & Ht & Hf) _ _ _ _].
  simpl in Ht. apply construction_not_popen in Hf as [_ Hna].
  destruct (windows_automator_instance s2) as [| |w] eqn:Hw; subst r; simpl.
  - exists evs. split; [done|]. split; [done|]. intros w. by rewrite Hw.
  - exists evs. split; [done|]. split; [done|]. intros w. by rewrite Hw.
  - destruct (open_application_event w (Py.join " " xs) s2) as (res & Ho).
    rewrite (bind_returns _ _ _ _ _ Ho). simpl. rewrite Ht.
    eexists. split; [by rewrite <- app_assoc|]. split.
    + apply Forall_app. split; [done|]. by repeat constructor.
    + intros ? _. apply elem_of_app. right. apply list_elem_of_here.
Qed.

(** C2, as the code has it: for an application name [xs] of one or more
    words, none of them the word "on": [open xs on android] never calls
    the Windows automator's [open_application], and calls the Android
    automator's [open_app] with the name when that automator is available;
    [open xs on windows] and the bare [open xs] never call the ADB command
    runner, and call [open_application] with the name when the Windows
    automator is available.  The word "android" inside the name does not
    change the target. *)
Theorem open_routing (text : string) (xs : list string) (s : State) :
  xs <> [] -> "on" ∉ xs ->
  let s' := snd (process_ui_command env text s) in
  (Py.split (Py.lower text) = "open" :: xs ++ ["on"; "android"] ->
   exists evs,
     trace s' = trace s ++ evs
     /\ Forall (fun e => kind e <> KPopen) evs
     /\ (forall d, android_automator_instance s' = Obj d ->
                   ERun (adb_path d :: monkey_command (Py.join " " xs)) true ∈ evs))
  /\ (Py.split (Py.lower text) = "open" :: xs ++ ["on"; "windows"]
      \/ Py.split (Py.lower text) = "open" :: xs ->
      exists evs,
        trace s' = trace s ++ evs
        /\ Forall (fun e => kind e <> KAdb) evs
        /\ (forall w, windows_automator_instance s' = Obj w ->
                      EPopen ("start " +:+ Py.join " " xs) (env_win32 env) ∈ evs)).
Proof.
  intros Hxs Hon. cbv zeta. split.
  - by apply open_routes_android.
  - by apply open_routes_windows.
Qed.

End Open.

Lemma open_routing_witness :
  exists evs,
    trace (snd (process_ui_command (quiet_env "") "open com.android.chrome"
                  initial_state)) = evs
    /\ Forall (fun e => kind e <> KAdb) evs
    /\ EPopen "start com.android.chrome" true ∈ evs.
Proof.
  destruct (open_routing (quiet_env "") "open com.android.chrome"
              ["com.android.chrome"] initial_state) as [_ Hwin].
  - discriminate.
  - compute_done.
  - destruct Hwin as (evs & Ht & Hno & Hpopen); [by right|].
    exists evs. split; [exact Ht|]. split; [exact Hno|].
    by apply (Hpopen mkWindowsAutomator).
Defined.

(** [open com.android.chrome] starts the program through the Windows
    automator, the word "android" in the line notwithstanding. *)
Lemma android_word_goes_to_windows :
  ~ android_word_selects_android (quiet_env "") "open com.android.chrome"
      initial_state.
Proof.
  intros H. specialize (H ["com.android.chrome"] eq_refl eq_refl).
  vm_compute in H.
  repeat match goal with
         | H : Forall _ (_ :: _) |- _ => inversion H; clear H; subst
         end.
  congruence.
Qed.

(** C3 fails on the code: the words handed to the automators are cut from
    the lower-cased line.  [open MyApp], with the Windows automator loaded,
    starts "myapp". *)
Theorem open_passes_lowercased_name (env : Env) (w : WindowsAutomator)
    (a : Attr AndroidAutomator) (l : list string) (t : Trace) :
  trace (snd (process_ui_command env "open MyApp" (mkState (Obj w) a l t)))
  = t ++ [EPopen "start myapp" (env_win32 env)].
Proof.
  unfold process_ui_command. rewrite bind_log_message.
  change (Py.split (Py.lower "open MyApp")) with ["open"; "myapp"].
  change (Py.contains "android" (Py.lower "open MyApp")) with false.
  change (Py.elem "open" ["list"; "system"]) with false.
  change (Py.contains "open" "open") with true.
  change (String.eqb "open" "adb") with false.
  change (String.eqb "open" "hello") with false.
  change (String.eqb "open" "open") with true.
  simpl. unfold handle_open_command.
  change (open_target ["open"; "myapp"]) with ("windows", ["myapp"]). cbv iota.
  change (Py.join " " ["myapp"]) with "myapp".
  change (negb (nonempty "myapp")) with false.
  change (String.eqb "windows" "windows") with true. cbv iota.
  unfold load_windows_automator, open_application, sys_popen, request, bind,
    get, read_attr, ret, log_message, modify. simpl.
  by destruct (env_popen env t _).
Qed.

(** ** The handles, through a whole command *)

Section Built.

Context (env : Env).

Lemma constructed_app (m : PyModule) (t evs : Trace) :
  constructed env m t -> constructed env m (t ++ evs).
Proof.
  intros (t1 & t2 & -> & Hi & Hv). exists t1, (t2 ++ evs).
  by rewrite <- app_assoc.
Qed.

Lemma builds_ret {A} (a : A) : builds env (ret a).
Proof. by intros s Hb. Qed.

Lemma builds_raise {A} (e : Exn) : builds env (raise (A:=A) e).
Proof. by intros s Hb. Qed.

Lemma builds_get : builds env get.
Proof. by intros s Hb. Qed.

Lemma builds_log_message (message : string) : builds env (log_message message).
Proof. intros s Hb m Hm. apply (Hb m). by destruct m. Qed.

Lemma builds_bind {A B} (m : M A) (k : A -> M B) :
  builds env m -> (forall a, builds env (k a)) -> builds env (bind m k).
Proof.
  intros Hm Hk s Hb. unfold bind. specialize (Hm s Hb).
  destruct (m s) as [[a|e] s1]; simpl in *; [by apply Hk|done].
Qed.

Lemma builds_log_items (items : list string) : builds env (log_items items).
Proof.
  induction items as [|item items IH]; simpl; [apply builds_ret|].
  apply builds_bind; [apply builds_log_message|intros _; exact IH].
Qed.

Lemma builds_emits {A} (ks : list Kind) (m : M A) : emits ks m -> builds env m.
Proof.
  intros Hm s Hb. destruct (Hm s) as (evs & Hs & _). rewrite Hs.
  intros m0 Hm0. simpl. apply constructed_app, Hb. by destruct m0.
Qed.

Lemma builds_load_windows_automator : builds env (load_windows_automator env).
Proof.
  intros s Hb.
  destruct (load_windows_automator_spec env s) as (r & s' & Hl & _ & Ha & Hs).
  rewrite Hl. simpl.
  destruct (absent (windows_automator_instance s)) eqn:Habs.
  - assert (Ht : trace s' = trace s ++ [EImport WindowsModule]
                 /\ (negb (absent (windows_automator_instance s')) = true ->
                     env_import env (trace s) WindowsModule = None)).
    { destruct (windows_automator_instance s); [| |discriminate];
        destruct Hs as [Ht Hs]; (split; [done|]);
        destruct (env_import env (trace s) WindowsModule);
        try done; destruct Hs as [-> _]; discriminate. }
    destruct Ht as [Ht Himp]. intros [] Hm; simpl in Hm.
    + exists (trace s), []. split; [done|]. split; [by apply Himp|done].
    + rewrite Ht. apply constructed_app, Hb. simpl. by rewrite <- Ha.
  - destruct (windows_automator_instance s); try discriminate. by subst s'.
Qed.

Lemma builds_load_android_automator : builds env (load_android_automator env).
Proof.
  intros s Hb.
  destruct (absent (android_automator_instance s)) eqn:Habs.
  - destruct (load_android_automator_outcome env s Habs)
      as (r & s' & Hl & _ & Hw & Hs).
    rewrite Hl. simpl.
    destruct (env_import env (trace s) AndroidModule) eqn:Himp;
      [|destruct (version_query_raises env (trace s ++ [EImport AndroidModule]))
          eqn:Hver].
    + destruct Hs as (Hd & Ht & _). intros [] Hm; simpl in Hm.
      * rewrite Ht. apply constructed_app, Hb. simpl. by rewrite <- Hw.
      * rewrite Hd in Hm. discriminate.
    + destruct Hs as (Hd & Ht & _). intros [] Hm; simpl in Hm.
      * rewrite Ht. apply constructed_app, Hb. simpl. by rewrite <- Hw.
      * rewrite Hd in Hm. discriminate.
    + destruct Hs as (Hd & (evs & Ht & _) & _). intros [] Hm; simpl in Hm.
      * rewrite Ht. apply constructed_app, Hb. simpl. by rewrite <- Hw.
      * exists (trace s), (ERun ["adb"; "--version"] false :: evs).
        split; [done|]. split; [done|]. by intros _.
  - destruct (load_android_automator_spec env s) as (r & s' & Hl & _ & _ & Hs).
    rewrite Hl. simpl.
    destruct (android_automator_instance s); try discriminate. by subst s'.
Qed.

Ltac builds_step :=
  first
    [ apply builds_ret
    | apply builds_raise
    | apply builds_get
    | apply builds_log_message
    | apply builds_log_items
    | apply builds_load_windows_automator
    | apply builds_load_android_automator
    | apply (builds_emits all_kinds);
      first [ apply emits_open_application
            | apply emits_list_directory_contents
            | apply emits_system_command
            | apply emits_take_screenshot
            | apply emits_list_connected_devices
            | apply emits_open_app
            | apply emits_simulate_input_tap
            | apply emits_simulate_input_swipe
            | apply emits_simulate_input_text
            | apply emits_take_screenshot_android ];
      kind_mem
    | apply builds_bind; [|intros ?]
    | match goal with
      | |- builds _ (match ?x with _ => _ end) => destruct x
      end ].

Lemma builds_handle_open_command (parts : list string) (text : string) :
  builds env (handle_open_command env parts text).
Proof. unfold handle_open_command. repeat builds_step. Qed.

Lemma builds_handle_list_command (parts : list string) :
  builds env (handle_list_command env parts).
Proof. unfold handle_list_command. repeat builds_step. Qed.

Lemma builds_handle_system_command (parts : list string) :
  builds env (handle_system_command env parts).
Proof. unfold handle_system_command. repeat builds_step. Qed.

Lemma builds_handle_screenshot_command (parts : list string) :
  builds env (handle_screenshot_command env parts).
Proof. unfold handle_screenshot_command. repeat builds_step. Qed.

Lemma builds_handle_adb_command (parts : list string) :
  builds env (handle_adb_command env parts).
Proof. unfold handle_adb_command. repeat builds_step. Qed.

(** After every command, an automator behind a handle was constructed to
    the end at some point of the history. *)
Lemma builds_process_ui_command (text : string) :
  builds env (process_ui_command env text).
Proof.
  unfold process_ui_command.
  repeat first
    [ apply builds_handle_open_command
    | apply builds_handle_list_command
    | apply builds_handle_system_command
    | apply builds_handle_screenshot_command
    | apply builds_handle_adb_command
    | builds_step ].
Qed.

End Built.

Section Routing.

Context (env : Env).

Lemma process_screenshot_command (text : string) (rest : list string)
    (s : State) :
  Py.split (Py.lower text) = "screenshot" :: rest ->
  process_ui_command env text s
  = ((if false
      then (s0 <- get ;;
            if absent (windows_automator_instance s0)
            then (load_windows_automator env ;; ret tt) else ret tt)
      else ret tt) ;;
     (if Py.contains "android" (Py.lower text)
      then (s0 <- get ;;
            if absent (android_automator_instance s0)
            then (load_android_automator env ;; ret tt) else ret tt)
      else ret tt) ;;
     handle_screenshot_command env ("screenshot" :: rest))
      (set_log (log s ++ ["User command: " +:+ text]) s).
Proof.
  intros Hsplit. unfold process_ui_command.
  rewrite bind_log_message, Hsplit.
  change (Py.elem "screenshot" ["list"; "system"]) with false.
  change (Py.contains "open" "screenshot") with false.
  change (String.eqb "screenshot" "adb") with false.
  change (String.eqb "screenshot" "hello") with false.
  change (String.eqb "screenshot" "open") with false.
  change (String.eqb "screenshot" "list") with false.
  change (String.eqb "screenshot" "system") with false.
  change (String.eqb "screenshot" "screenshot") with true.
  change (Py.contains "android" (Py.lower text) || false)
    with (orb (Py.contains "android" (Py.lower text)) false).
  rewrite (orb_false_r (Py.contains "android" (Py.lower text))). reflexivity.
Qed.

(** A handler that asks for the module of [m] whenever it finds the handle
    unset does so, or finds the automator just loaded, after the two
    guarded loads. *)
Lemma preloads_then_handler {B} (m : PyModule) (bw ba : bool) (h : M B)
    (s : State) (t : Trace) :
  trace s = t ->
  (forall s1, exists evs,
      trace (snd (h s1)) = trace s1 ++ evs
      /\ (is_loaded m s1 = false -> EImport m ∈ evs)) ->
  is_loaded m s = false ->
  exists evs,
    trace (snd (((if bw
                  then (s0 <- get ;;
                        if absent (windows_automator_instance s0)
                        then (load_windows_automator env ;; ret tt) else ret tt)
                  else ret tt) ;;
                 (if ba
                  then (s0 <- get ;;
                        if absent (android_automator_instance s0)
                        then (load_android_automator env ;; ret tt) else ret tt)
                  else ret tt) ;;
                 h) s))
    = t ++ evs
    /\ EImport m ∈ evs.
Proof.
  intros <- Hh Habs.
  destruct (preloads_detail env bw ba h s) as (s1 & evs1 & -> & Ht1 & _ & _ & Hm).
  destruct (Hh s1) as (evs2 & Ht2 & Hin).
  exists (evs1 ++ evs2). split; [by rewrite Ht2, Ht1, app_assoc|].
  apply elem_of_app. destruct (is_loaded m s1) eqn:Hs1.
  - left. by apply Hm.
  - right. by apply Hin.
Qed.

Lemma handle_open_command_attempts (m : PyModule) (rest : list string)
    (text : string) (s : State) :
  nonempty (Py.join " " (snd (open_target ("open" :: rest)))) = true ->
  fst (open_target ("open" :: rest))
  = match m with WindowsModule => "windows" | AndroidModule => "android" end ->
  exists evs,
    trace (snd (handle_open_command env ("open" :: rest) text s)) = trace s ++ evs
    /\ (is_loaded m s = false -> EImport m ∈ evs).
Proof.
  intros Hname Hos. unfold handle_open_command.
  destruct (open_target ("open" :: rest)) as [target name]. simpl in Hname, Hos.
  rewrite Hname. change (negb true) with false. cbv iota. subst target.
  destruct m.
  - change (String.eqb "windows" "windows") with true. cbv iota.
    apply load_windows_first. intros r. advances_auto.
  - change (String.eqb "android" "windows") with false.
    change (String.eqb "android" "android") with true. cbv iota.
    apply load_android_first. intros r. advances_auto.
Qed.

Lemma handle_screenshot_command_attempts (m : PyModule) (rest : list string)
    (s : State) :
  bool_decide (Py.lower <$> ("screenshot" :: rest) !! 1%nat = Some "android")
  = match m with WindowsModule => false | AndroidModule => true end ->
  exists evs,
    trace (snd (handle_screenshot_command env ("screenshot" :: rest) s))
    = trace s ++ evs
    /\ (is_loaded m s = false -> EImport m ∈ evs).
Proof.
  intros Harg. unfold handle_screenshot_command. rewrite Harg. destruct m.
  - destruct (bool_decide (Py.lower <$> ("screenshot" :: rest) !! 1%nat
                           = Some "windows"));
      [|destruct (Py.lower <$> ("screenshot" :: rest) !! 1%nat) as [a|];
        [destruct (nonempty a)|]];
      cbv beta iota zeta;
      change (String.eqb "windows" "windows") with true; cbv iota;
      apply load_windows_first; intros r; advances_auto.
  - cbv beta iota zeta.
    change (String.eqb "android" "windows") with false.
    change (String.eqb "android" "android") with true. cbv iota.
    apply load_android_first. intros r. advances_auto.
Qed.

(** A command routed to an automator whose handle is unset asks for the
    import of its module: the construction is attempted again, whatever
    happened before. *)
Lemma routed_command_constructs (m : PyModule) (text : string) (s : State) :
  routed_to m (Py.split (Py.lower text)) = true ->
  is_loaded m s = false ->
  exists evs,
    trace (snd (process_ui_command env text s)) = trace s ++ evs
    /\ EImport m ∈ evs.
Proof.
  intros Hroute Habs.
  destruct (Py.split (Py.lower text)) as [|action rest] eqn:Hsplit;
    [discriminate|].
  unfold routed_to in Hroute.
  apply orb_true_iff in Hroute as [Hroute|Hshot];
    [apply orb_true_iff in Hroute as [Hfirst|Hopen]|].
  - destruct m.
    + destruct (command_constructs_windows env text action rest s Hsplit)
        as (evs & Ht).
      * unfold Py.elem in Hfirst. simpl in Hfirst.
        rewrite orb_false_r in Hfirst.
        apply orb_true_iff in Hfirst as [->%String.eqb_eq| ->%String.eqb_eq];
          [apply list_elem_of_here|apply list_elem_of_further, list_elem_of_here].
      * simpl in Habs. by destruct (absent (windows_automator_instance s)).
      * exists (EImport WindowsModule :: evs). split; [done|apply list_elem_of_here].
    + apply String.eqb_eq in Hfirst as ->.
      destruct (command_constructs_android env text rest s Hsplit) as (evs & Ht).
      * simpl in Habs. by destruct (absent (android_automator_instance s)).
      * exists (EImport AndroidModule :: evs). split; [done|apply list_elem_of_here].
  - apply andb_true_iff in Hopen as [Hopen Hos].
    apply andb_true_iff in Hopen as [Hopen Hname].
    apply andb_true_iff in Hopen as [->%String.eqb_eq Hlen].
    apply String.eqb_eq in Hos.
    assert (Hrest : rest <> []) by (by destruct rest).
    rewrite (process_open_command env _ _ s Hsplit Hrest).
    apply (preloads_then_handler m); [reflexivity| |exact Habs].
    intros s1. by apply handle_open_command_attempts.
  - apply andb_true_iff in Hshot as [->%String.eqb_eq Harg].
    rewrite (process_screenshot_command _ _ s Hsplit).
    apply (preloads_then_handler m false (Py.contains "android" (Py.lower text))
             (handle_screenshot_command env ("screenshot" :: rest))
             (set_log (log s ++ ["User command: " +:+ text]) s) (trace s));
      [reflexivity| |exact Habs].
    intros s1. apply handle_screenshot_command_attempts.
    destruct m; [by apply negb_true_iff in Harg|done].
Qed.

End Routing.

(** C9: a handle is unset or holds a completely initialised automator,
    at the start and after every command, and an automator behind a handle
    was constructed to the end at some point of the history: its import
    was answered without an exception and, for the Android automator, the
    constructor did not raise.  A handle that holds an automator keeps it.
    Loading with an unset handle always attempts the construction, and
    what it leaves is decided by the answers it gets: if the import fails,
    or the constructor of the Android automator raises (its version query
    fails with anything but a missing binary or a non-zero exit), the
    exception is caught, the handle is left unset ([None]), the failure is
    reported as one "Jarvis Error" message in the log, and nothing is
    raised; otherwise the handle holds the automator.  Every later command
    routed to an automator whose handle is unset ([list], [system], [adb],
    [open] with a name and that target, [screenshot] for that target) asks
    for the import of its module again. *)
Theorem backend_handles (env : Env) :
  (handles_ok initial_state /\ handles_built env initial_state)
  /\ (forall text s,
        advance all_kinds s (snd (process_ui_command env text s))
        /\ (handles_built env s ->
            handles_built env (snd (process_ui_command env text s))))
  /\ (forall s,
        absent (windows_automator_instance s) = true ->
        exists r s',
          load_windows_automator env s = (Ok r, s')
          /\ r = handle_value (windows_automator_instance s')
          /\ android_automator_instance s' = android_automator_instance s
          /\ trace s' = trace s ++ [EImport WindowsModule]
          /\ match env_import env (trace s) WindowsModule with
             | None =>
                 windows_automator_instance s' = Obj mkWindowsAutomator
                 /\ log s' = log s ++ ["Jarvis: WindowsAutomator loaded."]
             | Some _ =>
                 windows_automator_instance s' = PyNone
                 /\ exists msg, log s' = log s ++ [msg]
                                /\ String.prefix "Jarvis Error: " msg = true
             end)
  /\ (forall s,
        absent (android_automator_instance s) = true ->
        exists r s',
          load_android_automator env s = (Ok r, s')
          /\ r = handle_value (android_automator_instance s')
          /\ windows_automator_instance s' = windows_automator_instance s
          /\ match env_import env (trace s) AndroidModule with
             | Some _ =>
                 android_automator_instance s' = PyNone
                 /\ trace s' = trace s ++ [EImport AndroidModule]
                 /\ exists msg, log s' = log s ++ [msg]
                                /\ String.prefix "Jarvis Error: " msg = true
             | None =>
                 match version_query_raises env
                         (trace s ++ [EImport AndroidModule]) with
                 | Some _ =>
                     android_automator_instance s' = PyNone
                     /\ trace s'
                        = trace s ++ [EImport AndroidModule;
                                      ERun ["adb"; "--version"] false]
                     /\ exists msg, log s' = log s ++ [msg]
                                    /\ String.prefix "Jarvis Error: " msg = true
                 | None =>
                     android_automator_instance s' = Obj default_android
                     /\ (exists evs,
                           trace s'
                           = trace s ++ EImport AndroidModule
                               :: ERun ["adb"; "--version"] false :: evs
                           /\ Forall (fun e => construction_request e = true
                                               /\ e <> EImport WindowsModule) evs)
                     /\ log s'
                        = log s ++ ["Jarvis: AndroidAutomator loaded. Initializing ADB connection..."]
                 end
             end)
  /\ (forall m text s,
        routed_to m (Py.split (Py.lower text)) = true ->
        is_loaded m s = false ->
        exists evs,
          trace (snd (process_ui_command env text s)) = trace s ++ evs
          /\ EImport m ∈ evs).
Proof.
  split; [split; [by split|by intros []]|].
  split.
  { intros text s. split; [apply advances_process_ui_command|].
    apply builds_process_ui_command. }
  split; [|split].
  - intros s Habs.
    destruct (load_windows_automator_spec env s) as (r & s' & Hl & Hr & Ha & Hs).
    exists r, s'. do 3 (split; [done|]).
    by destruct (windows_automator_instance s); [| |discriminate];
      destruct Hs as [Ht Hs].
  - intros s Habs. by apply load_android_automator_outcome.
  - intros m text s. apply routed_command_constructs.
Qed.

Lemma backend_handles_witness :
  let s1 := snd (process_ui_command no_modules_env "system restart" initial_state) in
  windows_automator_instance s1 = PyNone
  /\ exists evs,
       trace (snd (process_ui_command no_modules_env "system restart" s1))
       = trace s1 ++ evs
       /\ EImport WindowsModule ∈ evs.
Proof.
  intros s1. split; [reflexivity|].
  destruct (backend_handles no_modules_env) as (_ & _ & _ & _ & Hretry).
  apply (Hretry WindowsModule "system restart" s1); reflexivity.
Defined.

(** * Further properties *)

(** ** What a command can raise *)



Lemma raises_within_ret {A} (P : Exn -> State -> Prop) (a : A) :
  raises_within P (ret a).
Proof. intros s. exact I. Qed.

Lemma raises_within_get (P : Exn -> State -> Prop) : raises_within P get.
Proof. intros s. exact I. Qed.

Lemma raises_within_log_message (P : Exn -> State -> Prop) (message : string) :
  raises_within P (log_message message).
Proof. intros s. exact I. Qed.

Lemma raises_within_request {A} (P : Exn -> State -> Prop) (e : Event)
    (answer : Trace -> A) :
  raises_within P (request e answer).
Proof. intros s. exact I. Qed.

Lemma raises_within_bind {A B} (P : Exn -> State -> Prop) (m : M A)
    (k : A -> M B) :
  raises_within P m -> (forall a, raises_within P (k a)) ->
  raises_within P (bind m k).
Proof.
  intros Hm Hk s. unfold bind. specialize (Hm s).
  destruct (m s) as [[a|e] s1]; [apply Hk|exact Hm].
Qed.

Lemma never_raises_returns {A} (m : M A) (s : State) :
  never_raises m -> exists a s', m s = (Ok a, s').
Proof.
  intros Hm. specialize (Hm s). destruct (m s) as [[a|e] s']; [eauto|done].
Qed.

Lemma raises_within_log_items (P : Exn -> State -> Prop) (items : list string) :
  raises_within P (log_items items).
Proof.
  induction items as [|item items IH]; simpl; [apply raises_within_ret|].
  apply raises_within_bind; [apply raises_within_log_message|intros _; exact IH].
Qed.

Lemma raises_within_load_windows_automator (env : Env)
    (P : Exn -> State -> Prop) :
  raises_within P (load_windows_automator env).
Proof.
  intros s. destruct (load_windows_automator_spec env s) as (r & s' & -> & _).
  exact I.
Qed.

Lemma raises_within_load_android_automator (env : Env)
    (P : Exn -> State -> Prop) :
  raises_within P (load_android_automator env).
Proof.
  intros s. destruct (load_android_automator_spec env s) as (r & s' & -> & _).
  exact I.
Qed.

Ltac raises_step :=
  first
    [ apply raises_within_ret
    | apply raises_within_get
    | apply raises_within_log_message
    | apply raises_within_log_items
    | apply raises_within_request
    | apply raises_within_load_windows_automator
    | apply raises_within_load_android_automator
    | apply raises_within_bind; [|intros ?]
    | match goal with
      | |- raises_within _ (match ?x with _ => _ end) => destruct x
      end ].

Ltac raises_auto := repeat raises_step.

Section NoRaise.

Context (env : Env) (P : Exn -> State -> Prop).

Lemma raises_within_run_adb_command (self : AndroidAutomator)
    (parts : list string) (device_id : option string) :
  raises_within P (_run_adb_command env self parts device_id).
Proof. unfold _run_adb_command, sys_run. raises_auto. Qed.





Ltac raises_adb :=
  repeat first [ apply raises_within_run_adb_command | raises_step ].



Lemma raises_within_send_intent (self : AndroidAutomator) (action : string)
    (data_uri package component_name device_id : option string) :
  raises_within P (send_intent env self action data_uri package
                     component_name device_id).
Proof. unfold send_intent. raises_adb. Qed.




End NoRaise.

Section Raising.

Context (env : Env).

Lemma raises_within_ensure_local_dir (path : string) :
  raises_within (makedirs_raised env) (ensure_local_dir env path).
Proof.
  intros s. unfold ensure_local_dir, bind, sys_exists, sys_makedirs, request,
    ret, raise.
  destruct (nonempty (env_dirname env path)); [|exact I]. simpl.
  destruct (env_exists env (trace s) (env_dirname env path)); [exact I|]. simpl.
  destruct (env_makedirs env (trace s ++ [EExists (env_dirname env path)])
              (env_dirname env path)) as [e|] eqn:Hmk; [|exact I].
  eexists _, _. split; [reflexivity|exact Hmk].
Qed.








End Raising.


(** ** An automator is constructed once *)

Lemma keeps_loaded_ret {A} (m : PyModule) (a : A) : keeps_loaded m (ret a).
Proof. intros s Hs. split; [done|]. exists []. by rewrite app_nil_r. Qed.

Lemma keeps_loaded_raise {A} (m : PyModule) (e : Exn) :
  keeps_loaded m (raise (A:=A) e).
Proof. intros s Hs. split; [done|]. exists []. by rewrite app_nil_r. Qed.

Lemma keeps_loaded_get (m : PyModule) : keeps_loaded m get.
Proof. intros s Hs. split; [done|]. exists []. by rewrite app_nil_r. Qed.

Lemma keeps_loaded_log_message (m : PyModule) (message : string) :
  keeps_loaded m (log_message message).
Proof.
  intros s Hs. split; [by destruct m|]. exists []. simpl. by rewrite app_nil_r.
Qed.

Lemma keeps_loaded_bind {A B} (m : PyModule) (c : M A) (k : A -> M B) :
  keeps_loaded m c -> (forall a, keeps_loaded m (k a)) ->
  keeps_loaded m (bind c k).
Proof.
  intros Hc Hk s Hs. unfold bind. destruct (Hc s Hs) as (Hl & evs & Ht & Hf).
  destruct (c s) as [[a|e] s1]; simpl in *; [|eauto].
  destruct (Hk a s1 Hl) as (Hl2 & evs2 & Ht2 & Hf2).
  split; [done|]. exists (evs ++ evs2).
  rewrite Ht2, Ht, app_assoc. split; [done|]. by apply Forall_app.
Qed.

Lemma keeps_loaded_emits {A} (m : PyModule) (c : M A) :
  emits [KPopen; KAdb; KFs] c -> keeps_loaded m c.
Proof.
  intros Hc s Hs. destruct (Hc s) as (evs & -> & Hf).
  split; [by destruct m|]. exists evs. split; [done|].
  eapply Forall_impl; [exact Hf|]. intros e He. simpl in He.
  destruct e as [| | ? []| | | | |], m; simpl in *; try done;
    repeat (apply elem_of_cons in He as [He|He]; [discriminate|]);
    by apply elem_of_nil in He.
Qed.

Lemma keeps_loaded_log_items (m : PyModule) (items : list string) :
  keeps_loaded m (log_items items).
Proof.
  induction items as [|item items IH]; simpl; [apply keeps_loaded_ret|].
  apply keeps_loaded_bind; [apply keeps_loaded_log_message|intros _; exact IH].
Qed.

Lemma keeps_loaded_load_windows_automator (env : Env) (m : PyModule) :
  keeps_loaded m (load_windows_automator env).
Proof.
  intros s Hs.
  destruct (load_windows_automator_spec env s) as (r & s' & -> & _ & Ha & Hspec).
  unfold is_loaded in *. cbn [snd]. destruct m.
  - destruct (windows_automator_instance s) eqn:Hwin; [by simpl in Hs..|].
    subst s'. rewrite Hwin.
    split; [done|]. exists []. by rewrite app_nil_r.
  - split; [by rewrite Ha|].
    destruct (windows_automator_instance s).
    + destruct Hspec as [-> _]. exists [EImport WindowsModule]. by repeat constructor.
    + destruct Hspec as [-> _]. exists [EImport WindowsModule]. by repeat constructor.
    + subst s'. exists []. by rewrite app_nil_r.
Qed.

Lemma keeps_loaded_load_android_automator (env : Env) (m : PyModule) :
  keeps_loaded m (load_android_automator env).
Proof.
  intros s Hs.
  destruct (load_android_automator_spec env s) as (r & s' & -> & _ & Hw & Hspec).
  unfold is_loaded in *. cbn [snd]. destruct m.
  - split; [by rewrite Hw|].
    assert (Hgen : forall evs,
               Forall (fun e => kind e ∈ [KCheck; KPrint]) evs
               \/ Forall (fun e => kind e = KCheck) evs ->
               Forall (fun e => construction_event WindowsModule e = false)
                 (EImport AndroidModule :: evs)).
    { intros evs Hevs. constructor; [done|].
      destruct Hevs as [Hf|Hf]; (eapply Forall_impl; [exact Hf|]);
        intros [[]| |? []| | | | |] He; simpl in *; try done;
        repeat (apply elem_of_cons in He as [He|He]; [discriminate|]);
        by apply elem_of_nil in He. }
    destruct (android_automator_instance s).
    + destruct Hspec as (evs & -> & [(_ & _ & Hf & _)|(_ & Hf & _)]);
        exists (EImport AndroidModule :: evs); (split; [done|]); apply Hgen; auto.
    + destruct Hspec as (evs & -> & [(_ & _ & Hf & _)|(_ & Hf & _)]);
        exists (EImport AndroidModule :: evs); (split; [done|]); apply Hgen; auto.
    + subst s'. exists []. by rewrite app_nil_r.
  - destruct (android_automator_instance s) eqn:Hdroid; [by simpl in Hs..|].
    subst s'. rewrite Hdroid.
    split; [done|]. exists []. by rewrite app_nil_r.
Qed.

Ltac loaded_step :=
  first
    [ apply keeps_loaded_ret
    | apply keeps_loaded_raise
    | apply keeps_loaded_get
    | apply keeps_loaded_log_message
    | apply keeps_loaded_log_items
    | apply keeps_loaded_load_windows_automator
    | apply keeps_loaded_load_android_automator
    | apply keeps_loaded_emits;
      first [ apply emits_open_application
            | apply emits_list_directory_contents
            | apply emits_system_command
            | apply emits_take_screenshot
            | apply emits_list_connected_devices
            | apply emits_open_app
            | apply emits_simulate_input_tap
            | apply emits_simulate_input_swipe
            | apply emits_simulate_input_text
            | apply emits_take_screenshot_android ];
      solve [repeat first [apply list_elem_of_here | apply list_elem_of_further]]
    | apply keeps_loaded_bind; [|intros ?]
    | match goal with
      | |- keeps_loaded _ (match ?x with _ => _ end) => destruct x
      end ].

(** X2: once the handle of an automator holds an object, no command
    constructs that automator again: the handle still holds an object after
    the command, and the command neither imports the module nor, for the
    Android automator, repeats the availability check. *)
Theorem loaded_automator_is_not_reconstructed (env : Env) (m : PyModule)
    (text : string) (s : State) :
  is_loaded m s = true ->
  is_loaded m (snd (process_ui_command env text s)) = true
  /\ exists evs,
       trace (snd (process_ui_command env text s)) = trace s ++ evs
       /\ Forall (fun e => construction_event m e = false) evs.
Proof.
  revert s. change (keeps_loaded m (process_ui_command env text)).
  unfold process_ui_command, handle_open_command, handle_list_command,
    handle_system_command, handle_screenshot_command, handle_adb_command.
  repeat loaded_step.
Qed.

Lemma loaded_automator_is_not_reconstructed_witness :
  let s1 := snd (process_ui_command (quiet_env "") "adb devices" initial_state) in
  exists evs,
    trace (snd (process_ui_command (quiet_env "") "adb tap 1 2" s1))
    = trace s1 ++ evs
    /\ Forall (fun e => construction_event AndroidModule e = false) evs.
Proof.
  intros s1.
  apply (loaded_automator_is_not_reconstructed (quiet_env "") AndroidModule
           "adb tap 1 2" s1).
  reflexivity.
Defined.

(** ** The echo of the command *)

(** X3: every command is echoed to the log before anything else happens;
    a line of white space only gets its echo and nothing more: no
    request, no change of a handle, no further message; and the empty
    line is not even echoed. *)
Theorem command_is_echoed_first (env : Env) (text : string) (s : State) :
  (exists msgs,
     log (snd (process_ui_command env text s))
     = log s ++ ("User command: " +:+ text) :: msgs)
  /\ (Py.split (Py.lower text) = [] ->
      process_ui_command env text s
      = (Ok tt, set_log (log s ++ ["User command: " +:+ text]) s))
  /\ handle_command env "" s = (Ok tt, s).
Proof.
  split; [|split].
  - unfold process_ui_command. rewrite bind_log_message.
    match goal with
    | |- context [snd (?k (set_log ?l s))] =>
        assert (Hk : advance all_kinds (set_log l s) (snd (k (set_log l s))))
    end.
    { match goal with
      | |- advance _ ?s0 (snd (?k ?s0)) =>
          assert (Hadv : advances all_kinds k) by dispatch_auto; apply Hadv
      end. }
    destruct Hk as [_ (msgs & Hlog) _ _ _]. exists msgs.
    rewrite Hlog. simpl. by rewrite <- app_assoc.
  - intros Hsplit. unfold process_ui_command.
    by rewrite bind_log_message, Hsplit.
  - reflexivity.
Qed.

Lemma command_is_echoed_first_witness :
  process_ui_command (quiet_env "") "   " initial_state
  = (Ok tt, set_log ["User command:    "] initial_state).
Proof.
  apply (command_is_echoed_first (quiet_env "") "   " initial_state).
  reflexivity.
Defined.

(** ** [adb] commands with the automator loaded *)

Section AdbLoaded.

Context (env : Env).

Lemma load_android_automator_loaded (s : State) (d : AndroidAutomator) :
  android_automator_instance s = Obj d ->
  load_android_automator env s = (Ok (Some d), s).
Proof.
  intros Hd. destruct s as [w a l t]. simpl in Hd. subst a. reflexivity.
Qed.

Lemma load_windows_automator_loaded (s : State) (w : WindowsAutomator) :
  windows_automator_instance s = Obj w ->
  load_windows_automator env s = (Ok (Some w), s).
Proof.
  intros Hw. destruct s as [w0 a l t]. simpl in Hw. subst w0. reflexivity.
Qed.

Lemma adb_command_loaded (text sub : string) (args : list string) (s : State)
    (d : AndroidAutomator) :
  Py.split (Py.lower text) = "adb" :: sub :: args ->
  android_automator_instance s = Obj d ->
  process_ui_command env text s
  = handle_adb_command env ("adb" :: sub :: args)
      (set_log (log s ++ ["User command: " +:+ text]) s).
Proof.
  intros Hsplit Hd. rewrite (process_adb_command env _ _ _ Hsplit).
  unfold bind at 1. unfold bind at 1. simpl. by rewrite Hd.
Qed.

(** The runner makes one request and changes nothing else. *)
Lemma run_adb_command_event (d : AndroidAutomator) (parts : list string)
    (s : State) :
  exists r,
    _run_adb_command env d parts None s
    = (Ok r, set_trace (trace s ++ [adb_run d parts]) s).
Proof.
  destruct (run_adb_command_returns env d parts None s) as (ok & out & H).
  exists (ok, out). exact H.
Qed.

(** X4: with the Android automator loaded, [adb tap a b] with two
    integers makes exactly one request, the runner's
    [shell input tap x y] with the coordinates written in plain decimal,
    and ends with the message that reports the tap. *)
Theorem adb_tap_runs_once (text a b : string) (x y : Z) (s : State)
    (d : AndroidAutomator) :
  Py.split (Py.lower text) = ["adb"; "tap"; a; b] ->
  Py.int a = Some x -> Py.int b = Some y ->
  android_automator_instance s = Obj d ->
  exists s' msg,
    process_ui_command env text s = (Ok tt, s')
    /\ trace s'
       = trace s ++ [adb_run d ["shell"; "input"; "tap";
                                Py.str_of_int x; Py.str_of_int y]]
    /\ last (log s')
       = Some ("Jarvis (Droid) Tap at (" +:+ Py.str_of_int x +:+ ","
               +:+ Py.str_of_int y +:+ "): " +:+ msg).
Proof.
  intros Hsplit Hx Hy Hd. rewrite (adb_command_loaded _ _ _ _ _ Hsplit Hd).
  set (s0 := set_log _ s).
  unfold handle_adb_command.
  rewrite (bind_returns _ _ _ _ _ (load_android_automator_loaded s0 d Hd)).
  change (String.eqb "tap" "devices") with false.
  change (String.eqb "tap" "tap") with true.
  change (Nat.eqb (length [a; b]) 2) with true.
  change (nth 0 [a; b] "") with a. change (nth 1 [a; b] "") with b.
  cbv iota. rewrite Hx, Hy. change (true && true) with true. cbv iota.
  unfold simulate_input_tap.
  destruct (run_adb_command_event d
              ["shell"; "input"; "tap"; Py.str_of_int x; Py.str_of_int y] s0)
    as ([ok out] & Hrun).
  rewrite (bind_returns _ _ _ _ _ Hrun).
  eexists _, out. split; [reflexivity|]. simpl. split; [done|apply last_snoc].
Qed.

End AdbLoaded.

Lemma adb_tap_runs_once_witness :
  let s := mkState Missing (Obj default_android) [] [] in
  exists s',
    process_ui_command (quiet_env "") "adb tap 007 +1_0" s = (Ok tt, s')
    /\ trace s' = [adb_run default_android ["shell"; "input"; "tap"; "7"; "10"]].
Proof.
  intros s.
  destruct (adb_tap_runs_once (quiet_env "") "adb tap 007 +1_0" "007" "+1_0"
              7 10 s default_android) as (s' & msg & Hrun & Ht & _);
    [reflexivity..|].
  exists s'. split; [exact Hrun|exact Ht].
Defined.

Section AdbMore.

Context (env : Env).

(** X5: with the Android automator loaded, [adb swipe] with at least four
    arguments parses the first four and, if present, the fifth as the
    duration (300 when absent; any further words are ignored).  If all of
    them are integers, the command makes exactly one request, the runner's
    [shell input swipe]; if any is not, it makes no request at all and
    ends with the message about invalid coordinates or duration. *)
Theorem adb_swipe_default_and_validation (text a1 a2 a3 a4 : string)
    (more : list string) (s : State) (d : AndroidAutomator) :
  Py.split (Py.lower text) = "adb" :: "swipe" :: a1 :: a2 :: a3 :: a4 :: more ->
  android_automator_instance s = Obj d ->
  let duration := match more with
                  | [] => Some 300%Z
                  | m :: _ => Py.int m
                  end in
  exists s',
    process_ui_command env text s = (Ok tt, s')
    /\ match Py.int a1, Py.int a2, Py.int a3, Py.int a4, duration with
       | Some x1, Some y1, Some x2, Some y2, Some ms =>
           trace s'
           = trace s ++ [adb_run d ["shell"; "input"; "swipe";
                                    Py.str_of_int x1; Py.str_of_int y1;
                                    Py.str_of_int x2; Py.str_of_int y2;
                                    Py.str_of_int ms]]
       | _, _, _, _, _ =>
           trace s' = trace s /\ last (log s') = Some invalid_swipe_message
       end.
Proof.
  intros Hsplit Hd duration.
  rewrite (adb_command_loaded env _ _ _ _ _ Hsplit Hd).
  set (s0 := set_log _ s).
  unfold handle_adb_command.
  rewrite (bind_returns _ _ _ _ _ (load_android_automator_loaded env s0 d Hd)).
  change (String.eqb "swipe" "devices") with false.
  change (String.eqb "swipe" "tap") with false.
  change (String.eqb "swipe" "swipe") with true.
  change (Nat.leb 4 (length (a1 :: a2 :: a3 :: a4 :: more))) with true.
  change (take 4 (a1 :: a2 :: a3 :: a4 :: more)) with [a1; a2; a3; a4].
  change ((a1 :: a2 :: a3 :: a4 :: more) !! 4%nat) with (more !! 0%nat).
  change (false && Nat.eqb (length (a1 :: a2 :: a3 :: a4 :: more)) 2) with false.
  change (true && true) with true. cbv iota.
  assert (Hdur : match more !! 0%nat with
                 | Some a => Py.int a
                 | None => Some 300%Z
                 end = duration) by (by destruct more).
  rewrite Hdur. fold invalid_swipe_message.
  assert (Hmap : mapM Py.int [a1; a2; a3; a4]
                 = match Py.int a1, Py.int a2, Py.int a3, Py.int a4 with
                   | Some x1, Some y1, Some x2, Some y2 => Some [x1; y1; x2; y2]
                   | _, _, _, _ => None
                   end).
  { cbn. by destruct (Py.int a1), (Py.int a2), (Py.int a3), (Py.int a4). }
  rewrite Hmap.
  destruct (Py.int a1) as [x1|], (Py.int a2) as [y1|], (Py.int a3) as [x2|],
    (Py.int a4) as [y2|], duration as [ms|];
    try (eexists; split; [reflexivity|]; simpl; split; [done|apply last_snoc]).
  unfold simulate_input_swipe.
  match goal with
  | |- context [_run_adb_command env d ?parts None] =>
      destruct (run_adb_command_event env d parts s0) as (r & Hrun)
  end.
  rewrite (bind_returns _ _ _ _ _ Hrun).
  eexists. split; [reflexivity|]. reflexivity.
Qed.

(** X6: with the Android automator loaded, [adb text] followed by words
    makes exactly one request: the runner's [shell input text] with a
    single argument, the words joined by one space each and every single
    quote in them replaced by the four characters quote, backslash, quote,
    quote. *)
Theorem adb_text_passes_one_argument (text w : string) (ws : list string)
    (s : State) (d : AndroidAutomator) :
  Py.split (Py.lower text) = "adb" :: "text" :: w :: ws ->
  android_automator_instance s = Obj d ->
  exists s',
    process_ui_command env text s = (Ok tt, s')
    /\ trace s'
       = trace s ++ [adb_run d ["shell"; "input"; "text";
                                Py.escape_quotes (Py.join " " (w :: ws))]].
Proof.
  intros Hsplit Hd.
  rewrite (adb_command_loaded env _ _ _ _ _ Hsplit Hd).
  set (s0 := set_log _ s).
  unfold handle_adb_command.
  rewrite (bind_returns _ _ _ _ _ (load_android_automator_loaded env s0 d Hd)).
  change (String.eqb "text" "devices") with false.
  change (String.eqb "text" "tap") with false.
  change (String.eqb "text" "swipe") with false.
  change (String.eqb "text" "text") with true.
  change (Nat.ltb 0 (length (w :: ws))) with true.
  rewrite !andb_false_l. change (true && true) with true. cbv iota.
  unfold simulate_input_text.
  match goal with
  | |- context [_run_adb_command env d ?parts None] =>
      destruct (run_adb_command_event env d parts s0) as (r & Hrun)
  end.
  rewrite (bind_returns _ _ _ _ _ Hrun).
  eexists. split; reflexivity.
Qed.

(** X7: with the Android automator loaded, an [adb] command that matches
    no supported form (an unknown sub-command, [tap] with other than two
    arguments, [swipe] with fewer than four, [text] with none) makes no
    request and appends two messages, the second being the usage line. *)
Theorem adb_unsupported_form (text sub : string) (args : list string)
    (s : State) (d : AndroidAutomator) :
  Py.split (Py.lower text) = "adb" :: sub :: args ->
  android_automator_instance s = Obj d ->
  sub ∉ ["devices"; "tap"; "swipe"; "text"]
  \/ sub = "tap" /\ length args <> 2
  \/ sub = "swipe" /\ length args < 4
  \/ sub = "text" /\ args = [] ->
  process_ui_command env text s
  = (Ok tt,
     set_log (log s ++ ["User command: " +:+ text;
                        "Jarvis (Droid): Unknown ADB sub-command '" +:+ sub
                        +:+ "' or incorrect arguments.";
                        adb_usage_message]) s).
Proof.
  intros Hsplit Hd Hform.
  rewrite (adb_command_loaded env _ _ _ _ _ Hsplit Hd).
  set (s0 := set_log _ s).
  unfold handle_adb_command.
  rewrite (bind_returns _ _ _ _ _ (load_android_automator_loaded env s0 d Hd)).
  assert (Hconds :
            String.eqb sub "devices" = false
            /\ String.eqb sub "tap" && Nat.eqb (length args) 2 = false
            /\ String.eqb sub "swipe" && Nat.leb 4 (length args) = false
            /\ String.eqb sub "text" && Nat.ltb 0 (length args) = false).
  { destruct Hform as [Hsub|[[-> Hlen]|[[-> Hlen]|[-> ->]]]].
    - assert (forall k, k ∈ ["devices"; "tap"; "swipe"; "text"]
                        -> String.eqb sub k = false) as Hneq.
      { intros k Hk. apply String.eqb_neq. intros ->. by apply Hsub. }
      rewrite !Hneq by compute_done. done.
    - apply Nat.eqb_neq in Hlen. by rewrite Hlen.
    - apply Nat.leb_gt in Hlen. by rewrite Hlen.
    - done. }
  destruct Hconds as (-> & -> & -> & ->).
  unfold bind, log_message, modify, s0, set_log. simpl.
  by rewrite <- !app_assoc.
Qed.

End AdbMore.

Lemma adb_swipe_default_and_validation_witness :
  let s := mkState Missing (Obj default_android) [] [] in
  exists s',
    process_ui_command (quiet_env "") "adb swipe 1 2 3 4" s = (Ok tt, s')
    /\ trace s'
       = [adb_run default_android
            ["shell"; "input"; "swipe"; "1"; "2"; "3"; "4"; "300"]].
Proof.
  intros s.
  destruct (adb_swipe_default_and_validation (quiet_env "") "adb swipe 1 2 3 4"
              "1" "2" "3" "4" [] s default_android) as (s' & Hrun & Ht);
    [reflexivity..|].
  exists s'. split; [exact Hrun|exact Ht].
Defined.

Lemma adb_text_passes_one_argument_witness :
  let s := mkState Missing (Obj default_android) [] [] in
  exists s',
    process_ui_command (quiet_env "") "adb text It's   Here" s = (Ok tt, s')
    /\ trace s'
       = [adb_run default_android ["shell"; "input"; "text"; "it'\''s here"]].
Proof.
  intros s.
  destruct (adb_text_passes_one_argument (quiet_env "") "adb text It's   Here"
              "it's" ["here"] s default_android) as (s' & Hrun & Ht);
    [reflexivity..|].
  exists s'. split; [exact Hrun|exact Ht].
Defined.

Lemma adb_unsupported_form_witness :
  let s := mkState Missing (Obj default_android) [] [] in
  last (log (snd (process_ui_command (quiet_env "") "adb tap 5" s)))
  = Some adb_usage_message.
Proof.
  intros s.
  rewrite (adb_unsupported_form (quiet_env "") "adb tap 5" "tap" ["5"] s
             default_android); [reflexivity..|].
  right. left. split; [reflexivity|]. discriminate.
Defined.

(** ** [system], [list] and [screenshot] commands *)

Section WindowsCommands.

Context (env : Env).

Lemma process_system_command (text key : string) (rest : list string)
    (s : State) :
  Py.split (Py.lower text) = "system" :: key :: rest ->
  process_ui_command env text s
  = ((if true
      then (s0 <- get ;;
            if absent (windows_automator_instance s0)
            then (load_windows_automator env ;; ret tt) else ret tt)
      else ret tt) ;;
     (if Py.contains "android" (Py.lower text)
      then (s0 <- get ;;
            if absent (android_automator_instance s0)
            then (load_android_automator env ;; ret tt) else ret tt)
      else ret tt) ;;
     handle_system_command env ("system" :: key :: rest))
      (set_log (log s ++ ["User command: " +:+ text]) s).
Proof.
  intros Hsplit. unfold process_ui_command.
  rewrite bind_log_message, Hsplit.
  change (Py.elem "system" ["list"; "system"]) with true.
  change (String.eqb "system" "adb") with false.
  change (String.eqb "system" "hello") with false.
  change (String.eqb "system" "open") with false.
  change (String.eqb "system" "list") with false.
  change (String.eqb "system" "system") with true.
  change (Py.contains "android" (Py.lower text) || false)
    with (orb (Py.contains "android" (Py.lower text)) false).
  rewrite (orb_false_r (Py.contains "android" (Py.lower text))). reflexivity.
Qed.

(** X8: a [system] command never runs the command it maps the key to and
    never touches the file system: whatever the key and the words after
    it, nothing is raised and the only requests are those of constructing
    an automator, that is the imports and, for the Android automator, the
    [adb --version] and [adb devices] of its availability check and its
    printed line.  For a line that does not contain "android" the only
    request that can occur is the import of the Windows automator's
    module, so that no process is started at all.  When the Windows
    automator is available the last message is what [system_command]
    answered for the key, the words after the key being ignored. *)
Theorem system_command_spawns_nothing (text key : string) (rest : list string)
    (s : State) :
  Py.split (Py.lower text) = "system" :: key :: rest ->
  exists s' evs,
    process_ui_command env text s = (Ok tt, s')
    /\ trace s' = trace s ++ evs
    /\ Forall (fun e => construction_request e = true) evs
    /\ Forall (fun e => kind e ∈ construction_kinds) evs
    /\ (Py.contains "android" (Py.lower text) = false ->
        Forall (fun e => e = EImport WindowsModule) evs)
    /\ (forall w,
          windows_automator_instance s' = Obj w ->
          exists r,
            (forall st, system_command w key false st = (Ok r, st))
            /\ last (log s') = Some ("Jarvis (Win): " +:+ snd r)).
Proof.
  intros Hsplit. rewrite (process_system_command _ _ _ s Hsplit).
  set (s0 := set_log _ s).
  destruct (preloads_detail env true (Py.contains "android" (Py.lower text))
              (handle_system_command env ("system" :: key :: rest)) s0)
    as (s1 & evs1 & -> & Ht1 & Hf1 & Hw1 & _).
  unfold handle_system_command.
  destruct (load_windows_automator_requests env s1)
    as (r & s2 & evs2 & Hl & Hr & _ & Ht2 & Hw2 & _).
  rewrite (bind_returns _ _ _ _ _ Hl).
  assert (Ht : trace s2 = trace s ++ (evs1 ++ evs2)).
  { by rewrite Ht2, Ht1, app_assoc. }
  assert (Hf : Forall (fun e => construction_request e = true) (evs1 ++ evs2)).
  { apply Forall_app. split; [done|by apply windows_imports_are_requests]. }
  assert (Hw : Py.contains "android" (Py.lower text) = false ->
               Forall (fun e => e = EImport WindowsModule) (evs1 ++ evs2)).
  { intros Hno. apply Forall_app. split; [by apply Hw1|done]. }
  assert (Hsys : forall w, exists r0,
               forall st, system_command w key false st = (Ok r0, st)).
  { intros w. unfold system_command.
    destruct (commands !! key); eexists; intros st; reflexivity. }
  destruct (windows_automator_instance s2) as [| |w] eqn:Hwin; subst r; simpl.
  - eexists _, _. split; [reflexivity|]. simpl. rewrite Hwin.
    split; [exact Ht|]. split; [exact Hf|].
    split; [by apply construction_requests_kinds|].
    split; [exact Hw|]. intros w. discriminate.
  - eexists _, _. split; [reflexivity|]. simpl. rewrite Hwin.
    split; [exact Ht|]. split; [exact Hf|].
    split; [by apply construction_requests_kinds|].
    split; [exact Hw|]. intros w. discriminate.
  - destruct (Hsys w) as (r0 & Hr0). rewrite (bind_returns _ _ _ _ _ (Hr0 s2)).
    eexists _, _. split; [reflexivity|]. simpl. rewrite Hwin.
    split; [exact Ht|]. split; [exact Hf|].
    split; [by apply construction_requests_kinds|].
    split; [exact Hw|]. intros w' [= <-].
    exists r0. split; [exact Hr0|apply last_snoc].
Qed.

Lemma log_items_appends (items : list string) (s : State) :
  log_items items s
  = (Ok tt, set_log (log s ++ map (fun item => "  - " +:+ item) items) s).
Proof.
  revert s. induction items as [|item items IH]; intros s; simpl.
  - unfold ret, set_log. rewrite app_nil_r. by destruct s.
  - rewrite bind_log_message, IH. unfold set_log. simpl.
    by rewrite <- app_assoc.
Qed.

(** X9: with the Windows automator loaded, [handle_list_command] asks
    about the path made of the words after [list] joined by single spaces;
    when that path is a directory whose listing returns, it logs a heading
    and then one line per entry, in the order the listing gave them, and
    makes exactly the three requests [exists], [isdir], [listdir]. *)
Theorem list_command_logs_entries_in_order (parts names : list string)
    (s : State) (w : WindowsAutomator) :
  let dir_path := Py.join " " (tail parts) in
  let t := trace s in
  windows_automator_instance s = Obj w ->
  env_exists env t dir_path = true ->
  env_isdir env (t ++ [EExists dir_path]) dir_path = true ->
  env_listdir env (t ++ [EExists dir_path; EIsdir dir_path]) dir_path
  = inl names ->
  handle_list_command env parts s
  = (Ok tt,
     mkState (windows_automator_instance s) (android_automator_instance s)
       (log s ++ ("Jarvis (Win): Contents of '" +:+ dir_path +:+ "':")
              :: map (fun item => "  - " +:+ item) names)
       (t ++ [EExists dir_path; EIsdir dir_path; EListdir dir_path])).
Proof.
  intros dir_path t Hw Hex Hdir Hls.
  unfold handle_list_command. fold dir_path.
  rewrite (bind_returns _ _ _ _ _ (load_windows_automator_loaded env s w Hw)).
  unfold list_directory_contents, bind, sys_exists, sys_isdir, sys_listdir,
    request, ret. fold t. simpl. rewrite Hex. simpl. rewrite Hdir. simpl.
  rewrite <- app_assoc. simpl. rewrite Hls.
  unfold log_message, modify. rewrite log_items_appends.
  unfold set_log, set_trace. simpl.
  by rewrite <- !app_assoc.
Qed.

End WindowsCommands.

Lemma system_command_spawns_nothing_witness :
  exists s',
    process_ui_command (quiet_env "") "system shutdown now" initial_state
    = (Ok tt, s')
    /\ trace s' = [EImport WindowsModule].
Proof.
  destruct (system_command_spawns_nothing (quiet_env "") "system shutdown now"
              "shutdown" ["now"] initial_state eq_refl)
    as (s' & evs & Hrun & _).
  exists s'. split; [exact Hrun|].
  vm_compute in Hrun. injection Hrun as <-. reflexivity.
Defined.

Lemma list_command_logs_entries_in_order_witness :
  log (snd (handle_list_command listing_env ["list"; "c:\test_dir"]
              (mkState (Obj mkWindowsAutomator) Missing [] [])))
  = ["Jarvis (Win): Contents of 'c:\test_dir':"; "  - file1.txt"; "  - folderA"].
Proof.
  rewrite (list_command_logs_entries_in_order listing_env ["list"; "c:\test_dir"]
             ["file1.txt"; "folderA"] _ mkWindowsAutomator);
    reflexivity.
Defined.

Section Screenshot.

Context (env : Env).

(** X10: a [screenshot] command whose first argument is not the word
    "android" goes to the Windows automator, whose [take_screenshot] is a
    placeholder: the command takes no screenshot and touches no file,
    raises nothing, and makes no request but those of constructing an
    automator (the imports and, for the Android automator, the
    [adb --version] and [adb devices] of its availability check and its
    printed line); for a line that does not contain "android" the only
    request that can occur is the import of the Windows automator's
    module, so that no process is started at all.  When the Windows
    automator is available the last message says that the function is not
    implemented, whatever file name was given. *)
Theorem screenshot_windows_is_placeholder (text : string) (rest : list string)
    (s : State) :
  Py.split (Py.lower text) = "screenshot" :: rest ->
  Py.lower <$> rest !! 0%nat <> Some "android" ->
  exists s' evs,
    process_ui_command env text s = (Ok tt, s')
    /\ trace s' = trace s ++ evs
    /\ Forall (fun e => construction_request e = true) evs
    /\ Forall (fun e => kind e ∈ construction_kinds) evs
    /\ (Py.contains "android" (Py.lower text) = false ->
        Forall (fun e => e = EImport WindowsModule) evs)
    /\ (forall w, windows_automator_instance s' = Obj w ->
                  last (log s') = Some screenshot_placeholder_message).
Proof.
  intros Hsplit Harg. rewrite (process_screenshot_command env _ _ s Hsplit).
  set (s0 := set_log _ s).
  destruct (preloads_detail env false (Py.contains "android" (Py.lower text))
              (handle_screenshot_command env ("screenshot" :: rest)) s0)
    as (s1 & evs1 & -> & Ht1 & Hf1 & Hw1 & _).
  assert (Hbody :
            handle_screenshot_command env ("screenshot" :: rest) s1
            = (win_automator <- load_windows_automator env ;;
               match win_automator with
               | Some w => log_message screenshot_placeholder_message
               | None => log_message "Jarvis: WindowsAutomator not available/loaded."
               end) s1).
  { unfold handle_screenshot_command.
    change (("screenshot" :: rest) !! 1%nat) with (rest !! 0%nat).
    rewrite (bool_decide_eq_false_2 _ Harg).
    destruct (bool_decide (Py.lower <$> rest !! 0%nat = Some "windows"));
      [|destruct (Py.lower <$> rest !! 0%nat) as [a|]; [destruct (nonempty a)|]];
      reflexivity. }
  rewrite Hbody.
  destruct (load_windows_automator_requests env s1)
    as (r & s2 & evs2 & Hl & Hr & _ & Ht2 & Hw2 & _).
  rewrite (bind_returns _ _ _ _ _ Hl).
  assert (Ht : trace s2 = trace s ++ (evs1 ++ evs2)).
  { by rewrite Ht2, Ht1, app_assoc. }
  assert (Hf : Forall (fun e => construction_request e = true) (evs1 ++ evs2)).
  { apply Forall_app. split; [done|by apply windows_imports_are_requests]. }
  assert (Hw : Py.contains "android" (Py.lower text) = false ->
               Forall (fun e => e = EImport WindowsModule) (evs1 ++ evs2)).
  { intros Hno. apply Forall_app. split; [by apply Hw1|done]. }
  destruct (windows_automator_instance s2) as [| |w] eqn:Hwin; subst r; simpl;
    eexists _, _; (split; [reflexivity|]); simpl; rewrite Hwin;
    (split; [exact Ht|]); (split; [exact Hf|]);
    (split; [by apply construction_requests_kinds|]);
    (split; [exact Hw|]); intros w'; try discriminate.
  intros _. apply last_snoc.
Qed.

End Screenshot.

Lemma screenshot_windows_is_placeholder_witness :
  exists s',
    process_ui_command (quiet_env "") "screenshot My.PNG" initial_state = (Ok tt, s')
    /\ trace s' = [EImport WindowsModule]
    /\ last (log s') = Some screenshot_placeholder_message.
Proof.
  destruct (screenshot_windows_is_placeholder (quiet_env "") "screenshot My.PNG"
              ["my.png"] initial_state eq_refl)
    as (s' & evs & Hrun & _ & _ & _ & _ & Hlast).
  - discriminate.
  - exists s'. split; [exact Hrun|].
    vm_compute in Hrun. injection Hrun as <-. split; reflexivity.
Defined.

(** ** More on the Android automator *)

Section AndroidMore.

Context (env : Env) (self : AndroidAutomator).

(** X11: the steps of [take_screenshot_android] are strictly in sequence.
    If the capture fails, the result is a failure whose message starts with
    "Failed to take screenshot on device: " and nothing follows the
    capture: no directory is looked up or created, nothing is pulled or
    removed.  If the capture succeeds and creating the local directory
    raises, that exception leaves the function and nothing is pulled. *)
Theorem take_screenshot_android_stops_early (local_save_path device_sdcard_path : string)
    (device_id : option string) (s s1 : State) (ok : bool) (output : string) :
  _run_adb_command env self ["shell"; "screencap"; device_sdcard_path] device_id s
  = (Ok (ok, output), s1) ->
  (ok = false ->
   take_screenshot_android env self local_save_path device_sdcard_path device_id s
   = (Ok (false, "Failed to take screenshot on device: " +:+ output), s1))
  /\ (ok = true ->
      forall e s2,
        ensure_local_dir env local_save_path s1 = (Raise e, s2) ->
        take_screenshot_android env self local_save_path device_sdcard_path
          device_id s
        = (Raise e, s2)
        /\ makedirs_raised env e s2).
Proof.
  intros Hcap. unfold take_screenshot_android, bind. rewrite Hcap. split.
  - intros ->. reflexivity.
  - intros -> e s2 Hdir. simpl. rewrite Hdir. split; [reflexivity|].
    pose proof (raises_within_ensure_local_dir env local_save_path s1) as H.
    by rewrite Hdir in H.
Qed.

(** X12: what constructing the Android automator can do.  A version query
    that fails with a missing binary or a non-zero exit is only warned
    about: the automator is constructed and the device list is not
    queried.  Any other exception of the version query leaves the
    constructor.  When the version query returns, the device list is
    queried and, whatever that query answers or raises, the automator is
    constructed after exactly one printed line. *)
Theorem android_constructor_outcomes (adb : string) (s : State) :
  let version := ERun [adb; "--version"] false in
  let devices := ERun [adb; "devices"] false in
  match env_run env (trace s) [adb; "--version"] with
  | inr (CalledProcessError _ _ _) | inr (FileNotFoundError _) =>
      exists warning,
        AndroidAutomator_init env adb s
        = (Ok (mkAndroidAutomator adb),
           set_trace (trace s ++ [version; EPrint warning None]) s)
  | inr e =>
      AndroidAutomator_init env adb s
      = (Raise e, set_trace (trace s ++ [version]) s)
  | inl _ =>
      exists text items,
        AndroidAutomator_init env adb s
        = (Ok (mkAndroidAutomator adb),
           set_trace (trace s ++ [version; devices; EPrint text items]) s)
  end.
Proof.
  cbv zeta. unfold AndroidAutomator_init, _check_adb_device, bind, sys_run,
    print, request, ret, raise. simpl.
  destruct (env_run env (trace s) [adb; "--version"]) as [out|e]; simpl.
  - destruct (env_run env (trace s ++ [ERun [adb; "--version"] false])
                [adb; "devices"]) as [out2|e2]; simpl.
    + generalize (tail (Py.split_on "010" (Py.strip out2))). intros devs.
      repeat match goal with
             | |- context [match ?l with [] => true | _ => _ end] =>
                 destruct l as [|? [|? ?]]; simpl
             | |- context [if ?b then _ else _] => destruct b; simpl
             | |- context [match List.filter ?f ?l with _ => _ end] =>
                 destruct (List.filter f l); simpl
             end;
        eexists _, _; unfold set_trace; simpl; by rewrite <- ?app_assoc.
    + destruct e2; simpl; eexists _, _;
        unfold set_trace; simpl; by rewrite <- ?app_assoc.
  - destruct e; simpl; try reflexivity; eexists;
      unfold set_trace; simpl; by rewrite <- ?app_assoc.
Qed.

End AndroidMore.

Lemma take_screenshot_android_stops_early_witness :
  take_screenshot_android no_adb_env default_android "shot.png"
    "/sdcard/screenshot.png" None initial_state
  = (Ok (false, "Failed to take screenshot on device: Error: ADB executable not found. Please ensure it's installed and in your PATH."),
     set_trace [adb_run default_android ["shell"; "screencap"; "/sdcard/screenshot.png"]]
       initial_state).
Proof.
  eapply (take_screenshot_android_stops_early no_adb_env default_android);
    reflexivity.
Defined.

Lemma escape_quotes_inj (s t : string) :
  Py.escape_quotes s = Py.escape_quotes t -> s = t.
Proof.
  revert t. induction s as [|c s IH]; intros [|d t]; simpl.
  - done.
  - destruct (Ascii.eqb d "'"); discriminate.
  - destruct (Ascii.eqb c "'"); discriminate.
  - destruct (Ascii.eqb c "'") eqn:Hc, (Ascii.eqb d "'") eqn:Hd.
    + apply Ascii.eqb_eq in Hc as ->. apply Ascii.eqb_eq in Hd as ->.
      rewrite !app_cons, !app_nil. intros [= H]. by rewrite (IH _ H).
    + apply Ascii.eqb_eq in Hc as ->. rewrite !app_cons.
      intros [= <- _]. discriminate.
    + apply Ascii.eqb_eq in Hd as ->. rewrite !app_cons.
      intros [= -> _]. discriminate.
    + intros [= -> H]. by rewrite (IH _ H).
Qed.

Lemma escape_quotes_without_quote (t : string) :
  Py.contains "'" t = false -> Py.escape_quotes t = t.
Proof.
  induction t as [|c t IH]; [done|].
  rewrite contains_unfold. intros H. apply orb_false_iff in H as [Hp Hc].
  simpl. destruct (Ascii.eqb c "'") eqn:Hq.
  - apply Ascii.eqb_eq in Hq as ->. simpl in Hp. by destruct t.
  - by rewrite (IH Hc).
Qed.

(** X13: [simulate_input_text] sends different texts as different
    arguments: if two texts give the same request, they are the same text.
    A text without a single quote is sent as it is. *)
Theorem simulate_input_text_distinguishes_texts (env : Env)
    (d : AndroidAutomator) (t1 t2 : string) (s : State) :
  (trace (snd (simulate_input_text env d t1 None s))
   = trace (snd (simulate_input_text env d t2 None s)) ->
   t1 = t2)
  /\ (Py.contains "'" t1 = false ->
      trace (snd (simulate_input_text env d t1 None s))
      = trace s ++ [adb_run d ["shell"; "input"; "text"; t1]]).
Proof.
  unfold simulate_input_text.
  destruct (run_adb_command_event env d
              ["shell"; "input"; "text"; Py.escape_quotes t1] s) as (r1 & H1).
  destruct (run_adb_command_event env d
              ["shell"; "input"; "text"; Py.escape_quotes t2] s) as (r2 & H2).
  rewrite H1, H2. simpl. split.
  - intros H. apply app_inv_head in H. injection H as H.
    by apply escape_quotes_inj.
  - intros Hq. by rewrite (escape_quotes_without_quote _ Hq).
Qed.

Lemma simulate_input_text_distinguishes_texts_witness :
  trace (snd (simulate_input_text (quiet_env "") default_android "hello world"
                None initial_state))
  = [adb_run default_android ["shell"; "input"; "text"; "hello world"]].
Proof.
  apply (simulate_input_text_distinguishes_texts (quiet_env "") default_android
           "hello world" "" initial_state).
  reflexivity.
Defined.

(** ** More on [open] *)

(** X14: how [handle_open_command] reads the words after [open].  Only
    the first word "on" counts.  When the word after it is "android" or
    "windows" (in any case), that is the target, the words before "on" are
    the name, and every word after the target is dropped.  When the first
    "on" is the last word, or the word after it is anything else, the
    target is Windows and all the words are the name, a later
    "on android" included. *)
Theorem open_target_first_on_decides (xs : list string) :
  "on" ∉ xs ->
  (forall y junk,
     Py.lower y ∈ ["android"; "windows"] ->
     open_target ("open" :: xs ++ "on" :: y :: junk) = (Py.lower y, xs))
  /\ open_target ("open" :: xs ++ ["on"]) = ("windows", xs ++ ["on"])
  /\ (forall y more,
        Py.lower y ∉ ["android"; "windows"] ->
        open_target ("open" :: xs ++ "on" :: y :: more)
        = ("windows", xs ++ "on" :: y :: more)).
Proof.
  intros Hon. unfold open_target. simpl tail.
  assert (Hlen : forall r, length (xs ++ "on" :: r) = length xs + 1 + length r).
  { intros r. rewrite length_app. simpl. lia. }
  assert (Hnth : forall y r, nth (length xs + 1) (xs ++ "on" :: y :: r) "" = y).
  { intros y r. rewrite app_nth2 by lia.
    by replace (length xs + 1 - length xs) with 1 by lia. }
  split; [|split].
  - intros y junk Hy.
    rewrite elem_app_here, (index_app_here _ _ _ Hon).
    assert (Nat.ltb (length xs + 1) (length (xs ++ "on" :: y :: junk)) = true)
      as -> by (apply Nat.ltb_lt; rewrite Hlen; simpl; lia).
    rewrite Hnth.
    assert (Py.elem (Py.lower y) ["android"; "windows"] = true) as ->.
    { destruct (Py.elem (Py.lower y) ["android"; "windows"]) eqn:E; [done|].
      by apply elem_false_iff in E. }
    by rewrite take_app_length.
  - rewrite elem_app_here, (index_app_here _ _ _ Hon).
    assert (Nat.ltb (length xs + 1) (length (xs ++ ["on"])) = false)
      as -> by (apply Nat.ltb_ge; rewrite Hlen; simpl; lia).
    done.
  - intros y more Hy.
    rewrite elem_app_here, (index_app_here _ _ _ Hon).
    assert (Nat.ltb (length xs + 1) (length (xs ++ "on" :: y :: more)) = true)
      as -> by (apply Nat.ltb_lt; rewrite Hlen; simpl; lia).
    rewrite Hnth. by rewrite (proj2 (elem_false_iff _ _) Hy).
Qed.

Lemma open_target_first_on_decides_witness :
  open_target ["open"; "turn"; "on"; "lights"; "on"; "android"]
  = ("windows", ["turn"; "on"; "lights"; "on"; "android"])
  /\ open_target ["open"; "maps"; "on"; "android"; "please"]
     = ("android", ["maps"]).
Proof.
  destruct (open_target_first_on_decides ["turn"]) as (_ & _ & Hother);
    [compute_done|].
  destruct (open_target_first_on_decides ["maps"]) as (Hos & _ & _);
    [compute_done|].
  split.
  - apply (Hother "lights" ["on"; "android"]). compute_done.
  - apply (Hos "android" ["please"]). compute_done.
Defined.

(** X15: [open on android] and [open on windows] name no application:
    the command ends with the message that no application name was
    specified and calls neither [open_application] nor the ADB command
    runner.  Its only requests are those of constructing an automator
    (the imports and, for the Android automator, the [adb --version] and
    [adb devices] of its availability check and its printed line), made
    before the name is looked at; for a line that does not contain
    "android" the only request that can occur is the import of the
    Windows automator's module. *)
Theorem open_without_name (env : Env) (text os : string) (s : State) :
  Py.split (Py.lower text) = ["open"; "on"; os] ->
  os ∈ ["android"; "windows"] ->
  exists s' evs,
    process_ui_command env text s = (Ok tt, s')
    /\ trace s' = trace s ++ evs
    /\ Forall (fun e => construction_request e = true) evs
    /\ Forall (fun e => kind e ∈ construction_kinds) evs
    /\ (Py.contains "android" (Py.lower text) = false ->
        Forall (fun e => e = EImport WindowsModule) evs)
    /\ last (log s') = Some no_application_message.
Proof.
  intros Hsplit Hos.
  rewrite (process_open_command env _ _ s Hsplit) by done.
  set (s0 := set_log _ s).
  destruct (preloads_detail env (negb (Py.contains "android" (Py.lower text)))
              (Py.contains "android" (Py.lower text))
              (handle_open_command env ["open"; "on"; os] text) s0)
    as (s1 & evs & -> & Ht & Hf & Hw & _).
  unfold handle_open_command.
  pose proof (open_target_suffix [] os (not_elem_of_nil _) Hos) as Htarget.
  simpl in Htarget. rewrite Htarget.
  simpl. eexists _, evs. split; [reflexivity|]. simpl.
  split; [done|]. split; [done|].
  split; [by apply construction_requests_kinds|].
  split; [done|apply last_snoc].
Qed.

Lemma open_without_name_witness :
  exists s',
    process_ui_command (quiet_env "") "open on Android" initial_state = (Ok tt, s')
    /\ last (log s') = Some no_application_message.
Proof.
  destruct (open_without_name (quiet_env "") "open on Android" "android"
              initial_state eq_refl) as (s' & evs & Hrun & _ & _ & _ & _ & Hlast).
  - compute_done.
  - exists s'. split; [exact Hrun|exact Hlast].
Defined.

(** ** Reading the device list *)

Lemma string_app_nil_r (s : string) : s +:+ "" = s.
Proof. induction s as [|c s IH]; [done|]. by rewrite app_cons, IH. Qed.

Lemma string_app_assoc (a b c : string) : (a +:+ b) +:+ c = a +:+ (b +:+ c).
Proof. induction a as [|x a IH]; [done|]. by rewrite !app_cons, IH. Qed.

Lemma all_chars_app (p : ascii -> bool) (a b : string) :
  all_chars p (a +:+ b) = all_chars p a && all_chars p b.
Proof.
  induction a as [|c a IH]; [done|].
  rewrite app_cons. simpl. by rewrite IH, andb_assoc.
Qed.

Lemma all_chars_impl (p q : ascii -> bool) (s : string) :
  (forall c, p c = true -> q c = true) ->
  all_chars p s = true -> all_chars q s = true.
Proof.
  intros Hpq. induction s as [|c s IH]; [done|]. simpl.
  intros [Hc Hs]%andb_true_iff. by rewrite (Hpq c Hc), (IH Hs).
Qed.

Lemma split_on_without (sep : ascii) (a : string) :
  all_chars (not_char sep) a = true -> Py.split_on sep a = [a].
Proof.
  induction a as [|c a IH]; [done|]. simpl.
  intros [Hc Ha]%andb_true_iff. unfold not_char in Hc.
  apply negb_true_iff in Hc. by rewrite Hc, (IH Ha).
Qed.

Lemma split_on_app (sep : ascii) (a b : string) :
  all_chars (not_char sep) a = true ->
  Py.split_on sep (a +:+ String sep b) = a :: Py.split_on sep b.
Proof.
  induction a as [|c a IH].
  - intros _. rewrite app_nil. simpl. by rewrite Ascii.eqb_refl.
  - intros Hall. simpl in Hall. apply andb_true_iff in Hall as [Hc Ha].
    unfold not_char in Hc. apply negb_true_iff in Hc.
    rewrite app_cons. simpl. by rewrite Hc, (IH Ha).
Qed.

Lemma rstrip_white (ws : string) :
  all_chars Py.isspace ws = true -> Py.rstrip ws = "".
Proof.
  induction ws as [|c ws IH]; [done|]. simpl.
  intros [Hc Hws]%andb_true_iff. by rewrite (IH Hws), Hc.
Qed.

Lemma rstrip_app_white (x ws : string) :
  all_chars Py.isspace ws = true -> Py.rstrip (x +:+ ws) = Py.rstrip x.
Proof.
  intros Hws. induction x as [|c x IH].
  - rewrite app_nil. by apply rstrip_white.
  - rewrite app_cons. simpl. by rewrite IH.
Qed.

Lemma rstrip_app_fixed (a b : string) :
  nonempty b = true -> Py.rstrip b = b -> Py.rstrip (a +:+ b) = a +:+ b.
Proof.
  intros Hne Hb. induction a as [|c a IH]; [by rewrite app_nil|].
  rewrite app_cons. simpl. rewrite IH.
  destruct (a +:+ b) eqn:E; [|done].
  destruct a; [|discriminate]. rewrite app_nil in E. by subst b.
Qed.

Lemma rstrip_nonempty (c : ascii) (s : string) :
  Py.isspace c = false -> nonempty (Py.rstrip (String c s)) = true.
Proof. intros Hc. simpl. destruct (Py.rstrip s); by rewrite ?Hc. Qed.

Lemma nonempty_app_r (a b : string) :
  nonempty b = true -> nonempty (a +:+ b) = true.
Proof. intros Hb. destruct a; [by rewrite app_nil|done]. Qed.

Lemma device_listing_rstrip (devices : list (string * string)) (a : string) :
  Forall (fun d => device_status_ok (snd d)) devices ->
  nonempty a = true -> Py.rstrip a = a ->
  Py.rstrip (a +:+ device_lines devices) = a +:+ device_lines devices.
Proof.
  revert a. induction devices as [|[id st] ds IH]; intros a Hsts Ha Hra; simpl.
  - by rewrite string_app_nil_r.
  - inversion Hsts as [|? ? (Hne & _ & Hfix) Hrest]; subst. simpl in Hne, Hfix.
    rewrite <- string_app_assoc.
    replace (a +:+ String "010" (id +:+ String "009" st))
      with ((a +:+ String "010" (id +:+ String "009" "")) +:+ st).
    2:{ rewrite !string_app_assoc, !app_cons, !string_app_assoc. done. }
    apply (IH _ Hrest).
    + by apply nonempty_app_r.
    + by apply rstrip_app_fixed.
Qed.

Lemma device_listing_lines (devices : list (string * string)) (a : string) :
  Forall (fun d => device_id_ok (fst d)) devices ->
  Forall (fun d => device_status_ok (snd d)) devices ->
  all_chars (not_char "010") a = true ->
  Py.split_on "010" (a +:+ device_lines devices)
  = a :: map (fun d => fst d +:+ String "009" (snd d)) devices.
Proof.
  revert a. induction devices as [|[id st] ds IH]; intros a Hids Hsts Ha; simpl.
  - rewrite string_app_nil_r. by apply split_on_without.
  - inversion Hids as [|? ? (_ & Hid) Hids']; subst.
    inversion Hsts as [|? ? (_ & Hst & _) Hsts']; subst. simpl in *.
    rewrite app_cons, (split_on_app _ _ _ Ha).
    f_equal. apply (IH _ Hids' Hsts').
    rewrite all_chars_app. simpl. rewrite Hst, andb_true_r.
    eapply all_chars_impl; [|exact Hid].
    intros c Hc. unfold not_char. apply negb_true_iff.
    destruct (Ascii.eqb c "010") eqn:E; [|done].
    apply Ascii.eqb_eq in E as ->. done.
Qed.

Lemma device_line_kept (id st : string) :
  device_id_ok id -> nonempty (Py.strip (id +:+ String "009" st)) = true.
Proof.
  intros [Hne Hid]. destruct id as [|c id]; [discriminate|].
  simpl in Hid. apply andb_true_iff in Hid as [Hc _].
  apply negb_true_iff in Hc. rewrite app_cons.
  unfold Py.strip. cbn [Py.lstrip]. rewrite Hc. by apply rstrip_nonempty.
Qed.

Lemma device_line_id (id st : string) :
  device_id_ok id -> hd "" (Py.split_on "009" (id +:+ String "009" st)) = id.
Proof.
  intros [_ Hid]. rewrite split_on_app; [done|].
  eapply all_chars_impl; [|exact Hid].
  intros c Hc. unfold not_char. apply negb_true_iff.
  destruct (Ascii.eqb c "009") eqn:E; [|done].
  apply Ascii.eqb_eq in E as ->. done.
Qed.

Lemma device_lines_read (devices : list (string * string)) :
  Forall (fun d => device_id_ok (fst d)) devices ->
  List.map (fun line => hd "" (Py.split_on "009" line))
    (List.filter (fun line => nonempty (Py.strip line))
       (map (fun d => fst d +:+ String "009" (snd d)) devices))
  = map fst devices.
Proof.
  induction 1 as [|[id st] ds Hid _ IH]; [done|]. simpl in *.
  rewrite (device_line_kept id st Hid). simpl.
  by rewrite (device_line_id id st Hid), IH.
Qed.

Lemma strip_device_listing (devices : list (string * string)) (trailer : string) :
  Forall (fun d => device_status_ok (snd d)) devices ->
  all_chars Py.isspace trailer = true ->
  Py.strip (device_listing devices +:+ trailer) = device_listing devices.
Proof.
  intros Hsts Hws. unfold Py.strip, device_listing.
  rewrite string_app_assoc.
  change ("List of devices attached" +:+ (device_lines devices +:+ trailer))
    with (String "L" ("ist of devices attached"
                      +:+ (device_lines devices +:+ trailer))).
  cbn [Py.lstrip]. change (Py.isspace "L") with false. cbv iota.
  change (String "L" ("ist of devices attached"
                      +:+ (device_lines devices +:+ trailer)))
    with ("List of devices attached" +:+ (device_lines devices +:+ trailer)).
  rewrite <- string_app_assoc, (rstrip_app_white _ _ Hws).
  by apply device_listing_rstrip.
Qed.

(** X16: [list_connected_devices] reads back what [adb devices] prints.
    When the output is the header line followed by one line per device,
    identifier and status separated by a tab, possibly followed by blank
    space, the result is success with exactly the identifiers, in the
    order printed: the header and the status column are dropped.  (An
    identifier is any non-empty text without white space; a status is any
    non-empty text on one line that does not end in white space.) *)
Theorem list_connected_devices_reads_listing (env : Env)
    (self : AndroidAutomator) (devices : list (string * string))
    (trailer : string) (s : State) :
  Forall (fun d => device_id_ok (fst d)) devices ->
  Forall (fun d => device_status_ok (snd d)) devices ->
  all_chars Py.isspace trailer = true ->
  env_run env (trace s) [adb_path self; "devices"]
  = inl (device_listing devices +:+ trailer) ->
  list_connected_devices env self s
  = (Ok (true, PList (map fst devices)),
     set_trace (trace s ++ [adb_run self ["devices"]]) s).
Proof.
  intros Hids Hsts Hws Hrun.
  unfold list_connected_devices, _run_adb_command, bind, sys_run, request, ret.
  simpl. rewrite Hrun. simpl.
  rewrite (strip_device_listing _ _ Hsts Hws).
  rewrite <- (string_app_nil_r (device_listing devices)) at 1.
  rewrite (strip_device_listing _ "" Hsts eq_refl).
  unfold device_listing.
  rewrite (device_listing_lines _ _ Hids Hsts) by reflexivity.
  simpl tail. by rewrite (device_lines_read _ Hids).
Qed.

Lemma list_connected_devices_reads_listing_witness :
  list_connected_devices
    (quiet_env (device_listing [("emulator-5554", "device");
                                ("TA12345678", "unauthorized")]
                +:+ String "010" (String "010" "")))
    default_android initial_state
  = (Ok (true, PList ["emulator-5554"; "TA12345678"]),
     set_trace [adb_run default_android ["devices"]] initial_state).
Proof.
  apply (list_connected_devices_reads_listing _ default_android
           [("emulator-5554", "device"); ("TA12345678", "unauthorized")]
           (String "010" (String "010" "")) initial_state);
    repeat first [ apply Forall_nil | apply Forall_cons | split | reflexivity ].
Defined.

(** X17: with the Android automator loaded, [adb devices] on such a
    listing makes exactly one request and logs, after the echo, either the
    message that no devices were found (empty listing) or a heading
    followed by one line per identifier in the order printed. *)
Theorem adb_devices_logs_identifiers (env : Env) (text : string)
    (args : list string) (devices : list (string * string)) (trailer : string)
    (s : State) (d : AndroidAutomator) :
  Py.split (Py.lower text) = "adb" :: "devices" :: args ->
  android_automator_instance s = Obj d ->
  Forall (fun dev => device_id_ok (fst dev)) devices ->
  Forall (fun dev => device_status_ok (snd dev)) devices ->
  all_chars Py.isspace trailer = true ->
  env_run env (trace s) [adb_path d; "devices"]
  = inl (device_listing devices +:+ trailer) ->
  process_ui_command env text s
  = (Ok tt,
     mkState (windows_automator_instance s) (android_automator_instance s)
       (log s ++ ("User command: " +:+ text)
              :: match devices with
                 | [] => ["Jarvis (Droid): No devices found connected via ADB."]
                 | _ => "Jarvis (Droid) Connected Devices/Emulators:"
                        :: map (fun dev => "  - " +:+ fst dev) devices
                 end)
       (trace s ++ [adb_run d ["devices"]])).
Proof.
  intros Hsplit Hd Hids Hsts Hws Hrun.
  rewrite (adb_command_loaded env _ _ _ _ _ Hsplit Hd).
  set (s0 := set_log _ s).
  unfold handle_adb_command.
  rewrite (bind_returns _ _ _ _ _ (load_android_automator_loaded env s0 d Hd)).
  change (String.eqb "devices" "devices") with true. cbv iota.
  assert (Hlist : list_connected_devices env d s0
                  = (Ok (true, PList (map fst devices)),
                     set_trace (trace s0 ++ [adb_run d ["devices"]]) s0)).
  { unfold list_connected_devices, _run_adb_command, bind, sys_run, request, ret.
    simpl. rewrite Hrun. simpl.
    rewrite (strip_device_listing _ _ Hsts Hws).
    rewrite <- (string_app_nil_r (device_listing devices)) at 1.
    rewrite (strip_device_listing _ "" Hsts eq_refl).
    unfold device_listing.
    rewrite (device_listing_lines _ _ Hids Hsts) by reflexivity.
    simpl tail. by rewrite (device_lines_read _ Hids). }
  rewrite (bind_returns _ _ _ _ _ Hlist). cbv iota.
  destruct devices as [|dev devs].
  - simpl. unfold log_message, modify, set_log, set_trace. simpl.
    by rewrite <- app_assoc.
  - cbn [map]. rewrite bind_log_message, log_items_appends.
    unfold set_log, set_trace. simpl.
    rewrite <- !app_assoc. simpl. by rewrite map_map.
Qed.

Lemma adb_devices_logs_identifiers_witness :
  log (snd (process_ui_command
              (quiet_env (device_listing [("emulator-5554", "device");
                                          ("TA12345678", "offline")]
                          +:+ String "010" ""))
              "adb devices" (mkState Missing (Obj default_android) [] [])))
  = ["User command: adb devices";
     "Jarvis (Droid) Connected Devices/Emulators:";
     "  - emulator-5554"; "  - TA12345678"].
Proof.
  rewrite (adb_devices_logs_identifiers _ "adb devices" []
             [("emulator-5554", "device"); ("TA12345678", "offline")]
             (String "010" "") _ default_android);
    repeat first [ apply Forall_nil | apply Forall_cons | split | reflexivity ].
Defined.
